(** * CloudMLApp: the asynchronous video job pipeline

    A shallow embedding of the worker side of the application:
    - [app/dynamodb_service.py]  the Progress Tracker (class [DynamoDBService]);
    - [app/s3_config.py], [app/s3_service.py]  object keys and uploads;
    - [app/tasks.py]  the media stages and the orchestrator [process_job_s3];
    - [app/worker.py]  the queue consumer loop;
    - [app/routes/dependencies.py], [app/routes/jobs.py], [app/routes/videos.py]
      what the API answers about a job.

    Python code that talks to the outside (boto3, ffmpeg, the file system, the
    clock, torch, SQLAlchemy) is embedded as state passing over an explicit
    world, and what the outside answers is read from an environment [env] of
    oracles.  An exception raised in Python keeps the effects made before it,
    so the monad below returns the state next to the raised exception. *)

From stdpp Require Import gmap strings list fin_maps pretty sorting.
From Stdlib Require Import ZArith Lia Ascii.

Set Warnings "-register-all,-clear-no-such-hyp".

#[local] Open Scope string_scope.
#[local] Open Scope list_scope.
#[local] Open Scope Z_scope.

(** ** Python values *)

(** JSON-like Python data.  A [float] is kept as its [str()] text, which is
    all the code ever does with one ([Decimal(str(obj))]).  A [dict] keeps
    insertion order, hence an association list. *)
Inductive value : Type :=
| VNone
| VBool (b : bool)
| VInt (n : Z)
| VFloat (repr : string)
| VDecimal (repr : string)
| VStr (s : string)
| VList (items : list value)
| VDict (entries : list (string * value)).

(** Python truthiness, as used by [if result:] and [if thumbs:]. *)
Definition truthy (v : value) : bool :=
  match v with
  | VNone => false
  | VBool b => b
  | VInt n => negb (Z.eqb n 0)
  | VFloat r | VDecimal r =>
      negb (bool_decide (r = "0.0") || bool_decide (r = "-0.0") || bool_decide (r = "0"))
  | VStr s => negb (bool_decide (s = ""))
  | VList l => match l with [] => false | _ => true end
  | VDict d => match d with [] => false | _ => true end
  end.

(** [d.get(k)] on a dict held as an association list. *)
Fixpoint assoc_get (d : list (string * value)) (k : string) : option value :=
  match d with
  | [] => None
  | (k', v) :: rest => if bool_decide (k' = k) then Some v else assoc_get rest k
  end.

(** [d[k] = v]: replaces in place when the key is there, appends otherwise. *)
Fixpoint assoc_set (d : list (string * value)) (k : string) (v : value)
  : list (string * value) :=
  match d with
  | [] => [(k, v)]
  | (k', v') :: rest =>
      if bool_decide (k' = k) then (k, v) :: rest else (k', v') :: assoc_set rest k v
  end.

(** ** Exceptions *)

Inductive exn : Type :=
| ClientError (code : string) (msg : string)
    (* botocore.exceptions.ClientError; [code] is response['Error']['Code'] *)
| HTTPException (status_code : Z) (detail : string)
| RuntimeError (msg : string)
| CalledProcessError (returncode : Z) (cmd : list string)
| OtherException (cls : string) (msg : string).
    (* any other subclass of Exception: OSError, KeyError, BotoCoreError, ... *)

Definition is_ClientError (e : exn) : bool :=
  match e with ClientError _ _ => true | _ => false end.

(** What a call to the outside can raise: an error answered by the AWS
    service, or any other exception of the library underneath. *)
Inductive fault : Type :=
| ServiceError (code : string) (msg : string)
| LibraryError (cls : string) (msg : string).

Definition exn_of_fault (f : fault) : exn :=
  match f with
  | ServiceError code msg => ClientError code msg
  | LibraryError cls msg => OtherException cls msg
  end.

Inductive res (A : Type) : Type :=
| Ret (a : A)
| Raise (e : exn).
Arguments Ret {A} a.
Arguments Raise {A} e.

(** ** The state of the outside world *)

(** A request sent to the DynamoDB table.  An [UpdateExpression] of the form
    [SET a = :a, b = :b] together with its attribute values and names is kept
    as the list of assignments [(a, value of :a)]. *)
Inductive ddb_request : Type :=
| PutItem (item : gmap string value)
| UpdateItem (key : string * string) (sets : list (string * value)).

Record ddb_state : Type := mk_ddb {
  d_table : gmap (string * string) (gmap string value);
      (* items by (qut_username, job_id) *)
  d_requests : list ddb_request;
      (* every request issued so far, oldest first *)
  d_ticks : nat
      (* number of readings of the clock *)
}.

Record s3_object : Type := mk_obj {
  o_body : string;
  o_content_type : string;
  o_sse : string
}.

Record stage_state : Type := mk_stage {
  g_bucket : gmap string s3_object;   (* the bucket, by key *)
  g_puts : list string;               (* keys uploaded so far, oldest first *)
  g_calls : nat;                      (* number of fallible outside calls made *)
  g_model : bool                      (* whether _MODEL has been loaded *)
}.

(** A row of the relational [jobs] table, as the worker's local [Job] class
    sees it. *)
Record job_row : Type := mk_row {
  r_status : string;
  r_result : option value
}.

Record sql_state : Type := mk_sql {
  q_rows : gmap string job_row;       (* rows by job_id *)
  q_calls : nat
}.

(** ** The environment: what the outside answers *)

Record env : Type := mk_env {
  qut_username : string;
      (* DynamoDBService.qut_username *)
  utcnow : nat -> string;
      (* datetime.utcnow().isoformat() at the n-th reading *)
  ddb_fault : nat -> option fault;
      (* what the n-th request to the table raises, if anything *)
  io_fault : nat -> option fault;
      (* what the n-th fallible call of a stage raises, if anything *)
  sql_fault : nat -> option fault;
      (* what the n-th call into SQLAlchemy raises, if anything *)
  sqs_fault : nat -> option fault;
      (* what the n-th call to the queue raises, if anything *)
  sqs_receive : nat -> list (string * string);
      (* the (Body, ReceiptHandle) pairs answered to the n-th call *)
  (* s3_config *)
  bucket_name : string;
  region : string;
  transcoded_prefix : string;
  thumbnails_prefix : string;
  temp_prefix : string;
  upload_prefix : string;
  guess_type : string -> option string;        (* mimetypes.guess_type(key)[0] *)
  (* the worker's machine *)
  which_ffmpeg : option string;                (* shutil.which("ffmpeg") *)
  ffmpeg_exit : list string -> Z;              (* exit status of a command line *)
  listdir : string -> list string;             (* os.listdir, in its own order *)
  path_exists : string -> bool;                (* os.path.exists *)
  read_file : string -> string;                (* contents of a file *)
  mkdtemp : nat -> string;                     (* name of a fresh directory *)
  topk_scores : string -> Z -> exn + list (nat * string);
      (* Image.open .. torch.topk on a frame path: the exception raised, or the
         (index, probability) pairs, a probability being a float *)
  labels_map : option (list string);           (* _LABELS_MAP once loaded *)
  (* library text functions *)
  json_dumps : value -> string;
  parse_descriptor : string -> exn + (string * string);
      (* worker.py 25-27: json.loads(Body), body['job_id'], body['s3_key']:
         what these lines raise, or the two strings read *)
  format_exc : exn -> string;                  (* traceback.format_exc() *)
  str_http : Z -> string -> string;            (* str() of an HTTPException *)
  str_called : Z -> list string -> string;     (* str() of a CalledProcessError *)
  str_unbound : string -> string;
      (* str() of the UnboundLocalError raised when the local variable of this
         name is read before it is bound; the text depends on the interpreter *)
  (* configuration of the relational store *)
  environ : gmap string string;                (* os.environ *)
  secrets_url : exn + string
      (* tasks.py 264-272: the URL built from Secrets Manager, or what was raised *)
}.

(** [str(e)]. *)
Definition str_exn (E : env) (e : exn) : string :=
  match e with
  | ClientError _ msg => msg
  | HTTPException sc d => str_http E sc d
  | RuntimeError msg => msg
  | CalledProcessError rc cmd => str_called E rc cmd
  | OtherException _ msg => msg
  end.

(** ** Computations *)

(** A computation over a state [S]: it reads the environment, returns a value
    or raises, and in both cases leaves a new state. *)
Definition M (S A : Type) : Type := env -> S -> res A * S.

Definition ret {S A} (a : A) : M S A := fun _ s => (Ret a, s).
Definition raise {S A} (e : exn) : M S A := fun _ s => (Raise e, s).
Definition bind {S A B} (m : M S A) (k : A -> M S B) : M S B :=
  fun E s => match m E s with
             | (Ret a, s') => k a E s'
             | (Raise e, s') => (Raise e, s')
             end.
Definition ask {S} : M S env := fun E s => (Ret E, s).

(** [try: m  except Exception as e: h e]. *)
Definition try_except {S A} (m : M S A) (h : exn -> M S A) : M S A :=
  fun E s => match m E s with
             | (Ret a, s') => (Ret a, s')
             | (Raise e, s') => h e E s'
             end.

(** [try: m  except ClientError as e: h e]. *)
Definition try_except_ClientError {S A} (m : M S A) (h : exn -> M S A) : M S A :=
  fun E s => match m E s with
             | (Ret a, s') => (Ret a, s')
             | (Raise e, s') => if is_ClientError e then h e E s' else (Raise e, s')
             end.

Declare Scope py_scope.
Delimit Scope py_scope with py.
Notation "x <- m ;; k" := (bind m (fun x => k))
  (at level 100, m at next level, right associativity) : py_scope.
Notation "m ;;; k" := (bind m (fun _ => k))
  (at level 100, right associativity) : py_scope.
#[local] Open Scope py_scope.

(** Running a computation on a part [X] of a larger state [S]. *)
Definition lift {S X A} (get : S -> X) (set : X -> S -> S) (m : M X A) : M S A :=
  fun E s => match m E (get s) with (r, x) => (r, set x s) end.

(** [for x in xs: body x]. *)
Fixpoint for_each {S A} (xs : list A) (body : A -> M S unit) : M S unit :=
  match xs with
  | [] => ret tt
  | x :: rest => body x ;;; for_each rest body
  end.

(** Services print to standard output; a state with an output carries the
    lines printed so far, oldest first. *)
Definition print {S} (line : string) : M (S * list string) unit :=
  fun _ s => (Ret tt, (s.1, s.2 ++ [line])).

(** ** app/dynamodb_service.py *)

Module DynamoDBService.

Fixpoint _convert_floats_to_decimal (obj : value) : value :=
  match obj with
  | VFloat r => VDecimal r
  | VDict d =>
      VDict (map (fun kv => match kv with
                            | (k, v) => (k, _convert_floats_to_decimal v)
                            end) d)
  | VList l => VList (map _convert_floats_to_decimal l)
  | _ => obj
  end.

(** datetime.utcnow().isoformat() + 'Z' *)
Definition timestamp : M (ddb_state * list string) string :=
  fun E s =>
    let d := s.1 in
    (Ret (utcnow E (d_ticks d) +:+ "Z"),
     (mk_ddb (d_table d) (d_requests d) (S (d_ticks d)), s.2)).

Definition key_attrs (key : string * string) : gmap string value :=
  <["job_id" := VStr key.2]> (<["qut_username" := VStr key.1]> ∅).

Definition apply_sets (sets : list (string * value)) (item : gmap string value)
  : gmap string value :=
  foldl (fun it av => <[av.1 := av.2]> it) item sets.

(** boto3 [Table.put_item]: the item replaces whatever was under its key. *)
Definition put_item (pk sk : string) (item : gmap string value)
  : M (ddb_state * list string) unit :=
  fun E s =>
    let d := s.1 in
    let reqs := d_requests d ++ [PutItem item] in
    match ddb_fault E (length (d_requests d)) with
    | Some f => (Raise (exn_of_fault f), (mk_ddb (d_table d) reqs (d_ticks d), s.2))
    | None => (Ret tt, (mk_ddb (<[(pk, sk) := item]> (d_table d)) reqs (d_ticks d), s.2))
    end.

(** boto3 [Table.update_item] with a SET expression: the named attributes
    are assigned, every other attribute of the item stays; an absent item is
    created from the key. *)
Definition update_item (key : string * string) (sets : list (string * value))
  : M (ddb_state * list string) unit :=
  fun E s =>
    let d := s.1 in
    let reqs := d_requests d ++ [UpdateItem key sets] in
    match ddb_fault E (length (d_requests d)) with
    | Some f => (Raise (exn_of_fault f), (mk_ddb (d_table d) reqs (d_ticks d), s.2))
    | None =>
        let old := default (key_attrs key) (d_table d !! key) in
        (Ret tt, (mk_ddb (<[key := apply_sets sets old]> (d_table d)) reqs (d_ticks d), s.2))
    end.

Definition step_entry (name : string) : value :=
  VDict [("name", VStr name); ("current_status", VStr "pending")].

Definition initial_steps : value :=
  VDict [("1", step_entry "Download from S3");
         ("2", step_entry "Extract thumbnail");
         ("3", step_entry "Transcode video");
         ("4", step_entry "ML prediction");
         ("5", step_entry "Upload results")].

Definition create_job_progress (job_id video_filename owner : string)
  : M (ddb_state * list string) bool :=
  try_except_ClientError
    (E <- ask ;;
     created_at <- timestamp ;;
     updated_at <- timestamp ;;
     let item : gmap string value :=
       list_to_map
         [("qut_username", VStr (qut_username E));
          ("job_id", VStr job_id);
          ("status", VStr "queued");
          ("progress", VInt 0);
          ("current_step", VStr "initialized");
          ("total_steps", VInt 5);
          ("created_at", VStr created_at);
          ("updated_at", VStr updated_at);
          ("video_filename", VStr video_filename);
          ("owner", VStr owner);
          ("steps", initial_steps)] in
     put_item (qut_username E) job_id item ;;;
     print ("✅ Created job progress for " +:+ job_id) ;;;
     ret true)
    (fun e =>
       E <- ask ;;
       print ("❌ Error creating job progress: " +:+ str_exn E e) ;;;
       ret false).

Definition update_job_progress (job_id : string) (progress : Z)
    (current_step : string) (step_status : string) (result : value)
  : M (ddb_state * list string) bool :=
  try_except_ClientError
    (E <- ask ;;
     updated_at <- timestamp ;;
     let sets := [("progress", VInt progress);
                  ("current_step", VStr current_step);
                  ("updated_at", VStr updated_at)] in
     let sets := if truthy result
                 then sets ++ [("ml_result", _convert_floats_to_decimal result)]
                 else sets in
     update_item (qut_username E, job_id) sets ;;;
     print ("✅ Updated job progress for " +:+ job_id +:+ ": "
            +:+ pretty progress +:+ "% - " +:+ current_step) ;;;
     ret true)
    (fun e =>
       E <- ask ;;
       print ("❌ Error updating job progress: " +:+ str_exn E e) ;;;
       ret false).

Definition complete_job (job_id : string) (result : value)
  : M (ddb_state * list string) bool :=
  try_except_ClientError
    (E <- ask ;;
     let ml_result := _convert_floats_to_decimal result in
     updated_at <- timestamp ;;
     update_item (qut_username E, job_id)
       [("status", VStr "completed");
        ("progress", VInt 100);
        ("ml_result", ml_result);
        ("updated_at", VStr updated_at)] ;;;
     print ("✅ Completed job " +:+ job_id) ;;;
     ret true)
    (fun e =>
       E <- ask ;;
       print ("❌ Error completing job: " +:+ str_exn E e) ;;;
       ret false).

Definition fail_job (job_id error_message : string)
  : M (ddb_state * list string) bool :=
  try_except_ClientError
    (E <- ask ;;
     updated_at <- timestamp ;;
     update_item (qut_username E, job_id)
       [("status", VStr "failed");
        ("error_message", VStr error_message);
        ("updated_at", VStr updated_at)] ;;;
     print ("❌ Failed job " +:+ job_id +:+ ": " +:+ error_message) ;;;
     ret true)
    (fun e =>
       E <- ask ;;
       print ("❌ Error failing job: " +:+ str_exn E e) ;;;
       ret false).

(** [get_job_progress], on a table that answers. *)
Definition get_job_progress (E : env) (d : ddb_state) (job_id : string)
  : option (gmap string value) :=
  d_table d !! (qut_username E, job_id).

End DynamoDBService.

(** ** Text and paths *)

Definition ascii_lower (c : ascii) : ascii :=
  let n := nat_of_ascii c in
  if (Nat.leb 65 n && Nat.leb n 90)%bool then ascii_of_nat (n + 32)%nat else c.

(** [s.lower()], on the ASCII letters: no other character lowers to one of
    ".jpg", the only text a lowered name is compared with. *)
Fixpoint lower (s : string) : string :=
  match s with
  | EmptyString => EmptyString
  | String c rest => String (ascii_lower c) (lower rest)
  end.

(** [s.endswith(suffix)]: some tail of [s] is [suffix]. *)
Fixpoint endswith (s suffix : string) : bool :=
  if bool_decide (s = suffix) then true
  else match s with
       | EmptyString => false
       | String _ rest => endswith rest suffix
       end.

(** [s.startswith(prefix)] *)
Definition startswith (s prefix : string) : bool := String.prefix prefix s.

(** [fname.lower().endswith(".jpg")] *)
Definition is_jpg (fname : string) : bool := endswith (lower fname) ".jpg".

(** [os.path.join(a, b)] on POSIX paths. *)
Definition path_join (a b : string) : string :=
  if startswith b "/" then b
  else if bool_decide (a = "") then b
  else if endswith a "/" then a +:+ b
  else a +:+ "/" +:+ b.

(** [os.path.basename(p)]: what follows the last slash. *)
Fixpoint basename_from (p acc : string) : string :=
  match p with
  | EmptyString => acc
  | String c rest =>
      if bool_decide (c = "/"%char) then basename_from rest ""
      else basename_from rest (acc +:+ String c "")
  end.
Definition basename (p : string) : string := basename_from p "".

(** [sorted(names)] on strings: the order of the code points, which is the
    order of the UTF-8 bytes. *)
Definition sorted (names : list string) : list string := merge_sort String.le names.

(** Truthiness of an optional string ([None] and [""] are false). *)
Definition nonempty (o : option string) : option string :=
  match o with
  | Some s => if bool_decide (s = "") then None else Some s
  | None => None
  end.

(** ** app/s3_config.py *)

Module S3Config.

(** [get_upload_key] draws a fresh [uuid4] on every call. *)
Definition get_upload_key (E : env) (uuid4 filename : string) : string :=
  upload_prefix E +:+ uuid4 +:+ "_" +:+ filename.

Definition get_transcoded_key (E : env) (job_id filename : string) : string :=
  transcoded_prefix E +:+ job_id +:+ "/" +:+ filename.

Definition get_thumbnail_key (E : env) (job_id filename : string) : string :=
  thumbnails_prefix E +:+ job_id +:+ "/" +:+ filename.

Definition get_temp_key (E : env) (job_id filename : string) : string :=
  temp_prefix E +:+ job_id +:+ "/" +:+ filename.

End S3Config.

(** ** Calls of the stages to the outside *)

(** A call that may fail: the environment says whether this one raises. *)
Definition outside : M (stage_state * list string) unit :=
  fun E s =>
    let g := s.1 in
    let g' := mk_stage (g_bucket g) (g_puts g) (S (g_calls g)) (g_model g) in
    match io_fault E (g_calls g) with
    | Some f => (Raise (exn_of_fault f), (g', s.2))
    | None => (Ret tt, (g', s.2))
    end.

(** ** app/s3_service.py *)

Module S3Service.

Record upload_result : Type := mk_upload {
  u_success : bool;
  u_key : string;
  u_url : string;
  u_bucket : string
}.

(** boto3 [upload_fileobj]: a PUT, the object takes the place of whatever
    the key held. *)
Definition upload_fileobj (body key content_type sse : string)
  : M (stage_state * list string) unit :=
  outside ;;;
  (fun _ s =>
     let g := s.1 in
     (Ret tt,
      (mk_stage (<[key := mk_obj body content_type sse]> (g_bucket g))
                (g_puts g ++ [key]) (g_calls g) (g_model g), s.2))).

(** boto3 [get_object] *)
Definition get_object (key : string) : M (stage_state * list string) string :=
  outside ;;;
  (fun _ s =>
     match g_bucket s.1 !! key with
     | Some o => (Ret (o_body o), s)
     | None =>
         (Raise (ClientError "NoSuchKey"
            "An error occurred (NoSuchKey) when calling the GetObject operation: The specified key does not exist."),
          s)
     end).

Definition upload_file (file_obj key : string) (content_type : option string)
  : M (stage_state * list string) upload_result :=
  try_except_ClientError
    (E <- ask ;;
     let content_type :=
       match nonempty content_type with
       | Some c => c
       | None =>
           match nonempty (guess_type E key) with
           | Some c => c
           | None => "application/octet-stream"
           end
       end in
     upload_fileobj file_obj key content_type "AES256" ;;;
     let object_url :=
       "https://" +:+ bucket_name E +:+ ".s3." +:+ region E
         +:+ ".amazonaws.com/" +:+ key in
     ret (mk_upload true key object_url (bucket_name E)))
    (fun e =>
       E <- ask ;;
       print ("Error uploading file: " +:+ str_exn E e) ;;;
       raise (HTTPException 500 ("Failed to upload file: " +:+ str_exn E e))).

Definition download_file (key : string) : M (stage_state * list string) string :=
  try_except_ClientError
    (get_object key)
    (fun e =>
       E <- ask ;;
       match e with
       | ClientError code _ =>
           if bool_decide (code = "NoSuchKey")
           then raise (HTTPException 404 "File not found")
           else raise (HTTPException 500 ("Failed to download file: " +:+ str_exn E e))
       | _ => raise e
       end).

End S3Service.

(** ** app/tasks.py: the media stages *)

Module Tasks.

Import S3Config S3Service.

(** [subprocess.run(cmd, check=True)] *)
Definition subprocess_run (cmd : list string) : M (stage_state * list string) unit :=
  E <- ask ;;
  let returncode := ffmpeg_exit E cmd in
  if Z.eqb returncode 0 then ret tt
  else raise (CalledProcessError returncode cmd).

(** [os.makedirs(d, exist_ok=True)], writing a file, [Image] work: calls
    that can fail. *)
Definition makedirs (d : string) : M (stage_state * list string) unit := outside.
Definition write_file (path data : string) : M (stage_state * list string) unit := outside.
Definition open_rb (path : string) : M (stage_state * list string) string :=
  outside ;;; E <- ask ;; ret (read_file E path).
Definition save_thumbnail (first thumbnail_path : string)
  : M (stage_state * list string) unit := outside.

Definition _ensure_model : M (stage_state * list string) bool :=
  fun E s =>
    let g := s.1 in
    if g_model g then (Ret true, s)
    else
      match outside E s with
      | (Raise e, s') => (Raise e, s')
      | (Ret _, s') =>
          (Ret true,
           (mk_stage (g_bucket s'.1) (g_puts s'.1) (g_calls s'.1) true, s'.2))
      end.

(** The command line of [transcode_video]. *)
Definition transcode_cmd (ffmpeg input_path output_path : string) : list string :=
  [ffmpeg; "-y"; "-i"; input_path;
   "-vf"; "scale=1920:1080";
   "-c:v"; "libx264";
   "-preset"; "slow";
   "-crf"; "18";
   "-profile:v"; "high";
   "-level"; "4.1";
   "-bf"; "3";
   "-g"; "60";
   "-keyint_min"; "60";
   "-sc_threshold"; "0";
   "-tune"; "film";
   "-x264opts"; "ref=6:me=umh:subme=9:merange=24:trellis=2:aq-mode=3";
   output_path].

Definition transcode_video (input_path output_path : string)
  : M (stage_state * list string) unit :=
  E <- ask ;;
  match nonempty (which_ffmpeg E) with
  | None => raise (RuntimeError "ffmpeg not found in PATH")
  | Some ffmpeg => subprocess_run (transcode_cmd ffmpeg input_path output_path)
  end.

(** The command line of [extract_frames]. *)
Definition extract_cmd (ffmpeg video_path frames_dir : string) (fps : Z) : list string :=
  let pattern := path_join frames_dir "frame_%05d.jpg" in
  [ffmpeg; "-y"; "-i"; video_path; "-vf"; "fps=" +:+ pretty fps; pattern].

Definition extract_frames (video_path frames_dir : string) (fps : Z)
  : M (stage_state * list string) unit :=
  E <- ask ;;
  match nonempty (which_ffmpeg E) with
  | None => raise (RuntimeError "ffmpeg not found in PATH")
  | Some ffmpeg =>
      makedirs frames_dir ;;;
      subprocess_run (extract_cmd ffmpeg video_path frames_dir fps)
  end.

(** [_LABELS_MAP[idx] if _LABELS_MAP else str(idx)] *)
Definition label_text (lm : option (list string)) (idx : nat) : exn + string :=
  match lm with
  | Some (l0 :: ls) =>
      match (l0 :: ls) !! idx with
      | Some t => inr t
      | None => inl (OtherException "IndexError" "list index out of range")
      end
  | _ => inr (pretty idx)
  end.

(** The loop over [zip(indices, values)]. *)
Fixpoint build_labels (lm : option (list string)) (pairs : list (nat * string))
    (labels : list value) : exn + list value :=
  match pairs with
  | [] => inr labels
  | (idx, p) :: rest =>
      match label_text lm idx with
      | inl e => inl e
      | inr t =>
          build_labels lm rest
            (labels ++ [VDict [("index", VInt (Z.of_nat idx));
                               ("label", VStr t);
                               ("probability", VFloat p)]])
      end
  end.

(** The body of the [try] for one frame: the labels, or what was raised. *)
Definition classify (E : env) (path : string) (topk : Z) : exn + list value :=
  match topk_scores E path topk with
  | inl e => inl e
  | inr pairs => build_labels (labels_map E) pairs []
  end.

Definition frame_entry (E : env) (frames_dir : string) (topk : Z) (fname : string)
  : value :=
  let path := path_join frames_dir fname in
  match classify E path topk with
  | inr labels => VDict [("frame", VStr fname); ("labels", VList labels)]
  | inl e =>
      VDict [("frame", VStr fname);
             ("labels", VList [VDict [("error", VStr (str_exn E e))]])]
  end.

(** [for fname in ...: if not jpg: continue; ...; results.append(...)] *)
Fixpoint inference_loop (E : env) (frames_dir : string) (topk : Z)
    (names : list string) (results : list value) : list value :=
  match names with
  | [] => results
  | fname :: rest =>
      if negb (is_jpg fname) then inference_loop E frames_dir topk rest results
      else inference_loop E frames_dir topk rest
             (results ++ [frame_entry E frames_dir topk fname])
  end.

Definition run_inference_on_frames (frames_dir : string) (topk : Z)
  : M (stage_state * list string) (list value) :=
  loaded <- _ensure_model ;;
  E <- ask ;;
  if loaded : bool
  then ret (inference_loop E frames_dir topk (sorted (listdir E frames_dir)) [])
  else ret [].

(** The result dict of a job, field by field. *)
Record s3_outputs : Type := mk_outputs {
  so_transcoded : option (string * string);             (* key, url *)
  so_thumbnail : option (string * string);              (* key, url *)
  so_frames : option (list (string * string * string))  (* filename, key, url *)
}.

Record job_result : Type := mk_result {
  res_transcoded : option string;
  res_thumbnail : option string;
  res_frames_dir : string;
  res_inference : list value;
  res_s3_outputs : option s3_outputs
}.

Definition opt_str (o : option string) : value :=
  match o with Some s => VStr s | None => VNone end.

Definition key_url (ku : string * string) : value :=
  VDict [("key", VStr ku.1); ("url", VStr ku.2)].

Definition s3_outputs_value (o : s3_outputs) : value :=
  VDict
    ((match so_transcoded o with Some ku => [("transcoded", key_url ku)] | None => [] end)
     ++ (match so_thumbnail o with Some ku => [("thumbnail", key_url ku)] | None => [] end)
     ++ (match so_frames o with
         | Some fs =>
             [("frames",
               VList (map (fun f => VDict [("filename", VStr f.1.1);
                                           ("key", VStr f.1.2);
                                           ("url", VStr f.2)]) fs))]
         | None => []
         end)).

Definition result_value (r : job_result) : value :=
  VDict
    ([("transcoded", opt_str (res_transcoded r));
      ("thumbnail", opt_str (res_thumbnail r));
      ("frames_dir", VStr (res_frames_dir r));
      ("inference", VList (res_inference r))]
     ++ match res_s3_outputs r with
        | Some o => [("s3_outputs", s3_outputs_value o)]
        | None => []
        end).

Definition process_job (video_path out_dir : string) (fps : Z)
  : M (stage_state * list string) job_result :=
  E <- ask ;;
  makedirs out_dir ;;;
  let transcoded := path_join out_dir "transcoded.mp4" in
  let frames_dir := path_join out_dir "frames" in
  makedirs frames_dir ;;;
  transcode_video video_path transcoded ;;;
  extract_frames transcoded frames_dir fps ;;;
  inference <- try_except
                 (run_inference_on_frames frames_dir 3)
                 (fun e => ret [VDict [("error", VStr (str_exn E e));
                                       ("trace", VStr (format_exc E e))]]) ;;
  let thumbs := sorted (filter (fun f => is_jpg f = true) (listdir E frames_dir)) in
  thumbnail_path <-
    match thumbs with
    | first_name :: _ =>
        let first := path_join frames_dir first_name in
        let thumbnail_path := path_join out_dir "thumbnail.jpg" in
        save_thumbnail first thumbnail_path ;;;
        ret (Some thumbnail_path)
    | [] => ret None
    end ;;
  let result :=
    mk_result
      (if path_exists E transcoded then Some (basename transcoded) else None)
      (basename <$> nonempty thumbnail_path)
      frames_dir
      inference
      None in
  try_except
    (write_file (path_join out_dir "result.json") (json_dumps E (result_value result)))
    (fun _ => ret tt) ;;;
  ret result.

End Tasks.

(** ** The whole world seen by a worker process *)

Record world : Type := mk_world {
  w_ddb : ddb_state;
  w_stage : stage_state;
  w_sql : sql_state;
  w_deleted : list string;    (* receipt handles deleted from the queue, oldest first *)
  w_sqs_calls : nat;          (* number of calls made to the queue *)
  w_out : list string         (* standard output, oldest line first *)
}.

Definition on_ddb {A} (m : M (ddb_state * list string) A) : M world A :=
  lift (fun w => (w_ddb w, w_out w))
       (fun x w => mk_world x.1 (w_stage w) (w_sql w) (w_deleted w) (w_sqs_calls w) x.2)
       m.

Definition on_stage {A} (m : M (stage_state * list string) A) : M world A :=
  lift (fun w => (w_stage w, w_out w))
       (fun x w => mk_world (w_ddb w) x.1 (w_sql w) (w_deleted w) (w_sqs_calls w) x.2)
       m.

Definition on_sql {A} (m : M (sql_state * list string) A) : M world A :=
  lift (fun w => (w_sql w, w_out w))
       (fun x w => mk_world (w_ddb w) (w_stage w) x.1 (w_deleted w) (w_sqs_calls w) x.2)
       m.

(** [print] from the orchestrator and the worker. *)
Definition say (line : string) : M world unit :=
  fun _ w =>
    (Ret tt,
     mk_world (w_ddb w) (w_stage w) (w_sql w) (w_deleted w) (w_sqs_calls w)
              (w_out w ++ [line])).

(** ** app/tasks.py: the orchestrator *)

Module Orchestrator.

Import S3Config S3Service Tasks.

(** What [process_job_s3] returns: the result dict, or the dict with the
    keys [error], [trace] and [s3_input_key]. *)
Inductive outcome : Type :=
| Done (result : job_result)
| Failed (error trace s3_input_key : string).

Definition outcome_value (o : outcome) : value :=
  match o with
  | Done r => result_value r
  | Failed error trace key =>
      VDict [("error", VStr error); ("trace", VStr trace); ("s3_input_key", VStr key)]
  end.

(** [tempfile.TemporaryDirectory()]; its release on exit is taken to
    succeed. *)
Definition TemporaryDirectory : M (stage_state * list string) string :=
  fun E s =>
    match outside E s with
    | (Ret _, s') => (Ret (mkdtemp E (g_calls s.1)), s')
    | (Raise e, s') => (Raise e, s')
    end.

(** One artifact: [if result.get(name): ... if os.path.exists(path): ...] *)
Definition upload_artifact (temp_dir : string) (name : option string)
    (key_of : string -> string) (content_type : string)
  : M (stage_state * list string) (option (string * string)) :=
  E <- ask ;;
  match nonempty name with
  | Some filename =>
      let path := path_join temp_dir filename in
      if path_exists E path then
        let key := key_of filename in
        f <- open_rb path ;;
        upload_result <- upload_file f key (Some content_type) ;;
        ret (Some (key, u_url upload_result))
      else ret None
  | None => ret None
  end.

(** [for frame_file in frame_files[:5]: ...] *)
Fixpoint upload_frames (job_id frames_dir : string) (frame_files : list string)
    (frames : list (string * string * string))
  : M (stage_state * list string) (list (string * string * string)) :=
  match frame_files with
  | [] => ret frames
  | frame_file :: rest =>
      E <- ask ;;
      let frame_path := path_join frames_dir frame_file in
      let frame_key := get_temp_key E job_id ("frames/" +:+ frame_file) in
      f <- open_rb frame_path ;;
      upload_result <- upload_file f frame_key (Some "image/jpeg") ;;
      upload_frames job_id frames_dir rest
        (frames ++ [(frame_file, frame_key, u_url upload_result)])
  end.

(** tasks.py 173-224: the uploads. *)
Definition upload_outputs (job_id temp_dir : string) (result : job_result)
  : M (stage_state * list string) job_result :=
  E <- ask ;;
  transcoded <- upload_artifact temp_dir (res_transcoded result)
                  (get_transcoded_key E job_id) "video/mp4" ;;
  thumbnail <- upload_artifact temp_dir (res_thumbnail result)
                 (get_thumbnail_key E job_id) "image/jpeg" ;;
  let frames_dir := res_frames_dir result in
  frames <-
    (if (negb (bool_decide (frames_dir = "")) && path_exists E frames_dir)%bool
     then
       let frame_files := filter (fun f => is_jpg f = true) (listdir E frames_dir) in
       fs <- upload_frames job_id frames_dir (take 5 frame_files) [] ;;
       ret (Some fs)
     else ret None) ;;
  let result :=
    mk_result (res_transcoded result) (res_thumbnail result) (res_frames_dir result)
              (res_inference result)
              (Some (mk_outputs transcoded thumbnail frames)) in
  let result_key := get_temp_key E job_id "result.json" in
  let result_json := json_dumps E (result_value result) in
  upload_file result_json result_key (Some "application/json") ;;;
  ret result.

(** A call into SQLAlchemy. *)
Definition sql_call : M (sql_state * list string) unit :=
  fun E s =>
    let q := s.1 in
    let q' := mk_sql (q_rows q) (S (q_calls q)) in
    match sql_fault E (q_calls q) with
    | Some f => (Raise (exn_of_fault f), (q', s.2))
    | None => (Ret tt, (q', s.2))
    end.

Definition getenv (E : env) (name fallback : string) : string :=
  default fallback (environ E !! name).

(** tasks.py 255-289: where the database is; [None] is the early return. *)
Definition database_url : M (sql_state * list string) (option string) :=
  E <- ask ;;
  from_env <-
    match nonempty (environ E !! "DATABASE_URL") with
    | Some url => print "🔗 Using DATABASE_URL from environment" ;;; ret (Some url)
    | None => ret None
    end ;;
  from_secret <-
    match from_env with
    | Some url => ret (Some url)
    | None =>
        match secrets_url E with
        | inr url => print "🔗 Using database URL from Secrets Manager" ;;; ret (Some url)
        | inl e =>
            print ("⚠️ Could not get DB config from Secrets Manager: " +:+ str_exn E e) ;;;
            ret None
        end
    end ;;
  match nonempty from_secret with
  | Some url => ret (Some url)
  | None =>
      let host := getenv E "RDS_HOST"
                    "database-1-instance-1.ce2haupt2cta.ap-southeast-2.rds.amazonaws.com" in
      let port := getenv E "RDS_PORT" "5432" in
      let database := getenv E "RDS_DB_NAME" "cohort_2025" in
      let username := getenv E "RDS_USERNAME" "" in
      let password := getenv E "RDS_PASSWORD" "" in
      if (negb (bool_decide (username = "")) && negb (bool_decide (password = "")))%bool
      then
        print "🔗 Using database URL from environment variables" ;;;
        ret (Some ("postgresql+psycopg2://" +:+ username +:+ ":" +:+ password +:+ "@"
                   +:+ host +:+ ":" +:+ port +:+ "/" +:+ database +:+ "?sslmode=require"))
      else
        print "⚠️ No database credentials available, skipping SQL update" ;;;
        ret None
  end.

(** tasks.py 230-317: the write to the relational store. *)
Definition update_sql_database (job_id : string) (result : job_result)
  : M (sql_state * list string) unit :=
  try_except
    (E <- ask ;;
     url <- database_url ;;
     match url with
     | None => ret tt
     | Some _ =>
         sql_call ;;;                                  (* create_engine .. SessionLocal() *)
         print "🔗 Database connection created successfully" ;;;
         print ("🔍 Looking for job " +:+ job_id +:+ " in SQL database...") ;;;
         sql_call ;;;                                  (* db.query(Job).filter(..).first() *)
         (fun E s =>
            match q_rows s.1 !! job_id with
            | Some job =>
                (print ("🔍 Found job " +:+ job_id +:+ " with status: " +:+ r_status job) ;;;
                 sql_call ;;;                          (* db.commit() *)
                 (fun _ s =>
                    (Ret tt,
                     (mk_sql (<[job_id := mk_row "done" (Some (result_value result))]>
                                (q_rows s.1)) (q_calls s.1), s.2))) ;;;
                 print ("✅ Updated SQL database for job " +:+ job_id)) E s
            | None =>
                (print ("⚠️ Job " +:+ job_id +:+ " not found in SQL database") ;;;
                 sql_call ;;;                          (* db.query(Job).all() *)
                 print "🔍 Available jobs: [...]") E s
            end) ;;;
         sql_call                                      (* db.close() *)
     end)
    (fun sql_error =>
       E <- ask ;;
       print ("⚠️ Failed to update SQL database: " +:+ str_exn E sql_error)).

(** tasks.py 152-319: the body of the [try]. *)
Definition pipeline (s3_input_key job_id : string) (fps : Z) (temp_dir : string)
  : M world job_result :=
  on_ddb (DynamoDBService.update_job_progress job_id 20 "download"
            "Downloading video from S3..." VNone) ;;;
  let input_video_path := path_join temp_dir "input_video.mp4" in
  video_data <- on_stage (download_file s3_input_key) ;;
  on_stage (write_file input_video_path video_data) ;;;
  on_ddb (DynamoDBService.update_job_progress job_id 40 "thumbnail"
            "Extracting thumbnail..." VNone) ;;;
  result <- on_stage (process_job input_video_path temp_dir fps) ;;
  on_ddb (DynamoDBService.update_job_progress job_id 60 "transcode"
            "Transcoding video..." VNone) ;;;
  on_ddb (DynamoDBService.update_job_progress job_id 80 "ml_prediction"
            "Running ML predictions..." VNone) ;;;
  result <- on_stage (upload_outputs job_id temp_dir result) ;;
  on_ddb (DynamoDBService.update_job_progress job_id 100 "complete"
            "Job completed successfully!" VNone) ;;;
  on_ddb (DynamoDBService.complete_job job_id (result_value result)) ;;;
  on_sql (update_sql_database job_id result) ;;;
  ret result.

(** tasks.py 325-330: the writes of the failure. *)
Definition report_failure (job_id : string) (e : exn) : M world unit :=
  try_except
    (E <- ask ;;
     on_ddb (DynamoDBService.update_job_progress job_id 0 "error"
               ("Job failed: " +:+ str_exn E e) VNone) ;;;
     on_ddb (DynamoDBService.fail_job job_id (str_exn E e)) ;;;
     ret tt)
    (fun db_error =>
       E <- ask ;;
       say ("Failed to update DynamoDB with error status: " +:+ str_exn E db_error)).

(** The name [traceback] inside [process_job_s3].  The function holds an
    [import traceback] (tasks.py 316, in the handler of the SQL update), so
    the name is a local variable of the whole function and the module
    imported at the top of the file is hidden.  The local is bound only when
    line 316 runs, and what follows line 316 in the [try] (line 317, a
    write to the standard error, and the [return]) raises nothing: whenever
    the handler of line 321 runs, the local is not bound, and reading it
    raises [UnboundLocalError]. *)
Definition unbound_traceback (E : env) : exn :=
  OtherException "UnboundLocalError" (str_unbound E "traceback").

(** tasks.py 323: [traceback.print_exc()] in the handler of line 321. *)
Definition traceback_print_exc : M world unit :=
  E <- ask ;;
  raise (unbound_traceback E).

(** [process_job_s3].  Taken not to raise: the imports and
    [DynamoDBService()] of its first lines (they make no call to the
    outside on a machine that is set up) and the release of the temporary
    directory when the [with] block is left.  In the handler, line 323
    raises before the writes of the failure (325-330) and the [return] of
    the failure outcome (332-336) are reached; they are kept here as the
    source has them. *)
Definition process_job_s3 (s3_input_key job_id : string) (fps : Z) : M world outcome :=
  temp_dir <- on_stage TemporaryDirectory ;;
  try_except
    (result <- pipeline s3_input_key job_id fps temp_dir ;;
     ret (Done result))
    (fun e =>
       E <- ask ;;
       say ("Error processing job " +:+ job_id +:+ ": " +:+ str_exn E e) ;;;
       traceback_print_exc ;;;
       report_failure job_id e ;;;
       ret (Failed (str_exn E e) (format_exc E e) s3_input_key)).

End Orchestrator.

(** ** app/sqs_service.py and app/worker.py *)

Module Worker.

Import Orchestrator.

Record message : Type := mk_message {
  Body : string;
  ReceiptHandle : string
}.

Definition sqs_call : M world unit :=
  fun E w =>
    let w' := mk_world (w_ddb w) (w_stage w) (w_sql w) (w_deleted w)
                       (S (w_sqs_calls w)) (w_out w) in
    match sqs_fault E (w_sqs_calls w) with
    | Some f => (Raise (exn_of_fault f), w')
    | None => (Ret tt, w')
    end.

Definition receive_messages : M world (list message) :=
  fun E w =>
    match sqs_call E w with
    | (Ret _, w') =>
        (Ret (map (fun br => mk_message br.1 br.2) (sqs_receive E (w_sqs_calls w))), w')
    | (Raise e, w') => (Raise e, w')
    end.

Definition delete_message (receipt_handle : string) : M world unit :=
  sqs_call ;;;
  (fun _ w =>
     (Ret tt,
      mk_world (w_ddb w) (w_stage w) (w_sql w) (w_deleted w ++ [receipt_handle])
               (w_sqs_calls w) (w_out w))).

(** worker.py 24-43: the body of [for message in messages]. *)
Definition handle_message (msg : message) : M world unit :=
  try_except
    (E <- ask ;;
     match parse_descriptor E (Body msg) with
     | inl e => raise e
     | inr (job_id, s3_key) =>
         say ("📥 Processing job: " +:+ job_id) ;;;
         result <- process_job_s3 s3_key job_id 1 ;;
         say ("✅ Job completed: " +:+ job_id) ;;;
         delete_message (ReceiptHandle msg)
     end)
    (fun e =>
       E <- ask ;;
       say ("❌ Error processing message: " +:+ str_exn E e)).

(** One turn of [while True]. *)
Definition poll : M world unit :=
  messages <- receive_messages ;;
  for_each messages handle_message.

(** [main], cut after [turns] turns of the loop; [receive_messages] is
    outside the [try], and what it raises ends the loop. *)
Fixpoint main_loop (turns : nat) : M world unit :=
  match turns with
  | O => ret tt
  | S n => poll ;;; main_loop n
  end.

Definition main (turns : nat) : M world unit :=
  say "🚀 Starting Video Processing Worker..." ;;;
  main_loop turns.

End Worker.

(** ** Observations used in the statements *)

(** The progress value a request assigns, with the job it is for. *)
Definition written_progress (r : ddb_request) : option (string * Z) :=
  match r with
  | UpdateItem key sets =>
      match assoc_get sets "progress" with
      | Some (VInt p) => Some (key.2, p)
      | _ => None
      end
  | PutItem _ => None
  end.

Definition progress_written (reqs : list ddb_request) : list (string * Z) :=
  omap written_progress reqs.

(** The [current_status] of every entry of a [steps] table, in order. *)
Definition step_statuses (steps : value) : list value :=
  match steps with
  | VDict entries =>
      map (fun kv => match kv.2 with
                     | VDict fields => default VNone (assoc_get fields "current_status")
                     | _ => VNone
                     end) entries
  | _ => []
  end.

(** The operations of the Progress Tracker that follow the creation of a
    record, and a run of any number of them. *)
Inductive tracker_op : Type :=
| OpUpdate (job_id : string) (progress : Z) (current_step step_status : string)
           (result : value)
| OpComplete (job_id : string) (result : value)
| OpFail (job_id error_message : string).

Definition run_op (op : tracker_op) : M (ddb_state * list string) bool :=
  match op with
  | OpUpdate j p c ss r => DynamoDBService.update_job_progress j p c ss r
  | OpComplete j r => DynamoDBService.complete_job j r
  | OpFail j msg => DynamoDBService.fail_job j msg
  end.

Fixpoint run_ops (ops : list tracker_op) (E : env) (s : ddb_state * list string)
  : ddb_state * list string :=
  match ops with
  | [] => s
  | op :: rest => run_ops rest E (run_op op E s).2
  end.

(** The table after a request [UpdateItem key sets] issued in state [d]. *)
Definition table_after_update (E : env) (key : string * string)
    (sets : list (string * value)) (d : ddb_state)
  : gmap (string * string) (gmap string value) :=
  match ddb_fault E (length (d_requests d)) with
  | None =>
      <[key := DynamoDBService.apply_sets sets
                 (default (DynamoDBService.key_attrs key) (d_table d !! key))]> (d_table d)
  | Some _ => d_table d
  end.

(** What a tracker operation answers to a request issued in state [d]. *)
Definition answer_after_update (E : env) (d : ddb_state) : res bool :=
  match ddb_fault E (length (d_requests d)) with
  | None => Ret true
  | Some f => if is_ClientError (exn_of_fault f) then Ret false else Raise (exn_of_fault f)
  end.

(** The assignments of the three writes of the tracker, issued in state [d]. *)
Definition progress_sets (E : env) (d : ddb_state) (progress : Z)
    (current_step : string) (result : value) : list (string * value) :=
  [("progress", VInt progress);
   ("current_step", VStr current_step);
   ("updated_at", VStr (utcnow E (d_ticks d) +:+ "Z"))]
  ++ (if truthy result
      then [("ml_result", DynamoDBService._convert_floats_to_decimal result)]
      else []).

Definition complete_sets (E : env) (d : ddb_state) (result : value)
  : list (string * value) :=
  [("status", VStr "completed");
   ("progress", VInt 100);
   ("ml_result", DynamoDBService._convert_floats_to_decimal result);
   ("updated_at", VStr (utcnow E (d_ticks d) +:+ "Z"))].

Definition fail_sets (E : env) (d : ddb_state) (error_message : string)
  : list (string * value) :=
  [("status", VStr "failed");
   ("error_message", VStr error_message);
   ("updated_at", VStr (utcnow E (d_ticks d) +:+ "Z"))].

Definition state_after_update (E : env) (key : string * string)
    (sets : list (string * value)) (d : ddb_state) : ddb_state :=
  mk_ddb (table_after_update E key sets d)
         (d_requests d ++ [UpdateItem key sets]) (S (d_ticks d)).

(** A computation that leaves an observation [f] of the state as it was,
    whatever it returns or raises. *)
Definition pres {S A X} (f : S -> X) (m : M S A) : Prop :=
  forall E s, f (m E s).2 = f s.

(** A computation that always returns. *)
Definition total {S A} (m : M S A) : Prop :=
  forall E s, exists a s', m E s = (Ret a, s').

(** A computation that leaves an observation [f] as it was whenever it
    raises. *)
Definition raises_keep {S A X} (f : S -> X) (m : M S A) : Prop :=
  forall E s e s', m E s = (Raise e, s') -> f s' = f s.

(** The tracker after the six writes of a run that went through. *)
Definition tracker_after_success (E : env) (job_id : string) (result : value)
    (d : ddb_state) : ddb_state :=
  let key := (qut_username E, job_id) in
  let d1 := state_after_update E key (progress_sets E d 20 "download" VNone) d in
  let d2 := state_after_update E key (progress_sets E d1 40 "thumbnail" VNone) d1 in
  let d3 := state_after_update E key (progress_sets E d2 60 "transcode" VNone) d2 in
  let d4 := state_after_update E key (progress_sets E d3 80 "ml_prediction" VNone) d3 in
  let d5 := state_after_update E key (progress_sets E d4 100 "complete" VNone) d4 in
  state_after_update E key (complete_sets E d5 result) d5.

(** The writes that the [try] body of a run issues, in their order, and the
    tracker after the first of them. *)
Inductive tracker_write : Type :=
| WProgress (progress : Z) (current_step : string)
| WComplete (result : value).

Definition write_sets (E : env) (d : ddb_state) (wr : tracker_write)
  : list (string * value) :=
  match wr with
  | WProgress p c => progress_sets E d p c VNone
  | WComplete r => complete_sets E d r
  end.

Fixpoint tracker_after_writes (E : env) (job_id : string) (ws : list tracker_write)
    (d : ddb_state) : ddb_state :=
  match ws with
  | [] => d
  | wr :: rest =>
      tracker_after_writes E job_id rest
        (state_after_update E (qut_username E, job_id) (write_sets E d wr) d)
  end.

Definition schedule (result : value) : list tracker_write :=
  [WProgress 20 "download"; WProgress 40 "thumbnail"; WProgress 60 "transcode";
   WProgress 80 "ml_prediction"; WProgress 100 "complete"; WComplete result].

(** The progress value a write assigns. *)
Definition write_progress (wr : tracker_write) : Z :=
  match wr with
  | WProgress p _ => p
  | WComplete _ => 100
  end.

(** An attribute of the record under a key, if there is one. *)
Definition attribute (d : ddb_state) (key : string * string) (a : string)
  : option value :=
  d_table d !! key ≫= (fun item => item !! a).

(** The step label a request assigns. *)
Definition written_step (r : ddb_request) : option string :=
  match r with
  | UpdateItem key sets =>
      match assoc_get sets "current_step" with
      | Some (VStr c) => Some c
      | _ => None
      end
  | PutItem _ => None
  end.

(** ** A worker machine for the examples

    ffmpeg where [which] says, a tracker and stages that fail as [tracker]
    and [stage] say, a frames directory of two frames and a text file, a
    model of two classes that cannot read the first frame. *)
Definition demo_machine (which : option string) (tracker stage : nat -> option fault)
  : env :=
  {| qut_username := "n11086840@qut.edu.au";
     utcnow := fun n => "2025-01-01T00:00:0" +:+ pretty n;
     ddb_fault := tracker;
     io_fault := stage;
     sql_fault := fun _ => None;
     sqs_fault := fun _ => None;
     sqs_receive := fun _ => [];
     bucket_name := "n11086840-video-ml-transcode-bucket";
     region := "ap-southeast-2";
     transcoded_prefix := "transcoded/";
     thumbnails_prefix := "thumbnails/";
     temp_prefix := "temp/";
     upload_prefix := "uploads/";
     guess_type := fun _ => None;
     which_ffmpeg := which;
     ffmpeg_exit := fun _ => 0;
     listdir := fun _ => ["frame_00002.jpg"; "notes.txt"; "frame_00001.JPG"];
     path_exists := fun _ => true;
     read_file := fun path => "contents of " +:+ path;
     mkdtemp := fun _ => "/tmp/tmpjob";
     topk_scores := fun path _ =>
       if bool_decide (path = "/tmp/tmpjob/frames/frame_00001.JPG")
       then inl (OtherException "UnidentifiedImageError" "cannot identify image file")
       else inr [(1%nat, "0.9"); (0%nat, "0.1")];
     labels_map := Some ["cat"; "dog"];
     json_dumps := fun _ => "{}";
     parse_descriptor := fun body =>
       if bool_decide (body = "{job-1}") then inr ("job-1", "uploads/v.mp4")
       else if bool_decide (body = "{job-2}") then inr ("job-2", "uploads/missing.mp4")
       else inl (OtherException "JSONDecodeError" "Expecting value: line 1 column 1 (char 0)");
     format_exc := fun _ => "Traceback (most recent call last): ...";
     str_http := fun status_code detail => pretty status_code +:+ ": " +:+ detail;
     str_called := fun returncode _ =>
       "Command returned non-zero exit status " +:+ pretty returncode +:+ ".";
     str_unbound := fun name =>
       "cannot access local variable '" +:+ name
       +:+ "' where it is not associated with a value";
     environ := <["DATABASE_URL" := "postgresql+psycopg2://app:secret@db:5432/cohort_2025"]> ∅;
     secrets_url := inl (OtherException "NoCredentialsError" "Unable to locate credentials")
  |}.

Definition demo_env : env :=
  demo_machine (Some "/usr/bin/ffmpeg") (fun _ => None) (fun _ => None).

Definition demo_item (job_id : string) : gmap string value :=
  list_to_map
    [("qut_username", VStr "n11086840@qut.edu.au");
     ("job_id", VStr job_id);
     ("status", VStr "queued");
     ("progress", VInt 0);
     ("current_step", VStr "initialized");
     ("total_steps", VInt 5);
     ("created_at", VStr "2025-01-01T00:00:00Z");
     ("updated_at", VStr "2025-01-01T00:00:00Z");
     ("video_filename", VStr "v.mp4");
     ("owner", VStr "alice");
     ("steps", DynamoDBService.initial_steps)].

Definition demo_ddb : ddb_state :=
  mk_ddb (<[("n11086840@qut.edu.au", "job-1") := demo_item "job-1"]>
            (<[("n11086840@qut.edu.au", "job-2") := demo_item "job-2"]> ∅)) [] 0.

Definition demo_stage : stage_state :=
  mk_stage (<["uploads/v.mp4" := mk_obj "video bytes" "video/mp4" "AES256"]> ∅) [] 0 false.

Definition demo_sql : sql_state :=
  mk_sql (<["job-1" := mk_row "queued" None]> (<["job-2" := mk_row "queued" None]> ∅)) 0.

Definition demo_world : world := mk_world demo_ddb demo_stage demo_sql [] 0 [].

(** A machine without ffmpeg. *)
Definition demo_env_no_ffmpeg : env :=
  demo_machine None (fun _ => None) (fun _ => None).

(** The run of job-1, whose input is in the bucket, and the run of job-2,
    whose input is not. *)
Definition demo_run : res Orchestrator.outcome * world :=
  Orchestrator.process_job_s3 "uploads/v.mp4" "job-1" 1 demo_env demo_world.

Definition demo_result : Tasks.job_result :=
  Eval vm_compute in
    match demo_run.1 with
    | Ret (Orchestrator.Done r) => r
    | _ => Tasks.mk_result None None "" [] None
    end.

Definition demo_failed_run : res Orchestrator.outcome * world :=
  Orchestrator.process_job_s3 "uploads/missing.mp4" "job-2" 1 demo_env demo_world.

(** A computation of a stage that, from every state, returns [a] and uploads
    the keys [keys], in this order. *)
Definition uploads {A} (E : env) (m : M (stage_state * list string) A) (a : A)
    (keys : list string) : Prop :=
  forall s, exists s', m E s = (Ret a, s') /\ g_puts s'.1 = g_puts s.1 ++ keys.

(** A computation of a stage whose result and uploads do not depend on the
    state it starts from. *)
Definition steady {A} (E : env) (m : M (stage_state * list string) A) : Prop :=
  exists a keys, uploads E m a keys.






(** ** More of the code: observations on values *)

(** Whether a [float] occurs anywhere in a value. *)
Fixpoint has_float (v : value) : bool :=
  match v with
  | VFloat _ => true
  | VList l => existsb has_float l
  | VDict d => existsb (fun kv => has_float kv.2) d
  | _ => false
  end.

(** Whether a character occurs in a string. *)
Fixpoint has_char (c : ascii) (s : string) : bool :=
  match s with
  | EmptyString => false
  | String c' rest => if bool_decide (c' = c) then true else has_char c rest
  end.

(** [sub in s] on strings: some tail of [s] starts with [sub]. *)
Fixpoint is_substring (sub s : string) : bool :=
  if String.prefix sub s then true
  else match s with
       | EmptyString => false
       | String _ rest => is_substring sub rest
       end.

(** [k in v] for a string [k]: a key of a dict, an item of a list, a part
    of a string; anything else cannot be searched. *)
Definition py_contains (k : string) (v : value) : exn + bool :=
  match v with
  | VDict d => inr (bool_decide (is_Some (assoc_get d k)))
  | VList l =>
      inr (existsb (fun x => match x with
                             | VStr s => bool_decide (s = k)
                             | _ => false
                             end) l)
  | VStr s => inr (is_substring k s)
  | _ => inl (OtherException "TypeError" "argument is not iterable")
  end.

(** [v[k]] for a string [k]. *)
Definition py_getitem (v : value) (k : string) : exn + value :=
  match v with
  | VDict d =>
      match assoc_get d k with
      | Some x => inr x
      | None => inl (OtherException "KeyError" k)
      end
  | VList _ => inl (OtherException "TypeError" "list indices must be integers or slices, not str")
  | VStr _ => inl (OtherException "TypeError" "string indices must be integers, not 'str'")
  | _ => inl (OtherException "TypeError" "object is not subscriptable")
  end.

(** [len(v)] *)
Definition py_len (v : value) : exn + Z :=
  match v with
  | VDict d => inr (Z.of_nat (length d))
  | VList l => inr (Z.of_nat (length l))
  | VStr s => inr (Z.of_nat (String.length s))
  | _ => inl (OtherException "TypeError" "object has no len()")
  end.

(** A value or an exception, as a computation. *)
Definition of_sum {S A} (r : exn + A) : M S A :=
  match r with
  | inr a => ret a
  | inl e => raise e
  end.

(** ** app/s3_service.py: the other operations on objects *)

Module S3Files.

Import S3Service.

(** boto3 [head_object] *)
Definition head_object (key : string) : M (stage_state * list string) s3_object :=
  outside ;;;
  (fun _ s =>
     match g_bucket s.1 !! key with
     | Some o => (Ret o, s)
     | None =>
         (Raise (ClientError "404"
            "An error occurred (404) when calling the HeadObject operation: Not Found"),
          s)
     end).

(** boto3 [delete_object]: the key is gone afterwards; an absent key is no
    error. *)
Definition delete_object (key : string) : M (stage_state * list string) unit :=
  outside ;;;
  (fun _ s =>
     let g := s.1 in
     (Ret tt,
      (mk_stage (delete key (g_bucket g)) (g_puts g) (g_calls g) (g_model g), s.2))).

(** boto3 [copy_object] within the bucket. *)
Definition copy_object (source_key dest_key : string)
  : M (stage_state * list string) unit :=
  outside ;;;
  (fun _ s =>
     let g := s.1 in
     match g_bucket g !! source_key with
     | Some o =>
         (Ret tt,
          (mk_stage (<[dest_key := o]> (g_bucket g)) (g_puts g) (g_calls g) (g_model g),
           s.2))
     | None =>
         (Raise (ClientError "NoSuchKey"
            "An error occurred (NoSuchKey) when calling the CopyObject operation: The specified key does not exist."),
          s)
     end).

Definition delete_file (key : string) : M (stage_state * list string) bool :=
  try_except_ClientError
    (delete_object key ;;; ret true)
    (fun e =>
       E <- ask ;;
       print ("Error deleting file: " +:+ str_exn E e) ;;;
       ret false).

Definition file_exists (key : string) : M (stage_state * list string) bool :=
  try_except_ClientError
    (head_object key ;;; ret true)
    (fun e =>
       E <- ask ;;
       match e with
       | ClientError code _ =>
           if bool_decide (code = "404") then ret false
           else raise (HTTPException 500
                         ("Error checking file existence: " +:+ str_exn E e))
       | _ => raise e
       end).

Definition copy_file (source_key dest_key : string)
  : M (stage_state * list string) bool :=
  try_except_ClientError
    (copy_object source_key dest_key ;;; ret true)
    (fun e =>
       E <- ask ;;
       print ("Error copying file: " +:+ str_exn E e) ;;;
       ret false).

End S3Files.

(** ** app/routes: what the API answers about a job *)

Module Routes.

Import Orchestrator.

(** The [user] dict that [get_current_user] builds. *)
Record user : Type := mk_user {
  username : string;
  role : string;
  groups : list string
}.

(** What the API is given besides the stores: the signer of the S3 client,
    the configured expiry, [repr] of a list of strings, what a read of the
    DynamoDB table raises, if anything, and what pydantic makes of a value
    that is not a dict where the schema asks for [Dict[str, Any]]. *)
Record web : Type := mk_web {
  presign : string -> value -> Z -> exn + string;
      (* s3_client.generate_presigned_url(operation, Key, ExpiresIn) *)
  presigned_url_expiry : Z;
  repr_list : list string -> string;
  get_item_fault : option fault;
  coerce_dict : value -> exn + list (string * value)
}.

(** routes/dependencies.py *)
Definition admin_required (W : web) (u : user) : exn + user :=
  let role := lower (role u) in
  let is_admin_role := bool_decide (role = "admin") in
  let groups := map lower (groups u) in
  let is_admin_group := bool_decide ("admin" ∈ groups) in
  if negb (is_admin_role || is_admin_group)
  then inl (HTTPException 403
              ("Admin privileges required. Current role: " +:+ Routes.role u
               +:+ ", Groups: " +:+ repr_list W (Routes.groups u)))
  else inr u.

(** routes/dependencies.py: [group_required(group_name)] *)
Definition group_required (group_name : string) (u : user) : exn + user :=
  if (negb (bool_decide (group_name ∈ groups u))
      && negb (bool_decide (lower (role u) = lower group_name)))%bool
  then inl (HTTPException 403 (group_name +:+ " group membership required"))
  else inr u.

(** routes/jobs.py: [_result_for_user]; a result that is [None] is the
    SQL NULL or the JSON null. *)
Definition _result_for_user (result : option value) (role : string)
  : exn + option value :=
  match result with
  | None | Some VNone => inr None
  | Some result =>
      if bool_decide (role = "admin") then inr (Some result)
      else
        match result with
        | VDict d =>
            let keep (k : string) : list (string * value) :=
              match assoc_get d k with
              | Some v => if truthy v then [(k, v)] else []
              | None => []
              end in
            let filtered := keep "transcoded" ++ keep "thumbnail" ++ keep "s3_outputs" in
            inr (match filtered with [] => None | _ => Some (VDict filtered) end)
        | _ => inl (OtherException "AttributeError" "object has no attribute 'get'")
        end
  end.

(** [db.query(models.Job).filter(models.Job.job_id == job_id).first()] *)
Definition find_job (job_id : string) : M (sql_state * list string) (option job_row) :=
  sql_call ;;;
  (fun _ s => (Ret (q_rows s.1 !! job_id), s)).

(** s3_service.py: [generate_presigned_url] *)
Definition generate_presigned_url {S} (W : web) (key : value) (operation : string)
  : M S string :=
  E <- ask ;;
  match presign W operation key (presigned_url_expiry W) with
  | inr url => ret url
  | inl e =>
      if is_ClientError e
      then raise (HTTPException 500
                    ("Failed to generate pre-signed URL: " +:+ str_exn E e))
      else raise e
  end.

(** [not job.result or name not in job.result] *)
Definition lacks (result : option value) (name : string) : exn + bool :=
  match result with
  | None => inr true
  | Some r =>
      if negb (truthy r) then inr true
      else match py_contains name r with
           | inr b => inr (negb b)
           | inl e => inl e
           end
  end.

(** routes/videos.py: the body shared by [download_transcoded] and
    [download_thumbnail]; it answers the URL of the redirection. *)
Definition download_artifact (W : web) (job_id artifact missing failed : string)
  : M (sql_state * list string) string :=
  job <- find_job job_id ;;
  match job with
  | None => raise (HTTPException 404 "Job not found")
  | Some job =>
      if negb (bool_decide (r_status job = "done"))
      then raise (HTTPException 400 "Job not completed yet")
      else
        no_outputs <- of_sum (lacks (r_result job) "s3_outputs") ;;
        if no_outputs : bool then raise (HTTPException 404 missing)
        else
          s3_outputs <- of_sum (py_getitem (default VNone (r_result job)) "s3_outputs") ;;
          present <- of_sum (py_contains artifact s3_outputs) ;;
          if negb present then raise (HTTPException 404 missing)
          else
            info <- of_sum (py_getitem s3_outputs artifact) ;;
            s3_key <- of_sum (py_getitem info "key") ;;
            try_except
              (generate_presigned_url W s3_key "get_object")
              (fun e =>
                 E <- ask ;;
                 raise (HTTPException 500 (failed +:+ str_exn E e)))
  end.

Definition download_transcoded (W : web) (job_id : string)
  : M (sql_state * list string) string :=
  download_artifact W job_id "transcoded" "Transcoded file not available"
    "Failed to generate download URL: ".

Definition download_thumbnail (W : web) (u : user) (job_id : string)
  : M (sql_state * list string) string :=
  of_sum (admin_required W u) ;;;
  download_artifact W job_id "thumbnail" "Thumbnail not available"
    "Failed to generate thumbnail URL: ".

(** The answer of [get_ml_results]. *)
Record ml_results_response : Type := mk_ml_results {
  mr_job_id : string;
  mr_ml_results : value;
  mr_total_frames : Z
}.

Definition get_ml_results (u : user) (job_id : string)
  : M (sql_state * list string) ml_results_response :=
  if negb (bool_decide (role u = "admin"))
  then raise (HTTPException 403 "Admin access required for ML results")
  else
    job <- find_job job_id ;;
    match job with
    | None => raise (HTTPException 404 "Job not found")
    | Some job =>
        if negb (bool_decide (r_status job = "done"))
        then raise (HTTPException 400 "Job not completed yet")
        else
          no_inference <- of_sum (lacks (r_result job) "inference") ;;
          if no_inference : bool
          then raise (HTTPException 404 "ML results not available")
          else
            inference <- of_sum (py_getitem (default VNone (r_result job)) "inference") ;;
            total_frames <- (if truthy inference then of_sum (py_len inference)
                             else ret 0) ;;
            ret (mk_ml_results job_id inference total_frames)
    end.

End Routes.

(** ** app/routes/jobs.py and the read of the Progress Tracker *)

Module DynamoDBReads.

Import Routes.

(** boto3 [Table.get_item]: a read, which leaves the table as it is. *)
Definition get_item (W : web) (key : string * string)
  : M (ddb_state * list string) (option (gmap string value)) :=
  fun _ s =>
    match get_item_fault W with
    | Some f => (Raise (exn_of_fault f), s)
    | None => (Ret (d_table s.1 !! key), s)
    end.

(** dynamodb_service.py: [get_job_progress] *)
Definition get_job_progress (W : web) (job_id : string)
  : M (ddb_state * list string) (option (gmap string value)) :=
  try_except_ClientError
    (E <- ask ;;
     get_item W (qut_username E, job_id))
    (fun e =>
       E <- ask ;;
       print ("❌ Error getting job progress: " +:+ str_exn E e) ;;;
       ret None).

End DynamoDBReads.

Module Jobs.

Import Routes.

(** [JobStatus(job_id=..., status=..., result=...)]: the result is an
    optional dict. *)
Record job_status : Type := mk_job_status {
  js_job_id : string;
  js_status : string;
  js_result : option (list (string * value))
}.

Definition JobStatus (W : web) (job_id status : string) (result : option value)
  : exn + job_status :=
  match result with
  | None | Some VNone => inr (mk_job_status job_id status None)
  | Some (VDict d) => inr (mk_job_status job_id status (Some d))
  | Some v =>
      match coerce_dict W v with
      | inr d => inr (mk_job_status job_id status (Some d))
      | inl e => inl e
      end
  end.

(** routes/jobs.py: [get_job] *)
Definition get_job (W : web) (u : user) (job_id : string)
  : M (sql_state * list string) job_status :=
  j <- find_job job_id ;;
  match j with
  | None => raise (HTTPException 404 "Job not found")
  | Some j =>
      safe <- of_sum (_result_for_user (r_result j) (role u)) ;;
      of_sum (JobStatus W job_id (r_status j) safe)
  end.

(** The dict that the route [get_job_progress] returns. *)
Record job_progress : Type := mk_job_progress {
  jp_job_id : string;
  jp_status : value;
  jp_progress : value;
  jp_current_step : value;
  jp_total_steps : value;
  jp_steps : value;
  jp_created_at : value;
  jp_updated_at : value;
  jp_video_filename : value;
  jp_result : value;
  jp_error_message : value
}.

(** [d.get(k, fallback)] on an item of the table. *)
Definition item_get (item : gmap string value) (k : string) (fallback : value) : value :=
  default fallback (item !! k).

(** routes/jobs.py: [get_job_progress] *)
Definition get_job_progress (W : web) (job_id : string)
  : M (ddb_state * list string) job_progress :=
  try_except
    (progress_data <- DynamoDBReads.get_job_progress W job_id ;;
     match progress_data with
     | Some item =>
         if bool_decide (item = ∅)
         then raise (HTTPException 404 "Job progress not found")
         else
           ret (mk_job_progress job_id
                  (item_get item "status" (VStr "unknown"))
                  (item_get item "progress" (VInt 0))
                  (item_get item "current_step" (VStr "unknown"))
                  (item_get item "total_steps" (VInt 5))
                  (item_get item "steps" (VDict []))
                  (item_get item "created_at" VNone)
                  (item_get item "updated_at" VNone)
                  (item_get item "video_filename" VNone)
                  (item_get item "result" VNone)
                  (item_get item "error_message" VNone))
     | None => raise (HTTPException 404 "Job progress not found")
     end)
    (fun e =>
       E <- ask ;;
       raise (HTTPException 500 ("Failed to get job progress: " +:+ str_exn E e))).

End Jobs.

(** The object that [upload_file] stores. *)
Definition uploaded_object (E : env) (body key : string) (content_type : option string)
  : s3_object :=
  mk_obj body
    (match nonempty content_type with
     | Some c => c
     | None => default "application/octet-stream" (nonempty (guess_type E key))
     end)
    "AES256".

(** The exception that a route sees when the signer raises [e]. *)
Definition presign_error (E : env) (e : exn) : exn :=
  if is_ClientError e
  then HTTPException 500 ("Failed to generate pre-signed URL: " +:+ str_exn E e)
  else e.

(** ** More of the examples: the API side, a store that refuses, and a
    model that cannot be loaded *)

Definition demo_web : Routes.web :=
  {| Routes.presign := fun operation key expires_in =>
       match key with
       | VStr k => inr ("https://signed.example/" +:+ k)
       | _ => inl (OtherException "ParamValidationError" "Invalid type for parameter Key")
       end;
     Routes.presigned_url_expiry := 3600;
     Routes.repr_list := fun l => "[...]";
     Routes.get_item_fault := None;
     Routes.coerce_dict := fun _ =>
       inl (OtherException "ValidationError" "1 validation error for JobStatus") |}.

Definition demo_user (role : string) (groups : list string) : Routes.user :=
  Routes.mk_user "alice" role groups.

Definition demo_env_throttled : env :=
  demo_machine (Some "/usr/bin/ffmpeg")
    (fun _ => Some (ServiceError "ProvisionedThroughputExceededException"
                      "An error occurred (ProvisionedThroughputExceededException)"))
    (fun _ => None).

Definition demo_env_no_model : env :=
  demo_machine (Some "/usr/bin/ffmpeg") (fun _ => None)
    (fun n => match n with
              | 3%nat => Some (LibraryError "URLError" "model weights cannot be downloaded")
              | _ => None
              end).

(** The machine of the example with other variables in its environment. *)
Definition with_environ (E : env) (vars : gmap string string) : env :=
  {| qut_username := qut_username E;
     utcnow := utcnow E;
     ddb_fault := ddb_fault E;
     io_fault := io_fault E;
     sql_fault := sql_fault E;
     sqs_fault := sqs_fault E;
     sqs_receive := sqs_receive E;
     bucket_name := bucket_name E;
     region := region E;
     transcoded_prefix := transcoded_prefix E;
     thumbnails_prefix := thumbnails_prefix E;
     temp_prefix := temp_prefix E;
     upload_prefix := upload_prefix E;
     guess_type := guess_type E;
     which_ffmpeg := which_ffmpeg E;
     ffmpeg_exit := ffmpeg_exit E;
     listdir := listdir E;
     path_exists := path_exists E;
     read_file := read_file E;
     mkdtemp := mkdtemp E;
     topk_scores := topk_scores E;
     labels_map := labels_map E;
     json_dumps := json_dumps E;
     parse_descriptor := parse_descriptor E;
     format_exc := format_exc E;
     str_http := str_http E;
     str_called := str_called E;
     str_unbound := str_unbound E;
     environ := vars;
     secrets_url := secrets_url E |}.

Definition demo_env_no_database : env := with_environ demo_env ∅.

(** * Properties *)

(** ** Computations: inversion and frames *)

Section MonadFacts.
Context {S : Type}.

Lemma bind_Ret_inv {A B} (m : M S A) (k : A -> M S B) E s b s' :
  bind m k E s = (Ret b, s') ->
  exists a s1, m E s = (Ret a, s1) /\ k a E s1 = (Ret b, s').
Proof.
  unfold bind. destruct (m E s) as [[a|e] s1]; intros H; [eauto | discriminate].
Qed.

Lemma bind_Raise_inv {A B} (m : M S A) (k : A -> M S B) E s e s' :
  bind m k E s = (Raise e, s') ->
  m E s = (Raise e, s') \/
  exists a s1, m E s = (Ret a, s1) /\ k a E s1 = (Raise e, s').
Proof.
  unfold bind. destruct (m E s) as [[a|e0] s1]; intros H; [eauto | left; congruence].
Qed.

Lemma bind_Ret_step {A B} (m : M S A) (k : A -> M S B) E s a s1 :
  m E s = (Ret a, s1) -> bind m k E s = k a E s1.
Proof. unfold bind. intros ->. reflexivity. Qed.

Lemma bind_Raise_step {A B} (m : M S A) (k : A -> M S B) E s e s1 :
  m E s = (Raise e, s1) -> bind m k E s = (Raise e, s1).
Proof. unfold bind. intros ->. reflexivity. Qed.

Lemma pres_ret {A X} (f : S -> X) (a : A) : pres f (@ret S A a).
Proof. intros E s. reflexivity. Qed.

Lemma pres_raise {A X} (f : S -> X) e : pres f (@raise S A e).
Proof. intros E s. reflexivity. Qed.

Lemma pres_ask {X} (f : S -> X) : pres f ask.
Proof. intros E s. reflexivity. Qed.

Lemma pres_bind {A B X} (f : S -> X) (m : M S A) (k : A -> M S B) :
  pres f m -> (forall a, pres f (k a)) -> pres f (bind m k).
Proof.
  intros Hm Hk E s. unfold bind. specialize (Hm E s).
  destruct (m E s) as [[a|e] s1]; simpl in *; [| assumption].
  rewrite Hk. assumption.
Qed.

Lemma pres_try_except {A X} (f : S -> X) (m : M S A) h :
  pres f m -> (forall e, pres f (h e)) -> pres f (try_except m h).
Proof.
  intros Hm Hh E s. unfold try_except. specialize (Hm E s).
  destruct (m E s) as [[a|e] s1]; simpl in *; [assumption |].
  rewrite Hh. assumption.
Qed.

Lemma pres_try_except_ClientError {A X} (f : S -> X) (m : M S A) h :
  pres f m -> (forall e, pres f (h e)) -> pres f (try_except_ClientError m h).
Proof.
  intros Hm Hh E s. unfold try_except_ClientError. specialize (Hm E s).
  destruct (m E s) as [[a|e] s1]; simpl in *; [assumption |].
  destruct (is_ClientError e); simpl; [rewrite Hh |]; assumption.
Qed.

Lemma pres_for_each {A X} (f : S -> X) (xs : list A) body :
  (forall x, pres f (body x)) -> pres f (for_each xs body).
Proof.
  intros Hb. induction xs as [|x xs IH]; simpl.
  - apply pres_ret.
  - apply pres_bind; [apply Hb | intros _; exact IH].
Qed.

Lemma total_ret {A} (a : A) : total (@ret S A a).
Proof. intros E s. eexists _, _. reflexivity. Qed.

Lemma total_ask : total (@ask S).
Proof. intros E s. eexists _, _. reflexivity. Qed.

Lemma total_bind {A B} (m : M S A) (k : A -> M S B) :
  total m -> (forall a, total (k a)) -> total (bind m k).
Proof.
  intros Hm Hk E s. destruct (Hm E s) as (a & s1 & H1).
  rewrite (bind_Ret_step _ _ _ _ _ _ H1). apply Hk.
Qed.

Lemma total_try_except {A} (m : M S A) h :
  (forall e, total (h e)) -> total (try_except m h).
Proof.
  intros Hh E s. unfold try_except.
  destruct (m E s) as [[a|e] s1]; [eexists _, _; reflexivity | apply Hh].
Qed.

Lemma total_for_each {A} (xs : list A) (body : A -> M S unit) :
  (forall x, total (body x)) -> total (for_each xs body).
Proof.
  intros Hb. induction xs as [|x xs IH]; simpl.
  - apply total_ret.
  - apply total_bind; [apply Hb | intros _; exact IH].
Qed.

Lemma try_except_Ret_inv {A} (m : M S A) h E s a s' :
  try_except m h E s = (Ret a, s') ->
  m E s = (Ret a, s') \/ exists e s1, m E s = (Raise e, s1) /\ h e E s1 = (Ret a, s').
Proof.
  unfold try_except. destruct (m E s) as [[a0|e] s1]; intros H; [left; congruence | eauto].
Qed.

End MonadFacts.

Lemma pres_print {S X} (f : S * list string -> X) line :
  (forall s o o', f (s, o) = f (s, o')) -> pres f (print line).
Proof. intros Hf E [s o]. simpl. apply Hf. Qed.

Lemma pres_lift {S Y A X} (f : S -> X) (get : S -> Y) (set : Y -> S -> S) (m : M Y A) :
  (forall y s, f (set y s) = f s) -> pres f (lift get set m).
Proof. intros Hf E s. unfold lift. destruct (m E (get s)) as [r y]. simpl. apply Hf. Qed.

Lemma lift_run {S Y A} (get : S -> Y) (set : Y -> S -> S) (m : M Y A) E s :
  lift get set m E s = ((m E (get s)).1, set (m E (get s)).2 s).
Proof. unfold lift. destruct (m E (get s)); reflexivity. Qed.

(** ** The Progress Tracker *)

Section TrackerFacts.
Import DynamoDBService.

Lemma update_job_progress_run job p step ss res E d out :
  exists out',
    update_job_progress job p step ss res E (d, out) =
      (answer_after_update E d,
       (state_after_update E (qut_username E, job) (progress_sets E d p step res) d, out')).
Proof.
  unfold update_job_progress, try_except_ClientError, bind, ask, timestamp, update_item,
    print, ret, answer_after_update, state_after_update, table_after_update, progress_sets.
  simpl. destruct (truthy res); simpl;
    (destruct (ddb_fault E (length (d_requests d))) as [[c m|c m]|]; simpl; eauto).
Qed.

Lemma complete_job_run job res E d out :
  exists out',
    complete_job job res E (d, out) =
      (answer_after_update E d,
       (state_after_update E (qut_username E, job) (complete_sets E d res) d, out')).
Proof.
  unfold complete_job, try_except_ClientError, bind, ask, timestamp, update_item,
    print, ret, answer_after_update, state_after_update, table_after_update, complete_sets.
  simpl. destruct (ddb_fault E (length (d_requests d))) as [[c m|c m]|]; simpl; eauto.
Qed.

Lemma fail_job_run job msg E d out :
  exists out',
    fail_job job msg E (d, out) =
      (answer_after_update E d,
       (state_after_update E (qut_username E, job) (fail_sets E d msg) d, out')).
Proof.
  unfold fail_job, try_except_ClientError, bind, ask, timestamp, update_item,
    print, ret, answer_after_update, state_after_update, table_after_update, fail_sets.
  simpl. destruct (ddb_fault E (length (d_requests d))) as [[c m|c m]|]; simpl; eauto.
Qed.

(** An attribute that a SET expression does not name keeps its value. *)
Lemma apply_sets_other sets (item : gmap string value) a :
  a ∉ sets.*1 -> apply_sets sets item !! a = item !! a.
Proof.
  unfold apply_sets. revert item.
  induction sets as [|[a' v] sets IH]; intros item Hn; simpl; [reflexivity |].
  rewrite IH.
  - apply lookup_insert_ne. intros ->. apply Hn. simpl. left.
  - intros Hin. apply Hn. simpl. right. exact Hin.
Qed.

Lemma table_after_update_other E key sets d key' :
  key ≠ key' -> table_after_update E key sets d !! key' = d_table d !! key'.
Proof.
  intros Hne. unfold table_after_update.
  destruct (ddb_fault E _); [reflexivity |]. apply lookup_insert_ne. exact Hne.
Qed.

(** An existing item stays, and keeps what the expression does not name. *)
Lemma table_after_update_same E key sets d item :
  d_table d !! key = Some item ->
  exists item',
    table_after_update E key sets d !! key = Some item' /\
    (forall a, a ∉ sets.*1 -> item' !! a = item !! a) /\
    (ddb_fault E (length (d_requests d)) = None -> item' = apply_sets sets item).
Proof.
  intros Hit. unfold table_after_update.
  destruct (ddb_fault E _).
  - exists item. split; [exact Hit |]. split; [reflexivity | discriminate].
  - rewrite Hit. simpl. eexists. split; [apply lookup_insert_eq |].
    split; [| reflexivity]. intros a Ha. apply apply_sets_other. exact Ha.
Qed.

End TrackerFacts.

Section TrackerClaims.
Import DynamoDBService.

Lemma answer_true_accepted E d :
  answer_after_update E d = Ret true -> ddb_fault E (length (d_requests d)) = None.
Proof.
  unfold answer_after_update.
  destruct (ddb_fault E _) as [[c m|c m]|]; simpl; [discriminate | discriminate | reflexivity].
Qed.

Lemma progress_sets_names E d p step res :
  (progress_sets E d p step res).*1 ⊆ ["progress"; "current_step"; "updated_at"; "ml_result"].
Proof.
  unfold progress_sets. destruct (truthy res); simpl; set_solver.
Qed.

(** C8. A call [update_job_progress(job_id, progress, current_step, result)]
    on an existing progress record changes only [progress], [current_step],
    [updated_at], and [ml_result] when a result is given: [status], [steps],
    [total_steps], [created_at], [video_filename], [owner] and
    [error_message], like every other attribute the update does not name,
    keep their previous values, and so does every other record. *)
Theorem update_job_progress_keeps_other_fields
    (E : env) (d : ddb_state) (out : list string) (job_id : string) (progress : Z)
    (current_step step_status : string) (result : value)
    (item : gmap string value) :
  get_job_progress E d job_id = Some item ->
  exists answer d' out' item',
    update_job_progress job_id progress current_step step_status result E (d, out)
      = (answer, (d', out')) /\
    get_job_progress E d' job_id = Some item' /\
    (forall a, a ∉ ["progress"; "current_step"; "updated_at"; "ml_result"] ->
               item' !! a = item !! a) /\
    Forall (fun a => item' !! a = item !! a)
      ["status"; "steps"; "total_steps"; "created_at"; "video_filename"; "owner";
       "error_message"] /\
    (truthy result = false -> item' !! "ml_result" = item !! "ml_result") /\
    (answer = Ret true ->
       item' !! "progress" = Some (VInt progress) /\
       item' !! "current_step" = Some (VStr current_step) /\
       (truthy result = true ->
          item' !! "ml_result" = Some (_convert_floats_to_decimal result))) /\
    (forall other, other ≠ job_id ->
                   get_job_progress E d' other = get_job_progress E d other).
Proof.
  unfold get_job_progress. intros Hitem.
  destruct (update_job_progress_run job_id progress current_step step_status result E d out)
    as [out' Hrun].
  destruct (table_after_update_same E (qut_username E, job_id)
              (progress_sets E d progress current_step result) d item Hitem)
    as (item' & Hlook & Hother & Hacc).
  eexists (answer_after_update E d), _, out', item'.
  split; [exact Hrun |]. simpl.
  split; [exact Hlook |].
  assert (Hframe : forall a,
             a ∉ ["progress"; "current_step"; "updated_at"; "ml_result"] ->
             item' !! a = item !! a).
  { intros a Ha. apply Hother. intros Hin. apply Ha.
    eapply progress_sets_names. exact Hin. }
  split; [exact Hframe |].
  split.
  { repeat constructor; apply Hframe; set_solver. }
  split.
  { intros Hres. apply Hother. unfold progress_sets. rewrite Hres. simpl. set_solver. }
  split.
  { intros Hans. apply answer_true_accepted in Hans. rewrite (Hacc Hans).
    unfold progress_sets, apply_sets.
    destruct (truthy result); simpl.
    - split; [by simplify_map_eq |]. split; [by simplify_map_eq |].
      intros _. by simplify_map_eq.
    - split; [by simplify_map_eq |]. split; [by simplify_map_eq |].
      discriminate. }
  intros other Hne. apply table_after_update_other. congruence.
Qed.

(** Every operation that follows the creation keeps the [steps] attribute
    of every record. *)
Lemma run_op_keeps_steps op E s key item :
  d_table s.1 !! key = Some item ->
  exists item', d_table (run_op op E s).2.1 !! key = Some item' /\
                item' !! "steps" = item !! "steps".
Proof.
  destruct s as [d out]. simpl. intros Hitem.
  assert (Hgen : forall key0 sets, "steps" ∉ sets.*1 ->
            exists item', table_after_update E key0 sets d !! key = Some item' /\
                          item' !! "steps" = item !! "steps").
  { intros key0 sets Hn. destruct (decide (key0 = key)) as [->|Hne].
    - destruct (table_after_update_same E key sets d item Hitem) as (item' & H1 & H2 & _).
      exists item'. split; [exact H1 | apply H2, Hn].
    - exists item. split; [| reflexivity].
      rewrite table_after_update_other; [exact Hitem | exact Hne]. }
  destruct op as [j p c ss r | j r | j msg]; simpl.
  - destruct (update_job_progress_run j p c ss r E d out) as [out' ->]. simpl.
    apply Hgen. intros Hin. apply progress_sets_names in Hin. set_solver.
  - destruct (complete_job_run j r E d out) as [out' ->]. simpl.
    apply Hgen. simpl. set_solver.
  - destruct (fail_job_run j msg E d out) as [out' ->]. simpl.
    apply Hgen. simpl. set_solver.
Qed.

Lemma run_ops_keep_steps ops E s key item :
  d_table s.1 !! key = Some item ->
  exists item', d_table (run_ops ops E s).1 !! key = Some item' /\
                item' !! "steps" = item !! "steps".
Proof.
  revert s item. induction ops as [|op ops IH]; intros s item Hitem; simpl.
  - eauto.
  - destruct (run_op_keeps_steps op E s key item Hitem) as (item1 & H1 & Hs1).
    destruct (IH _ _ H1) as (item2 & H2 & Hs2).
    exists item2. split; [exact H2 | congruence].
Qed.

Lemma create_job_progress_steps job video owner E s s1 :
  create_job_progress job video owner E s = (Ret true, s1) ->
  exists item, d_table s1.1 !! (qut_username E, job) = Some item /\
               item !! "steps" = Some initial_steps.
Proof.
  destruct s as [d out].
  unfold create_job_progress, try_except_ClientError, bind, ask, timestamp, put_item,
    print, ret. simpl.
  destruct (ddb_fault E (length (d_requests d))) as [[c m|c m]|]; simpl;
    intros Heq; inversion Heq; subst; clear Heq; simpl.
  eexists. split; [apply lookup_insert_eq |]. by simplify_map_eq.
Qed.

(** C10. The table [steps], written at creation with five steps in status
    [pending], is not modified by any later operation of the tracker:
    [update_job_progress], [complete_job] and [fail_job] leave it as it is,
    so after any number of them, on this job or another, in any order and
    whether the store accepts them or not, every step still reads
    [pending]. *)
Theorem steps_never_modified
    (E : env) (s s1 : ddb_state * list string) (job_id video_filename owner : string)
    (ops : list tracker_op) :
  create_job_progress job_id video_filename owner E s = (Ret true, s1) ->
  exists item,
    get_job_progress E (run_ops ops E s1).1 job_id = Some item /\
    item !! "steps" = Some initial_steps /\
    step_statuses <$> item !! "steps" = Some (replicate 5 (VStr "pending")).
Proof.
  intros Hcreate.
  destruct (create_job_progress_steps _ _ _ _ _ _ Hcreate) as (item0 & H0 & Hs0).
  destruct (run_ops_keep_steps ops E s1 _ item0 H0) as (item & H1 & Hs1).
  exists item. unfold get_job_progress.
  split; [exact H1 |].
  assert (Hsteps : item !! "steps" = Some initial_steps) by congruence.
  split; [exact Hsteps |]. rewrite Hsteps. reflexivity.
Qed.

End TrackerClaims.

(** ** The media stages *)

Section StageFacts.
Import S3Service Tasks.

Lemma outside_run E (s : stage_state * list string) :
  outside E s =
    (match io_fault E (g_calls s.1) with
     | Some f => Raise (exn_of_fault f)
     | None => Ret tt
     end,
     (mk_stage (g_bucket s.1) (g_puts s.1) (S (g_calls s.1)) (g_model s.1), s.2)).
Proof. unfold outside. destruct (io_fault E _); reflexivity. Qed.

Lemma lookup_map {A B} (f : A -> B) (l : list A) (k : nat) :
  map f l !! k = f <$> l !! k.
Proof.
  revert k. induction l as [|x l IH]; intros [|k]; simpl; try reflexivity. apply IH.
Qed.

(** The loop appends one entry for each .jpg name, in the order of the
    names, and nothing else. *)
Lemma inference_loop_spec E frames_dir topk names results :
  inference_loop E frames_dir topk names results =
    results ++ map (frame_entry E frames_dir topk)
                   (filter (fun f => is_jpg f = true) names).
Proof.
  revert results. induction names as [|fname names IH]; intros results; simpl.
  - by rewrite app_nil_r.
  - rewrite filter_cons. destruct (decide (is_jpg fname = true)) as [Hj|Hj].
    + rewrite Hj. simpl. rewrite IH. simpl. by rewrite <- app_assoc.
    + apply not_true_is_false in Hj. rewrite Hj. simpl. apply IH.
Qed.

Lemma ensure_model_ready E (s : stage_state * list string) :
  g_model s.1 = true \/ io_fault E (g_calls s.1) = None ->
  exists s', _ensure_model E s = (Ret true, s').
Proof.
  unfold _ensure_model. intros [Hm | Hf].
  - rewrite Hm. eauto.
  - destruct (g_model s.1); [eauto |]. rewrite outside_run, Hf. eauto.
Qed.

(** C6. For every frames directory, [run_inference_on_frames] returns one
    entry per .jpg frame, in sorted order of the file names; where the
    classification of frame k raises, the entry in place k carries the
    error marker [{"error": str(e)}] in its labels, and every other frame,
    those after k included, is scored all the same: the stage returns
    however many frames failed. *)
Theorem inference_records_frame_errors
    (E : env) (frames_dir : string) (topk : Z) (s : stage_state * list string) :
  g_model s.1 = true \/ io_fault E (g_calls s.1) = None ->
  exists results s',
    run_inference_on_frames frames_dir topk E s = (Ret results, s') /\
    length results
      = length (filter (fun f => is_jpg f = true) (listdir E frames_dir)) /\
    forall (k : nat) (fname : string),
      filter (fun f => is_jpg f = true) (sorted (listdir E frames_dir)) !! k
        = Some fname ->
      results !! k =
        Some (match classify E (path_join frames_dir fname) topk with
              | inl e =>
                  VDict [("frame", VStr fname);
                         ("labels", VList [VDict [("error", VStr (str_exn E e))]])]
              | inr labels =>
                  VDict [("frame", VStr fname); ("labels", VList labels)]
              end).
Proof.
  intros Hready. destruct (ensure_model_ready E s Hready) as [s' Hm].
  exists (inference_loop E frames_dir topk (sorted (listdir E frames_dir)) []), s'.
  split.
  { unfold run_inference_on_frames. rewrite (bind_Ret_step _ _ _ _ _ _ Hm).
    reflexivity. }
  rewrite inference_loop_spec. simpl.
  split.
  { rewrite length_map. apply Permutation_length.
    unfold sorted. by rewrite merge_sort_Permutation. }
  intros k fname Hk. rewrite lookup_map, Hk. simpl.
  unfold frame_entry. destruct (classify E _ topk); reflexivity.
Qed.

(** [process_job] goes on after the inference whatever it gave. *)
Lemma inference_never_stops_the_job E frames_dir (s : stage_state * list string) :
  exists inference s',
    try_except (run_inference_on_frames frames_dir 3)
      (fun e => ret [VDict [("error", VStr (str_exn E e));
                            ("trace", VStr (format_exc E e))]]) E s
    = (Ret inference, s').
Proof. apply total_try_except. intros e. apply total_ret. Qed.

Lemma subprocess_run_run cmd E (s : stage_state * list string) :
  subprocess_run cmd E s =
    (if Z.eqb (ffmpeg_exit E cmd) 0 then Ret tt
     else Raise (CalledProcessError (ffmpeg_exit E cmd) cmd), s).
Proof.
  unfold subprocess_run, bind, ask. destruct (Z.eqb _ 0); reflexivity.
Qed.

Lemma transcode_video_run i o E (s : stage_state * list string) :
  transcode_video i o E s =
    (match nonempty (which_ffmpeg E) with
     | None => Raise (RuntimeError "ffmpeg not found in PATH")
     | Some ffmpeg =>
         if Z.eqb (ffmpeg_exit E (transcode_cmd ffmpeg i o)) 0 then Ret tt
         else Raise (CalledProcessError (ffmpeg_exit E (transcode_cmd ffmpeg i o))
                       (transcode_cmd ffmpeg i o))
     end, s).
Proof.
  unfold transcode_video, bind, ask.
  destruct (nonempty (which_ffmpeg E)); [apply subprocess_run_run | reflexivity].
Qed.

Lemma extract_frames_run v d fps E (s : stage_state * list string) :
  (extract_frames v d fps E s).1 =
    match nonempty (which_ffmpeg E) with
    | None => Raise (RuntimeError "ffmpeg not found in PATH")
    | Some ffmpeg =>
        match io_fault E (g_calls s.1) with
        | Some f => Raise (exn_of_fault f)
        | None =>
            if Z.eqb (ffmpeg_exit E (extract_cmd ffmpeg v d fps)) 0 then Ret tt
            else Raise (CalledProcessError (ffmpeg_exit E (extract_cmd ffmpeg v d fps))
                          (extract_cmd ffmpeg v d fps))
        end
    end.
Proof.
  unfold extract_frames, bind, ask, makedirs.
  destruct (nonempty (which_ffmpeg E)); [| reflexivity].
  rewrite outside_run. destruct (io_fault E _); [reflexivity |].
  rewrite subprocess_run_run. reflexivity.
Qed.

(** Without ffmpeg, [process_job] does not return. *)
Lemma process_job_needs_ffmpeg v o fps E (s s' : stage_state * list string) r :
  nonempty (which_ffmpeg E) = None -> process_job v o fps E s <> (Ret r, s').
Proof.
  intros Hw Hrun. unfold process_job in Hrun.
  apply bind_Ret_inv in Hrun as (E' & s0 & _ & Hrun).
  apply bind_Ret_inv in Hrun as (? & s1 & _ & Hrun).
  apply bind_Ret_inv in Hrun as (? & s2 & _ & Hrun).
  apply bind_Ret_inv in Hrun as (? & s3 & Ht & _).
  rewrite transcode_video_run, Hw in Ht. discriminate.
Qed.

Lemma process_job_without_ffmpeg v o fps E (s : stage_state * list string) :
  nonempty (which_ffmpeg E) = None ->
  io_fault E (g_calls s.1) = None ->
  io_fault E (S (g_calls s.1)) = None ->
  exists s', process_job v o fps E s = (Raise (RuntimeError "ffmpeg not found in PATH"), s').
Proof.
  intros Hw H0 H1. unfold process_job, bind at 1, ask, makedirs.
  unfold bind at 1. rewrite outside_run, H0.
  unfold bind at 1. rewrite outside_run. simpl. rewrite H1.
  unfold bind at 1. rewrite transcode_video_run, Hw. eauto.
Qed.

Lemma download_file_found key o E (s : stage_state * list string) :
  g_bucket s.1 !! key = Some o ->
  io_fault E (g_calls s.1) = None ->
  exists s', download_file key E s = (Ret (o_body o), s').
Proof.
  intros Hk Hf. unfold download_file, try_except_ClientError, get_object, bind.
  rewrite outside_run, Hf. simpl. rewrite Hk. eauto.
Qed.

End StageFacts.

(** ** The orchestrator *)

Section OrchestratorFacts.
Import DynamoDBService S3Service Tasks Orchestrator.

Lemma raises_keep_bind {S A B X} (f : S -> X) (m : M S A) (k : A -> M S B) :
  pres f m -> (forall a, raises_keep f (k a)) -> raises_keep f (bind m k).
Proof.
  intros Hm Hk E s e s' Hrun.
  apply bind_Raise_inv in Hrun as [Hrun | (a & s1 & Hrun & Hk1)].
  - specialize (Hm E s). rewrite Hrun in Hm. exact Hm.
  - specialize (Hm E s). rewrite Hrun in Hm. simpl in Hm.
    rewrite (Hk a E s1 e s' Hk1). exact Hm.
Qed.

Lemma raises_keep_total {S A X} (f : S -> X) (m : M S A) :
  total m -> raises_keep f m.
Proof.
  intros Ht E s e s' Hrun. destruct (Ht E s) as (a & s1 & H1). congruence.
Qed.

Lemma pres_say {X} (f : world -> X) line :
  (forall w o, f (mk_world (w_ddb w) (w_stage w) (w_sql w) (w_deleted w)
                           (w_sqs_calls w) o) = f w) ->
  pres f (say line).
Proof. intros Hf E w. simpl. apply Hf. Qed.

Lemma total_say line : total (say line).
Proof. intros E w. eexists _, _. reflexivity. Qed.

Lemma total_print {S} line : total (@print S line).
Proof. intros E s. eexists _, _. reflexivity. Qed.

Lemma total_lift {S Y A} (get : S -> Y) (set : Y -> S -> S) (m : M Y A) :
  total m -> total (lift get set m).
Proof.
  intros Hm E s. destruct (Hm E (get s)) as (a & y & H).
  unfold lift. rewrite H. eauto.
Qed.

(** The write to the relational store never raises. *)
Lemma update_sql_database_total job result : total (update_sql_database job result).
Proof.
  apply total_try_except. intros e. apply total_bind; [apply total_ask |].
  intros E. apply total_print.
Qed.

(** The writes of the failure never raise. *)
Lemma report_failure_total job e : total (report_failure job e).
Proof.
  apply total_try_except. intros e'. apply total_bind; [apply total_ask |].
  intros E. apply total_say.
Qed.

Lemma on_ddb_update_run job p step ss res E w :
  exists out',
    on_ddb (update_job_progress job p step ss res) E w =
      (answer_after_update E (w_ddb w),
       mk_world (state_after_update E (qut_username E, job)
                   (progress_sets E (w_ddb w) p step res) (w_ddb w))
                (w_stage w) (w_sql w) (w_deleted w) (w_sqs_calls w) out').
Proof.
  unfold on_ddb. rewrite lift_run.
  destruct (update_job_progress_run job p step ss res E (w_ddb w) (w_out w)) as [out' ->].
  eauto.
Qed.

Lemma on_ddb_complete_run job res E w :
  exists out',
    on_ddb (complete_job job res) E w =
      (answer_after_update E (w_ddb w),
       mk_world (state_after_update E (qut_username E, job)
                   (complete_sets E (w_ddb w) res) (w_ddb w))
                (w_stage w) (w_sql w) (w_deleted w) (w_sqs_calls w) out').
Proof.
  unfold on_ddb. rewrite lift_run.
  destruct (complete_job_run job res E (w_ddb w) (w_out w)) as [out' ->]. eauto.
Qed.

Lemma on_ddb_fail_run job msg E w :
  exists out',
    on_ddb (fail_job job msg) E w =
      (answer_after_update E (w_ddb w),
       mk_world (state_after_update E (qut_username E, job)
                   (fail_sets E (w_ddb w) msg) (w_ddb w))
                (w_stage w) (w_sql w) (w_deleted w) (w_sqs_calls w) out').
Proof.
  unfold on_ddb. rewrite lift_run.
  destruct (fail_job_run job msg E (w_ddb w) (w_out w)) as [out' ->]. eauto.
Qed.

Lemma on_stage_ddb {A} (m : M (stage_state * list string) A) E w :
  w_ddb (on_stage m E w).2 = w_ddb w.
Proof. unfold on_stage. rewrite lift_run. reflexivity. Qed.

Lemma on_sql_ddb {A} (m : M (sql_state * list string) A) E w :
  w_ddb (on_sql m E w).2 = w_ddb w.
Proof. unfold on_sql. rewrite lift_run. reflexivity. Qed.

End OrchestratorFacts.

Section PipelineFacts.
Import DynamoDBService S3Service Tasks Orchestrator.

Ltac tracker_step H :=
  let a := fresh "a" in
  let w := fresh "w" in
  let Hs := fresh "Hs" in
  let out := fresh "out" in
  let Hx := fresh "Hx" in
  apply bind_Ret_inv in H as (a & w & Hs & H);
  match type of Hs with
  | on_ddb (update_job_progress ?j ?p ?c ?ss ?r) ?E ?w0 = _ =>
      destruct (on_ddb_update_run j p c ss r E w0) as [out Hx]
  | on_ddb (complete_job ?j ?r) ?E ?w0 = _ =>
      destruct (on_ddb_complete_run j r E w0) as [out Hx]
  end;
  rewrite Hx in Hs; inversion Hs; subst w; clear Hs Hx; simpl in *.

Ltac stage_step H Hd :=
  let a := fresh "a" in
  let w := fresh "w" in
  let Hs := fresh "Hs" in
  apply bind_Ret_inv in H as (a & w & Hs & H);
  match type of Hs with
  | on_stage ?m ?E ?w0 = _ =>
      pose proof (on_stage_ddb m E w0) as Hd; rewrite Hs in Hd; simpl in Hd
  | on_sql ?m ?E ?w0 = _ =>
      pose proof (on_sql_ddb m E w0) as Hd; rewrite Hs in Hd; simpl in Hd
  end.

(** A run of the [try] body that goes through has made the six writes of
    the schedule, and no other request to the tracker. *)
Lemma pipeline_Ret_tracker key job fps temp E w0 r w' :
  pipeline key job fps temp E w0 = (Ret r, w') ->
  w_ddb w' = tracker_after_success E job (result_value r) (w_ddb w0).
Proof.
  intros H. unfold pipeline in H.
  tracker_step H.
  stage_step H Hd1.
  stage_step H Hd2.
  tracker_step H.
  stage_step H Hd3.
  tracker_step H.
  tracker_step H.
  stage_step H Hd4.
  tracker_step H.
  tracker_step H.
  stage_step H Hd5.
  inversion H; subst; clear H.
  rewrite Hd5. unfold tracker_after_success.
  rewrite Hd4, Hd3, Hd2, Hd1. simpl. reflexivity.
Qed.

(** The [try] body returns only if [process_job] did. *)
Lemma pipeline_Ret_process_job key job fps temp E w0 r w' :
  pipeline key job fps temp E w0 = (Ret r, w') ->
  exists video r0 s s', process_job video temp fps E s = (Ret r0, s').
Proof.
  intros H. unfold pipeline in H.
  apply bind_Ret_inv in H as (? & w1 & _ & H).
  apply bind_Ret_inv in H as (? & w2 & _ & H).
  apply bind_Ret_inv in H as (? & w3 & _ & H).
  apply bind_Ret_inv in H as (? & w4 & _ & H).
  apply bind_Ret_inv in H as (r0 & w5 & Hp & _).
  unfold on_stage in Hp. rewrite lift_run in Hp.
  eexists _, r0, _, _. inversion Hp. apply surjective_pairing.
Qed.

End PipelineFacts.

Section RunFacts.
Import DynamoDBService S3Service Tasks Orchestrator.

Lemma temporary_directory_run E w :
  on_stage TemporaryDirectory E w =
    (match io_fault E (g_calls (w_stage w)) with
     | Some f => Raise (exn_of_fault f)
     | None => Ret (mkdtemp E (g_calls (w_stage w)))
     end,
     mk_world (w_ddb w)
       (mk_stage (g_bucket (w_stage w)) (g_puts (w_stage w))
                 (S (g_calls (w_stage w))) (g_model (w_stage w)))
       (w_sql w) (w_deleted w) (w_sqs_calls w) (w_out w)).
Proof.
  unfold on_stage. rewrite lift_run. unfold TemporaryDirectory.
  rewrite outside_run. simpl. destruct (io_fault E _); reflexivity.
Qed.

(** The three ways a call of [process_job_s3] can end. *)
Lemma process_job_s3_no_workspace key job fps E w e w0 :
  on_stage TemporaryDirectory E w = (Raise e, w0) ->
  process_job_s3 key job fps E w = (Raise e, w0).
Proof. intros H. unfold process_job_s3. apply bind_Raise_step, H. Qed.

Lemma process_job_s3_done key job fps E w temp w0 r w1 :
  on_stage TemporaryDirectory E w = (Ret temp, w0) ->
  pipeline key job fps temp E w0 = (Ret r, w1) ->
  process_job_s3 key job fps E w = (Ret (Done r), w1).
Proof.
  intros H Hp. unfold process_job_s3. rewrite (bind_Ret_step _ _ _ _ _ _ H).
  unfold try_except. rewrite (bind_Ret_step _ _ _ _ _ _ Hp). reflexivity.
Qed.

(** The handler of line 321 prints its line and then reads the local
    [traceback], which is not bound: the call raises and the state is the
    one the [try] body left, with one line more on the standard output. *)
Lemma process_job_s3_failed key job fps E w temp w0 e w1 :
  on_stage TemporaryDirectory E w = (Ret temp, w0) ->
  pipeline key job fps temp E w0 = (Raise e, w1) ->
  process_job_s3 key job fps E w
    = (Raise (unbound_traceback E),
       mk_world (w_ddb w1) (w_stage w1) (w_sql w1) (w_deleted w1) (w_sqs_calls w1)
         (w_out w1 ++ ["Error processing job " +:+ job +:+ ": " +:+ str_exn E e])).
Proof.
  intros H Hp. unfold process_job_s3. rewrite (bind_Ret_step _ _ _ _ _ _ H).
  unfold try_except. rewrite (bind_Raise_step _ _ _ _ _ _ Hp).
  rewrite (bind_Ret_step ask _ E w1 E w1 eq_refl).
  erewrite (bind_Ret_step (say _)); [| reflexivity].
  reflexivity.
Qed.

Lemma pipeline_raise_keeps_sql key job fps temp :
  raises_keep w_sql (pipeline key job fps temp).
Proof.
  unfold pipeline, on_ddb, on_stage.
  repeat (apply raises_keep_bind; [apply pres_lift; reflexivity | intros]).
  apply raises_keep_total. apply total_bind.
  - apply total_lift, update_sql_database_total.
  - intros _. apply total_ret.
Qed.

Lemma pres_pipeline {X} (f : world -> X) key job fps temp :
  (forall x w, f (mk_world x.1 (w_stage w) (w_sql w) (w_deleted w) (w_sqs_calls w) x.2)
               = f w) ->
  (forall x w, f (mk_world (w_ddb w) x.1 (w_sql w) (w_deleted w) (w_sqs_calls w) x.2)
               = f w) ->
  (forall x w, f (mk_world (w_ddb w) (w_stage w) x.1 (w_deleted w) (w_sqs_calls w) x.2)
               = f w) ->
  pres f (pipeline key job fps temp).
Proof.
  intros Hd Hs Hq. unfold pipeline, on_ddb, on_stage, on_sql.
  repeat first [ apply pres_bind; [apply pres_lift; assumption | intros]
               | apply pres_ret ].
Qed.

(** [process_job_s3] touches neither the queue nor the count of calls
    made to it. *)
Lemma process_job_s3_keeps_queue key job fps E w :
  w_deleted (process_job_s3 key job fps E w).2 = w_deleted w /\
  w_sqs_calls (process_job_s3 key job fps E w).2 = w_sqs_calls w.
Proof.
  destruct (on_stage TemporaryDirectory E w) as [[temp|e] w0] eqn:Ht.
  - pose proof (pres_pipeline w_deleted key job fps temp
                  ltac:(reflexivity) ltac:(reflexivity) ltac:(reflexivity) E w0) as Hp.
    pose proof (pres_pipeline w_sqs_calls key job fps temp
                  ltac:(reflexivity) ltac:(reflexivity) ltac:(reflexivity) E w0) as Hc.
    rewrite temporary_directory_run in Ht.
    assert (w_deleted w0 = w_deleted w /\ w_sqs_calls w0 = w_sqs_calls w) as [Hd0 Hc0].
    { inversion Ht. split; reflexivity. }
    destruct (pipeline key job fps temp E w0) as [[r|e] w1] eqn:Hrun; simpl in *.
    + erewrite process_job_s3_done; [| rewrite temporary_directory_run; exact Ht | exact Hrun].
      simpl. split; congruence.
    + erewrite process_job_s3_failed;
        [| rewrite temporary_directory_run; exact Ht | exact Hrun].
      simpl. split; congruence.
  - rewrite (process_job_s3_no_workspace _ _ _ _ _ _ _ Ht).
    rewrite temporary_directory_run in Ht. inversion Ht. split; reflexivity.
Qed.

End RunFacts.

Section RunClaims.
Import DynamoDBService S3Service Tasks Orchestrator.

(** A result [Done] comes from a [try] body that went through. *)
Lemma process_job_s3_Done_inv key job fps E w r w' :
  process_job_s3 key job fps E w = (Ret (Done r), w') ->
  exists temp w0,
    on_stage TemporaryDirectory E w = (Ret temp, w0) /\
    pipeline key job fps temp E w0 = (Ret r, w').
Proof.
  intros Hrun.
  destruct (on_stage TemporaryDirectory E w) as [[temp|e] w0] eqn:Ht.
  - destruct (pipeline key job fps temp E w0) as [[r1|e] w1] eqn:Hp.
    + rewrite (process_job_s3_done _ _ _ _ _ _ _ _ _ Ht Hp) in Hrun.
      inversion Hrun; subst. eauto.
    + rewrite (process_job_s3_failed _ _ _ _ _ _ _ _ _ Ht Hp) in Hrun. discriminate.
  - rewrite (process_job_s3_no_workspace _ _ _ _ _ _ _ Ht) in Hrun. discriminate.
Qed.

(** An exception leaves [process_job_s3] when the workspace cannot be
    made, or when the [try] body has raised; in the second case it is the
    [UnboundLocalError] of the handler. *)
Lemma process_job_s3_Raise_inv key job fps E w x w' :
  process_job_s3 key job fps E w = (Raise x, w') ->
  on_stage TemporaryDirectory E w = (Raise x, w') \/
  exists temp w0 e w1,
    on_stage TemporaryDirectory E w = (Ret temp, w0) /\
    pipeline key job fps temp E w0 = (Raise e, w1) /\
    x = unbound_traceback E /\
    w' = mk_world (w_ddb w1) (w_stage w1) (w_sql w1) (w_deleted w1) (w_sqs_calls w1)
           (w_out w1 ++ ["Error processing job " +:+ job +:+ ": " +:+ str_exn E e]).
Proof.
  intros Hrun.
  destruct (on_stage TemporaryDirectory E w) as [[temp|e] w0] eqn:Ht.
  - destruct (pipeline key job fps temp E w0) as [[r1|e] w1] eqn:Hp.
    + rewrite (process_job_s3_done _ _ _ _ _ _ _ _ _ Ht Hp) in Hrun. discriminate.
    + rewrite (process_job_s3_failed _ _ _ _ _ _ _ _ _ Ht Hp) in Hrun.
      right. exists temp, w0, e, w1. inversion Hrun. auto.
  - rewrite (process_job_s3_no_workspace _ _ _ _ _ _ _ Ht) in Hrun.
    left. inversion Hrun; subst. reflexivity.
Qed.

(** The failure outcome is never returned. *)
Lemma process_job_s3_not_Failed key job fps E w err tr k w' :
  process_job_s3 key job fps E w <> (Ret (Failed err tr k), w').
Proof.
  intros Hrun.
  destruct (on_stage TemporaryDirectory E w) as [[temp|e] w0] eqn:Ht.
  - destruct (pipeline key job fps temp E w0) as [[r1|e] w1] eqn:Hp.
    + rewrite (process_job_s3_done _ _ _ _ _ _ _ _ _ Ht Hp) in Hrun. discriminate.
    + rewrite (process_job_s3_failed _ _ _ _ _ _ _ _ _ Ht Hp) in Hrun. discriminate.
  - rewrite (process_job_s3_no_workspace _ _ _ _ _ _ _ Ht) in Hrun. discriminate.
Qed.

Lemma workspace_keeps_tracker E w r w0 :
  on_stage TemporaryDirectory E w = (r, w0) -> w_ddb w0 = w_ddb w /\ w_sql w0 = w_sql w.
Proof. rewrite temporary_directory_run. intros H. inversion H. split; reflexivity. Qed.

(** C4. In every successful run of [process_job_s3] the writes to the Job
    Progress Record carry, in this order, the progress values 20
    (download), 40 (thumbnail), 60 (transcode), 80 (ml_prediction), 100
    (complete) and 100 again (the completing write): the sequence never
    moves backward and ends at exactly 100; once the store has accepted
    the completing write the record reads progress 100, status
    [completed]. *)
Theorem successful_run_follows_schedule
    (E : env) (w w' : world) (s3_input_key job_id : string) (fps : Z)
    (result : job_result) :
  process_job_s3 s3_input_key job_id fps E w = (Ret (Done result), w') ->
  exists new,
    d_requests (w_ddb w') = d_requests (w_ddb w) ++ new /\
    progress_written new =
      [(job_id, 20); (job_id, 40); (job_id, 60); (job_id, 80);
       (job_id, 100); (job_id, 100)] /\
    omap written_step new
      = ["download"; "thumbnail"; "transcode"; "ml_prediction"; "complete"] /\
    Sorted Z.le (progress_written new).*2 /\
    last (progress_written new).*2 = Some 100 /\
    (ddb_fault E (length (d_requests (w_ddb w)) + 5) = None ->
     exists item,
       get_job_progress E (w_ddb w') job_id = Some item /\
       item !! "progress" = Some (VInt 100) /\
       item !! "status" = Some (VStr "completed")).
Proof.
  intros Hrun.
  apply process_job_s3_Done_inv in Hrun as (temp & w0 & Ht & Hp).
  apply pipeline_Ret_tracker in Hp.
  apply workspace_keeps_tracker in Ht as [Ht _]. rewrite Ht in Hp.
  rewrite Hp. unfold tracker_after_success, state_after_update. simpl.
  eexists. split.
  { repeat rewrite <- app_assoc. simpl. reflexivity. }
  split; [reflexivity |]. split; [reflexivity |].
  split.
  { simpl. repeat constructor; lia. }
  split; [reflexivity |].
  intros Hacc. unfold get_job_progress, table_after_update at 1. simpl.
  repeat rewrite length_app. simpl.
  replace (length (d_requests (w_ddb w)) + 1 + 1 + 1 + 1 + 1)%nat
    with (length (d_requests (w_ddb w)) + 5)%nat by lia.
  rewrite Hacc. eexists. split; [apply lookup_insert_eq |].
  unfold complete_sets, apply_sets. simpl. split; by simplify_map_eq.
Qed.

(** ** The tracker when a run fails *)

Lemma tracker_after_writes_app E job ws1 ws2 d :
  tracker_after_writes E job (ws1 ++ ws2) d
    = tracker_after_writes E job ws2 (tracker_after_writes E job ws1 d).
Proof.
  revert d. induction ws1 as [|wr ws1 IH]; intros d; simpl; [reflexivity | apply IH].
Qed.

Lemma write_sets_progress E d wr :
  assoc_get (write_sets E d wr) "progress" = Some (VInt (write_progress wr)).
Proof.
  destruct wr as [p c|r]; simpl; [| reflexivity].
  unfold progress_sets. simpl. reflexivity.
Qed.

(** Each write issues one request, and the request carries its progress. *)
Lemma tracker_after_writes_requests E job ws d :
  exists new,
    d_requests (tracker_after_writes E job ws d) = d_requests d ++ new /\
    progress_written new = map (fun wr => (job, write_progress wr)) ws.
Proof.
  revert d. induction ws as [|wr ws IH]; intros d; simpl.
  - exists []. by rewrite app_nil_r.
  - destruct (IH (state_after_update E (qut_username E, job) (write_sets E d wr) d))
      as (new & Hreq & Hprog).
    exists (UpdateItem (qut_username E, job) (write_sets E d wr) :: new).
    split.
    + rewrite Hreq. simpl. rewrite <- app_assoc. reflexivity.
    + change (progress_written (?r :: ?rs))
        with (match written_progress r with
              | Some x => x :: progress_written rs
              | None => progress_written rs
              end).
      unfold written_progress. rewrite write_sets_progress, Hprog. reflexivity.
Qed.

(** An update that names neither the attribute nor a key attribute leaves
    the attribute of every record as it was: of a record that exists, and
    of one that the update creates. *)
Lemma attribute_after_update E key sets d k a :
  a ∉ sets.*1 -> a <> "qut_username" -> a <> "job_id" ->
  attribute (state_after_update E key sets d) k a = attribute d k a.
Proof.
  intros Hn H1 H2. unfold attribute, state_after_update. simpl.
  destruct (decide (key = k)) as [->|Hne].
  - unfold table_after_update.
    destruct (ddb_fault E (length (d_requests d))); [reflexivity |].
    rewrite lookup_insert_eq. simpl. rewrite apply_sets_other by exact Hn.
    destruct (d_table d !! k) as [item|]; simpl; [reflexivity |].
    unfold key_attrs. by simplify_map_eq.
  - rewrite table_after_update_other by exact Hne. reflexivity.
Qed.

(** A request that the store refuses leaves every record as it was. *)
Lemma attribute_after_refusal E key sets d k a f :
  ddb_fault E (length (d_requests d)) = Some f ->
  attribute (state_after_update E key sets d) k a = attribute d k a.
Proof.
  intros Hf. unfold attribute, state_after_update, table_after_update. simpl.
  by rewrite Hf.
Qed.

Lemma attribute_after_progress_writes E job ws d k a :
  Forall (fun wr => exists p c, wr = WProgress p c) ws ->
  a ∉ ["progress"; "current_step"; "updated_at"; "qut_username"; "job_id"] ->
  attribute (tracker_after_writes E job ws d) k a = attribute d k a.
Proof.
  intros Hws Ha. revert d. induction Hws as [|wr ws (p & c & ->) _ IH]; intros d; simpl.
  - reflexivity.
  - rewrite IH. apply attribute_after_update.
    + unfold progress_sets. simpl. set_solver.
    + set_solver.
    + set_solver.
Qed.

Lemma tracker_after_writes_length E job ws d :
  length (d_requests (tracker_after_writes E job ws d))
    = (length (d_requests d) + length ws)%nat.
Proof.
  revert d. induction ws as [|wr ws IH]; intros d; simpl; [lia |].
  rewrite IH. unfold state_after_update. simpl. rewrite length_app. simpl. lia.
Qed.

Ltac tracker_run H :=
  let out := fresh "out" in
  let Hx := fresh "Hx" in
  match type of H with
  | on_ddb (update_job_progress ?j ?p ?c ?ss ?r) ?E ?w0 = _ =>
      destruct (on_ddb_update_run j p c ss r E w0) as [out Hx]
  | on_ddb (complete_job ?j ?r) ?E ?w0 = _ =>
      destruct (on_ddb_complete_run j r E w0) as [out Hx]
  end;
  rewrite Hx in H; clear Hx.

Ltac stage_run H Hd :=
  match type of H with
  | on_stage ?m ?E ?w0 = _ =>
      pose proof (on_stage_ddb m E w0) as Hd; rewrite H in Hd; simpl in Hd
  | on_sql ?m ?E ?w0 = _ =>
      pose proof (on_sql_ddb m E w0) as Hd; rewrite H in Hd; simpl in Hd
  end.

Ltac rewrite_trackers :=
  repeat match goal with
         | Hd : w_ddb _ = _ |- _ => rewrite Hd; clear Hd
         end.

(** Where the [try] body raises, the tracker has received the first
    writes of the schedule and nothing else; if all six were issued, the
    store has refused the last one. *)
Lemma pipeline_Raise_tracker key job fps temp E w0 e w1 :
  pipeline key job fps temp E w0 = (Raise e, w1) ->
  exists n r,
    w_ddb w1 = tracker_after_writes E job (take n (schedule r)) (w_ddb w0) /\
    ((n <= 5)%nat \/
     (n = 6%nat /\
      exists f, ddb_fault E (length (d_requests (w_ddb w0)) + 5) = Some f)).
Proof.
  intros H. unfold pipeline in H.
  (* 20 *)
  apply bind_Raise_inv in H as [H | (? & ww1 & Hs & H)].
  { tracker_run H. inversion H; subst; clear H. exists 1%nat, VNone. simpl.
    split; [reflexivity | left; lia]. }
  tracker_run Hs. inversion Hs; subst ww1; clear Hs.
  (* download *)
  apply bind_Raise_inv in H as [H | (? & ww2 & Hs & H)].
  { stage_run H Hd. exists 1%nat, VNone. simpl. split; [exact Hd | left; lia]. }
  stage_run Hs Hd2. clear Hs.
  (* write *)
  apply bind_Raise_inv in H as [H | (? & ww3 & Hs & H)].
  { stage_run H Hd. exists 1%nat, VNone. simpl. rewrite_trackers.
    split; [reflexivity | left; lia]. }
  stage_run Hs Hd3. clear Hs.
  (* 40 *)
  apply bind_Raise_inv in H as [H | (? & ww4 & Hs & H)].
  { tracker_run H. inversion H; subst; clear H. exists 2%nat, VNone. simpl.
    rewrite_trackers. split; [reflexivity | left; lia]. }
  tracker_run Hs. inversion Hs; subst ww4; clear Hs.
  (* process_job *)
  apply bind_Raise_inv in H as [H | (? & ww5 & Hs & H)].
  { stage_run H Hd. exists 2%nat, VNone. simpl. rewrite_trackers.
    split; [reflexivity | left; lia]. }
  stage_run Hs Hd5. clear Hs.
  (* 60 *)
  apply bind_Raise_inv in H as [H | (? & ww6 & Hs & H)].
  { tracker_run H. inversion H; subst; clear H. exists 3%nat, VNone. simpl.
    rewrite_trackers. split; [reflexivity | left; lia]. }
  tracker_run Hs. inversion Hs; subst ww6; clear Hs.
  (* 80 *)
  apply bind_Raise_inv in H as [H | (? & ww7 & Hs & H)].
  { tracker_run H. inversion H; subst; clear H. exists 4%nat, VNone. simpl.
    rewrite_trackers. split; [reflexivity | left; lia]. }
  tracker_run Hs. inversion Hs; subst ww7; clear Hs.
  (* uploads *)
  apply bind_Raise_inv in H as [H | (result & ww8 & Hs & H)].
  { stage_run H Hd. exists 4%nat, VNone. simpl. rewrite_trackers.
    split; [reflexivity | left; lia]. }
  stage_run Hs Hd8. clear Hs.
  (* 100 *)
  apply bind_Raise_inv in H as [H | (? & ww9 & Hs & H)].
  { tracker_run H. inversion H; subst; clear H. exists 5%nat, VNone. simpl.
    rewrite_trackers. split; [reflexivity | left; lia]. }
  tracker_run Hs. inversion Hs; subst ww9; clear Hs.
  (* complete_job *)
  apply bind_Raise_inv in H as [H | (? & ww10 & Hs & H)].
  { tracker_run H. inversion H as [[Hans Hw]]; subst w1; clear H.
    exists 6%nat, (result_value result). simpl in *.
    repeat match goal with
           | Hd : w_ddb _ = _ |- _ => rewrite Hd in Hans |- *; clear Hd
           end.
    split; [reflexivity | right]. split; [reflexivity |].
    unfold answer_after_update in Hans. simpl in Hans.
    repeat rewrite length_app in Hans. simpl in Hans.
    replace (length (d_requests (w_ddb w0)) + 1 + 1 + 1 + 1 + 1)%nat
      with (length (d_requests (w_ddb w0)) + 5)%nat in Hans by lia.
    destruct (ddb_fault E (length (d_requests (w_ddb w0)) + 5)) as [f|];
      [eauto | discriminate Hans]. }
  (* the SQL update and the return raise nothing *)
  exfalso.
  apply bind_Raise_inv in H as [H | (? & ww11 & _ & H)].
  - match type of H with
    | on_sql (update_sql_database ?j ?r) ?E ?w = _ =>
        destruct (total_lift (fun w => (w_sql w, w_out w))
                    (fun x w => mk_world (w_ddb w) (w_stage w) x.1 (w_deleted w)
                                         (w_sqs_calls w) x.2)
                    (update_sql_database j r) (update_sql_database_total j r) E w)
          as (a & w' & Hret)
    end.
    unfold on_sql in H. rewrite Hret in H. discriminate.
  - discriminate.
Qed.

Lemma schedule_progress_writes r :
  Forall (fun wr => exists p c, wr = WProgress p c) (take 5 (schedule r)).
Proof. simpl. repeat constructor; eauto. Qed.

(** What a [try] body that raises has done to the tracker: the progress
    values written are the first of the schedule, and no record has had
    its [status], its [error_message] or any attribute other than
    [progress], [current_step] and [updated_at] changed. *)
Lemma pipeline_Raise_record key job fps temp E w0 e w1 :
  pipeline key job fps temp E w0 = (Raise e, w1) ->
  (exists new,
     d_requests (w_ddb w1) = d_requests (w_ddb w0) ++ new /\
     progress_written new `prefix_of`
       [(job, 20); (job, 40); (job, 60); (job, 80); (job, 100); (job, 100)]) /\
  (forall k a,
     a ∉ ["progress"; "current_step"; "updated_at"; "qut_username"; "job_id"] ->
     attribute (w_ddb w1) k a = attribute (w_ddb w0) k a).
Proof.
  intros H. apply pipeline_Raise_tracker in H as (n & r & Hd & Hn). split.
  - destruct (tracker_after_writes_requests E job (take n (schedule r)) (w_ddb w0))
      as (new & Hreq & Hprog).
    exists new. rewrite Hd. split; [exact Hreq |].
    rewrite Hprog.
    change (map ?f ?l) with (f <$> l). rewrite fmap_take. simpl.
    eexists. symmetry. apply take_drop.
  - intros k a Ha. rewrite Hd. destruct Hn as [Hn | (-> & f & Hf)].
    + apply attribute_after_progress_writes; [| exact Ha].
      replace (take n (schedule r)) with (take n (take 5 (schedule r))).
      * apply Forall_take, schedule_progress_writes.
      * rewrite take_take. f_equal. lia.
    + change (take 6 (schedule r)) with (take 5 (schedule r) ++ [WComplete r]).
      pose proof (schedule_progress_writes r) as Hfive.
      assert (Hlen : length (take 5 (schedule r)) = 5%nat) by reflexivity.
      revert Hfive Hlen. generalize (take 5 (schedule r)). intros ws Hfive Hlen.
      rewrite tracker_after_writes_app.
      change (tracker_after_writes E job [WComplete r] ?d)
        with (state_after_update E (qut_username E, job) (write_sets E d (WComplete r)) d).
      erewrite attribute_after_refusal.
      * apply attribute_after_progress_writes; [exact Hfive | exact Ha].
      * rewrite tracker_after_writes_length, Hlen. exact Hf.
Qed.

(** C1. A run whose processing fails is not marked as failed.  The handler
    of the failure prints its line and then raises [UnboundLocalError]
    (the local [traceback] is not bound), before the write of progress 0
    and before [fail_job]: the call raises; the requests of the run carry
    the first progress values of the schedule and nothing else, so the
    progress does not go back; and the [status] and the [error_message]
    of every record, the one of the job included, are what they were
    before the run: no record reads [failed] because of it, and none
    carries the message. *)
Theorem failed_run_is_not_marked_failed
    (E : env) (w w0 w1 : world) (s3_input_key job_id temp_dir : string) (fps : Z)
    (e : exn) :
  on_stage TemporaryDirectory E w = (Ret temp_dir, w0) ->
  pipeline s3_input_key job_id fps temp_dir E w0 = (Raise e, w1) ->
  exists w' new,
    process_job_s3 s3_input_key job_id fps E w = (Raise (unbound_traceback E), w') /\
    d_requests (w_ddb w') = d_requests (w_ddb w) ++ new /\
    progress_written new `prefix_of`
      [(job_id, 20); (job_id, 40); (job_id, 60); (job_id, 80);
       (job_id, 100); (job_id, 100)] /\
    (forall key, attribute (w_ddb w') key "status" = attribute (w_ddb w) key "status") /\
    (forall key,
       attribute (w_ddb w') key "error_message" = attribute (w_ddb w) key "error_message").
Proof.
  intros Ht Hp.
  pose proof (process_job_s3_failed _ _ _ _ _ _ _ _ _ Ht Hp) as Hrun.
  apply workspace_keeps_tracker in Ht as [Hd0 _].
  destruct (pipeline_Raise_record _ _ _ _ _ _ _ _ Hp) as [(new & Hreq & Hprog) Hattr].
  eexists _, new. split; [exact Hrun |]. simpl. rewrite <- Hd0.
  split; [exact Hreq |]. split; [exact Hprog |].
  split; intros key; apply Hattr; set_solver.
Qed.

(** C2. A stage that raises ends the stages, and that is all.  The handler
    raises [UnboundLocalError] after its first line, so the exception
    leaves [process_job_s3] instead of a failure outcome; after the
    failure no request is sent to the Progress Tracker, the relational
    store is as it was before the run, and the only trace of the error of
    the stage is the line printed. *)
Theorem stage_failure_propagates
    (E : env) (w w0 w1 : world) (s3_input_key job_id temp_dir : string) (fps : Z)
    (e : exn) :
  on_stage TemporaryDirectory E w = (Ret temp_dir, w0) ->
  pipeline s3_input_key job_id fps temp_dir E w0 = (Raise e, w1) ->
  exists w',
    process_job_s3 s3_input_key job_id fps E w = (Raise (unbound_traceback E), w') /\
    w_ddb w' = w_ddb w1 /\
    w_stage w' = w_stage w1 /\
    w_sql w' = w_sql w /\
    w_out w' = w_out w1
               ++ ["Error processing job " +:+ job_id +:+ ": " +:+ str_exn E e].
Proof.
  intros Ht Hp.
  pose proof (process_job_s3_failed _ _ _ _ _ _ _ _ _ Ht Hp) as Hrun.
  eexists. split; [exact Hrun |]. simpl.
  split; [reflexivity |]. split; [reflexivity |]. split; [| reflexivity].
  apply workspace_keeps_tracker in Ht as [_ Hq0].
  rewrite <- Hq0. exact (pipeline_raise_keeps_sql _ _ _ _ _ _ _ _ Hp).
Qed.
Lemma no_run_done_without_ffmpeg key job fps E w r w' :
  nonempty (which_ffmpeg E) = None ->
  process_job_s3 key job fps E w <> (Ret (Done r), w').
Proof.
  intros Hw Hrun.
  apply process_job_s3_Done_inv in Hrun as (temp & w0 & _ & Hp).
  apply pipeline_Ret_process_job in Hp as (video & r0 & s & s' & Hp).
  exact (process_job_needs_ffmpeg _ _ _ _ _ _ _ Hw Hp).
Qed.

Lemma on_stage_Ret {A} (m : M (stage_state * list string) A) E w a s' :
  m E (w_stage w, w_out w) = (Ret a, s') ->
  on_stage m E w
    = (Ret a, mk_world (w_ddb w) s'.1 (w_sql w) (w_deleted w) (w_sqs_calls w) s'.2).
Proof. intros H. unfold on_stage. rewrite lift_run, H. reflexivity. Qed.

Lemma on_stage_Raise {A} (m : M (stage_state * list string) A) E w e s' :
  m E (w_stage w, w_out w) = (Raise e, s') ->
  on_stage m E w
    = (Raise e, mk_world (w_ddb w) s'.1 (w_sql w) (w_deleted w) (w_sqs_calls w) s'.2).
Proof. intros H. unfold on_stage. rewrite lift_run, H. reflexivity. Qed.

Lemma on_ddb_update_accepted job p step ss res E w :
  ddb_fault E (length (d_requests (w_ddb w))) = None ->
  exists w',
    on_ddb (update_job_progress job p step ss res) E w = (Ret true, w') /\
    w_stage w' = w_stage w /\
    w_sql w' = w_sql w /\
    w_ddb w' = state_after_update E (qut_username E, job)
                 (progress_sets E (w_ddb w) p step res) (w_ddb w).
Proof.
  intros Hacc. destruct (on_ddb_update_run job p step ss res E w) as [out' Hrun].
  unfold answer_after_update in Hrun. rewrite Hacc in Hrun.
  eexists. split; [exact Hrun |]. simpl. repeat split.
Qed.


(** Where ffmpeg is missing and everything before the transcoding works,
    the [try] body raises the error of [transcode_video], after the writes
    of progress 20 and 40. *)
Lemma pipeline_without_ffmpeg key job fps temp E w0 obj :
  nonempty (which_ffmpeg E) = None ->
  (forall n, io_fault E n = None) ->
  (forall n, ddb_fault E n = None) ->
  g_bucket (w_stage w0) !! key = Some obj ->
  exists w1,
    pipeline key job fps temp E w0 = (Raise (RuntimeError "ffmpeg not found in PATH"), w1) /\
    w_ddb w1 = tracker_after_writes E job
                 [WProgress 20 "download"; WProgress 40 "thumbnail"] (w_ddb w0).
Proof.
  intros Hw Hio Hddb Hobj. unfold pipeline.
  edestruct (on_ddb_update_accepted job 20) as (w1 & H1 & Hs1 & _ & Hd1); [apply Hddb |].
  rewrite (bind_Ret_step _ _ _ _ _ _ H1).
  edestruct (download_file_found key obj E (w_stage w1, w_out w1)) as (s2 & H2);
    [simpl; rewrite Hs1; exact Hobj | apply Hio |].
  apply on_stage_Ret in H2. rewrite (bind_Ret_step _ _ _ _ _ _ H2).
  match goal with
  | |- context [bind (on_stage (write_file ?p ?d)) ?k E ?w2] =>
      assert (H3 : on_stage (write_file p d) E w2
                   = (Ret tt, mk_world (w_ddb w2)
                                (mk_stage (g_bucket (w_stage w2)) (g_puts (w_stage w2))
                                          (S (g_calls (w_stage w2))) (g_model (w_stage w2)))
                                (w_sql w2) (w_deleted w2) (w_sqs_calls w2) (w_out w2)))
        by (unfold on_stage, write_file; rewrite lift_run, outside_run, Hio; reflexivity);
      rewrite (bind_Ret_step _ k _ _ _ _ H3)
  end.
  edestruct (on_ddb_update_accepted job 40) as (w4 & H4 & Hs4 & _ & Hd4); [apply Hddb |].
  rewrite (bind_Ret_step _ _ _ _ _ _ H4).
  match goal with
  | |- context [on_stage (process_job ?v ?o ?f)] =>
      edestruct (process_job_without_ffmpeg v o f E (w_stage w4, w_out w4))
        as (s5 & H5); [exact Hw | apply Hio | apply Hio |]
  end.
  apply on_stage_Raise in H5. rewrite (bind_Raise_step _ _ _ _ _ _ H5).
  eexists. split; [reflexivity |]. simpl. rewrite Hd4. simpl. rewrite Hd1. reflexivity.
Qed.

(** The record of the job after two accepted writes of progress. *)
Lemma two_progress_writes E job d key :
  ddb_fault E (length (d_requests d)) = None ->
  ddb_fault E (S (length (d_requests d))) = None ->
  key = (qut_username E, job) ->
  let d' := tracker_after_writes E job
              [WProgress 20 "download"; WProgress 40 "thumbnail"] d in
  attribute d' key "progress" = Some (VInt 40) /\
  attribute d' key "current_step" = Some (VStr "thumbnail") /\
  (forall a,
     a ∉ ["progress"; "current_step"; "updated_at"; "qut_username"; "job_id"] ->
     attribute d' key a = attribute d key a).
Proof.
  intros H0 H1 -> d'. subst d'. split; [| split].
  - unfold attribute. simpl. unfold table_after_update at 1. simpl.
    rewrite length_app. simpl.
    replace (length (d_requests d) + 1)%nat with (S (length (d_requests d))) by lia.
    rewrite H1, lookup_insert_eq. simpl.
    unfold progress_sets, apply_sets. simpl. by simplify_map_eq.
  - unfold attribute. simpl. unfold table_after_update at 1. simpl.
    rewrite length_app. simpl.
    replace (length (d_requests d) + 1)%nat with (S (length (d_requests d))) by lia.
    rewrite H1, lookup_insert_eq. simpl.
    unfold progress_sets, apply_sets. simpl. by simplify_map_eq.
  - intros a Ha. apply attribute_after_progress_writes; [| exact Ha].
    repeat constructor; eauto.
Qed.

(** C7. [transcode_video] and [extract_frames] raise the error "ffmpeg
    not found in PATH" exactly when [shutil.which] finds no ffmpeg, and
    the error of a failed process exactly when ffmpeg was found, was
    started, and exited with a status other than zero.  Where ffmpeg is
    missing and the stages before the transcoding work, the job does not
    end [failed]: the error of the stage is printed, the handler raises
    [UnboundLocalError], and the Progress Record stays at progress 40,
    step [thumbnail], with the status and the error message it had; and
    whatever else happens, no run without ffmpeg ends with the result of
    a completed job. *)
Theorem ffmpeg_errors :
  (forall (E : env) (input_path output_path : string) (s : stage_state * list string),
      (transcode_video input_path output_path E s).1
        = Raise (RuntimeError "ffmpeg not found in PATH")
      <-> nonempty (which_ffmpeg E) = None) /\
  (forall (E : env) (input_path output_path : string) (s : stage_state * list string)
          (returncode : Z) (cmd : list string),
      (transcode_video input_path output_path E s).1
        = Raise (CalledProcessError returncode cmd)
      <-> exists ffmpeg,
            nonempty (which_ffmpeg E) = Some ffmpeg /\
            cmd = transcode_cmd ffmpeg input_path output_path /\
            returncode = ffmpeg_exit E cmd /\ returncode <> 0) /\
  (forall (E : env) (video_path frames_dir : string) (fps : Z)
          (s : stage_state * list string),
      (extract_frames video_path frames_dir fps E s).1
        = Raise (RuntimeError "ffmpeg not found in PATH")
      <-> nonempty (which_ffmpeg E) = None) /\
  (forall (E : env) (video_path frames_dir : string) (fps : Z)
          (s : stage_state * list string) (returncode : Z) (cmd : list string),
      (extract_frames video_path frames_dir fps E s).1
        = Raise (CalledProcessError returncode cmd)
      <-> exists ffmpeg,
            nonempty (which_ffmpeg E) = Some ffmpeg /\
            io_fault E (g_calls s.1) = None /\
            cmd = extract_cmd ffmpeg video_path frames_dir fps /\
            returncode = ffmpeg_exit E cmd /\ returncode <> 0) /\
  (forall (E : env) (w : world) (s3_input_key job_id : string) (fps : Z)
          (input : s3_object),
      nonempty (which_ffmpeg E) = None ->
      (forall n, io_fault E n = None) ->
      (forall n, ddb_fault E n = None) ->
      g_bucket (w_stage w) !! s3_input_key = Some input ->
      exists w',
        process_job_s3 s3_input_key job_id fps E w = (Raise (unbound_traceback E), w') /\
        last (w_out w')
          = Some ("Error processing job " +:+ job_id +:+ ": ffmpeg not found in PATH") /\
        attribute (w_ddb w') (qut_username E, job_id) "progress" = Some (VInt 40) /\
        attribute (w_ddb w') (qut_username E, job_id) "current_step"
          = Some (VStr "thumbnail") /\
        attribute (w_ddb w') (qut_username E, job_id) "status"
          = attribute (w_ddb w) (qut_username E, job_id) "status" /\
        attribute (w_ddb w') (qut_username E, job_id) "error_message"
          = attribute (w_ddb w) (qut_username E, job_id) "error_message") /\
  (forall (E : env) (w w' : world) (s3_input_key job_id : string) (fps : Z)
          (result : job_result),
      nonempty (which_ffmpeg E) = None ->
      process_job_s3 s3_input_key job_id fps E w <> (Ret (Done result), w')).
Proof.
  split; [| split; [| split; [| split; [| split]]]];
    [| | | | | intros E w w' key job fps r Hw; apply no_run_done_without_ffmpeg, Hw].
  - intros E i o s. rewrite transcode_video_run. simpl.
    destruct (nonempty (which_ffmpeg E)) as [ffmpeg|]; [| tauto].
    destruct (Z.eqb _ 0); split; discriminate.
  - intros E i o s rc cmd. rewrite transcode_video_run. simpl.
    destruct (nonempty (which_ffmpeg E)) as [ffmpeg|].
    + destruct (Z.eqb_spec (ffmpeg_exit E (transcode_cmd ffmpeg i o)) 0) as [Hz|Hz].
      * split; [discriminate |]. intros (f & Hf & -> & -> & Hne).
        inversion Hf; subst. contradiction.
      * split.
        -- intros Heq. inversion Heq; subst. exists ffmpeg. repeat split. exact Hz.
        -- intros (f & Hf & -> & -> & Hne). inversion Hf; subst. reflexivity.
    + split; [discriminate |]. intros (f & Hf & _). discriminate.
  - intros E v d fps s. rewrite extract_frames_run.
    destruct (nonempty (which_ffmpeg E)) as [ffmpeg|]; [| tauto].
    destruct (io_fault E _) as [[c m|c m]|]; simpl; [split; discriminate ..|].
    destruct (Z.eqb _ 0); split; discriminate.
  - intros E v d fps s rc cmd. rewrite extract_frames_run.
    destruct (nonempty (which_ffmpeg E)) as [ffmpeg|].
    + destruct (io_fault E (g_calls s.1)) as [[c m|c m]|]; simpl.
      * split; [discriminate |]. intros (f & _ & Hf & _). discriminate.
      * split; [discriminate |]. intros (f & _ & Hf & _). discriminate.
      * destruct (Z.eqb_spec (ffmpeg_exit E (extract_cmd ffmpeg v d fps)) 0) as [Hz|Hz].
        -- split; [discriminate |]. intros (f & Hf & _ & -> & -> & Hne).
           inversion Hf; subst. contradiction.
        -- split.
           ++ intros Heq. inversion Heq; subst. exists ffmpeg. repeat split. exact Hz.
           ++ intros (f & Hf & _ & -> & -> & Hne). inversion Hf; subst. reflexivity.
    + split; [discriminate |]. intros (f & Hf & _). discriminate.
  - intros E w key job fps obj Hw Hio Hddb Hobj.
    destruct (on_stage TemporaryDirectory E w) as [r0 w0] eqn:Ht.
    pose proof Ht as Ht'. rewrite temporary_directory_run, Hio in Ht'.
    inversion Ht'; subst r0. clear Ht'.
    assert (Hb : g_bucket (w_stage w0) !! key = Some obj) by (subst w0; exact Hobj).
    destruct (pipeline_without_ffmpeg key job fps (mkdtemp E (g_calls (w_stage w))) E w0 obj
                Hw Hio Hddb Hb) as (w1 & Hp & Hd1).
    pose proof (process_job_s3_failed _ _ _ _ _ _ _ _ _ Ht Hp) as Hrun.
    assert (Hd0 : w_ddb w0 = w_ddb w) by (subst w0; reflexivity).
    rewrite Hd0 in Hd1.
    eexists. split; [exact Hrun |]. cbn [w_out w_ddb].
    split; [apply last_snoc |]. rewrite Hd1.
    destruct (two_progress_writes E job (w_ddb w) (qut_username E, job) (Hddb _) (Hddb _)
                eq_refl)
      as (Hprog & Hstep & Hother).
    split; [exact Hprog |]. split; [exact Hstep |].
    split; apply Hother; set_solver.
Qed.

End RunClaims.

(** ** The queue consumer *)

Section WorkerFacts.
Import DynamoDBService S3Service Tasks Orchestrator Worker.

Lemma for_each_app {S A} (xs ys : list A) (body : A -> M S unit) E s :
  for_each (xs ++ ys) body E s =
    match for_each xs body E s with
    | (Ret _, s1) => for_each ys body E s1
    | (Raise e, s1) => (Raise e, s1)
    end.
Proof.
  revert s. induction xs as [|x xs IH]; intros s; simpl; [reflexivity |].
  unfold bind. destruct (body x E s) as [[[]|e] s1]; [apply IH | reflexivity].
Qed.

(** What handling one message does, case by case. *)
Lemma handle_message_cases msg E w :
  exists w',
    handle_message msg E w = (Ret tt, w') /\
    match parse_descriptor E (Body msg) with
    | inl e =>
        w_deleted w' = w_deleted w /\
        last (w_out w') = Some ("❌ Error processing message: " +:+ str_exn E e)
    | inr (job_id, s3_key) =>
        match process_job_s3 s3_key job_id 1 E
                (say ("📥 Processing job: " +:+ job_id) E w).2 with
        | (Raise e, w2) =>
            w_deleted w' = w_deleted w /\
            last (w_out w') = Some ("❌ Error processing message: " +:+ str_exn E e)
        | (Ret _, w2) =>
            w_deleted w2 = w_deleted w /\
            match sqs_fault E (w_sqs_calls w) with
            | Some f =>
                w_deleted w' = w_deleted w /\
                last (w_out w')
                  = Some ("❌ Error processing message: " +:+ str_exn E (exn_of_fault f))
            | None => w_deleted w' = w_deleted w ++ [ReceiptHandle msg]
            end
        end
    end.
Proof.
  unfold handle_message, try_except.
  rewrite (bind_Ret_step ask _ E w E w eq_refl).
  destruct (parse_descriptor E (Body msg)) as [e|[job key]].
  - unfold raise. rewrite (bind_Ret_step ask _ E w E w eq_refl).
    eexists. split; [reflexivity |]. simpl. split; [reflexivity | apply last_snoc].
  - erewrite (bind_Ret_step (say _)); [| reflexivity].
    pose proof (process_job_s3_keeps_queue key job 1 E
                  (say ("📥 Processing job: " +:+ job) E w).2) as [Hd Hc].
    simpl in *.
    destruct (process_job_s3 key job 1 E _) as [[o|e] w2] eqn:Hrun; simpl in Hd, Hc.
    + rewrite (bind_Ret_step _ _ _ _ _ _ Hrun).
      erewrite (bind_Ret_step (say _)); [| reflexivity].
      unfold delete_message, bind, sqs_call. simpl. rewrite Hc.
      destruct (sqs_fault E (w_sqs_calls w)) as [f|]; simpl.
      * eexists. split; [reflexivity |]. simpl.
        repeat split; [exact Hd | exact Hd | apply last_snoc].
      * eexists. split; [reflexivity |]. simpl. rewrite Hd. split; reflexivity.
    + rewrite (bind_Raise_step _ _ _ _ _ _ Hrun).
      rewrite (bind_Ret_step ask _ E w2 E w2 eq_refl).
      eexists. split; [reflexivity |]. simpl. split; [exact Hd | apply last_snoc].
Qed.

Lemma handle_message_total msg : total (handle_message msg).
Proof.
  apply total_try_except. intros e. apply total_bind; [apply total_ask |].
  intros E. apply total_say.
Qed.

(** C5. In the loop of the worker a message is deleted only once
    [process_job_s3] has returned for it: when the call returns the
    message is still on the queue, and the deletion is what comes next.
    If reading the body or the processing call raises, the message is not
    deleted; the exception is caught and printed, and the loop goes on
    with the next message of the batch: handling a message never raises,
    whatever happened to the ones before it. *)
Theorem message_deleted_only_after_processing :
  (forall (E : env) (msg : message) (w : world),
      exists w',
        handle_message msg E w = (Ret tt, w') /\
        match parse_descriptor E (Body msg) with
        | inl e =>
            w_deleted w' = w_deleted w /\
            last (w_out w') = Some ("❌ Error processing message: " +:+ str_exn E e)
        | inr (job_id, s3_key) =>
            match process_job_s3 s3_key job_id 1 E
                    (say ("📥 Processing job: " +:+ job_id) E w).2 with
            | (Raise e, w2) =>
                w_deleted w' = w_deleted w /\
                last (w_out w')
                  = Some ("❌ Error processing message: " +:+ str_exn E e)
            | (Ret _, w2) =>
                w_deleted w2 = w_deleted w /\
                match sqs_fault E (w_sqs_calls w) with
                | Some f =>
                    w_deleted w' = w_deleted w /\
                    last (w_out w')
                      = Some ("❌ Error processing message: "
                              +:+ str_exn E (exn_of_fault f))
                | None => w_deleted w' = w_deleted w ++ [ReceiptHandle msg]
                end
            end
        end) /\
  (forall (E : env) (before after : list message) (msg : message) (w : world),
      exists w1 w2 w3,
        for_each before handle_message E w = (Ret tt, w1) /\
        handle_message msg E w1 = (Ret tt, w2) /\
        for_each after handle_message E w2 = (Ret tt, w3) /\
        for_each (before ++ msg :: after) handle_message E w = (Ret tt, w3)).
Proof.
  split; [intros E msg w; apply handle_message_cases |].
  intros E before after msg w.
  destruct (total_for_each before handle_message handle_message_total E w)
    as ([] & w1 & H1).
  destruct (handle_message_total msg E w1) as ([] & w2 & H2).
  destruct (total_for_each after handle_message handle_message_total E w2)
    as ([] & w3 & H3).
  exists w1, w2, w3. repeat split; try assumption.
  rewrite for_each_app, H1. simpl. rewrite (bind_Ret_step _ _ _ _ _ _ H2). exact H3.
Qed.

(** C3. Every failure of a stage reaches the consumer, whether or not
    the failure could have been persisted.  [process_job_s3] never
    returns the failure outcome; an exception leaves it exactly when the
    workspace cannot be made or the [try] body raises, and in the second
    case it is the [UnboundLocalError] of the handler, raised before any
    write of the failure is tried.  So the consumer catches it, prints it
    and does not delete the message: the message is left for redelivery
    after every failed job, also when the progress store would have
    accepted the writes. *)
Theorem every_stage_failure_reaches_the_consumer :
  (forall (E : env) (w w' : world) (s3_input_key job_id : string) (fps : Z)
          (error trace key : string),
      process_job_s3 s3_input_key job_id fps E w <> (Ret (Failed error trace key), w')) /\
  (forall (E : env) (w : world) (s3_input_key job_id : string) (fps : Z),
      (exists x w', process_job_s3 s3_input_key job_id fps E w = (Raise x, w')) <->
      (exists x w0, on_stage TemporaryDirectory E w = (Raise x, w0)) \/
      (exists temp_dir w0 e w1,
         on_stage TemporaryDirectory E w = (Ret temp_dir, w0) /\
         pipeline s3_input_key job_id fps temp_dir E w0 = (Raise e, w1))) /\
  (forall (E : env) (msg : message) (w w0 w1 : world)
          (s3_input_key job_id temp_dir : string) (e : exn),
      parse_descriptor E (Body msg) = inr (job_id, s3_input_key) ->
      on_stage TemporaryDirectory E (say ("📥 Processing job: " +:+ job_id) E w).2
        = (Ret temp_dir, w0) ->
      pipeline s3_input_key job_id 1 temp_dir E w0 = (Raise e, w1) ->
      exists w',
        handle_message msg E w = (Ret tt, w') /\
        w_deleted w' = w_deleted w /\
        w_ddb w' = w_ddb w1 /\
        last (w_out w')
          = Some ("❌ Error processing message: " +:+ str_unbound E "traceback")).
Proof.
  split; [| split].
  - intros E w w' key job fps err tr k. apply process_job_s3_not_Failed.
  - intros E w key job fps. split.
    + intros (x & w' & Hrun).
      apply process_job_s3_Raise_inv in Hrun
        as [Hrun | (temp & w0 & e & w1 & Ht & Hp & _)]; [left | right]; eauto 10.
    + intros [(x & w0 & Ht) | (temp & w0 & e & w1 & Ht & Hp)].
      * eexists _, _. apply process_job_s3_no_workspace. exact Ht.
      * eexists _, _. eapply process_job_s3_failed; eassumption.
  - intros E msg w w0 w1 key job temp e Hparse Ht Hp.
    pose proof (process_job_s3_failed _ _ _ _ _ _ _ _ _ Ht Hp) as Hrun.
    pose proof (pres_pipeline w_deleted key job 1 temp
                  ltac:(reflexivity) ltac:(reflexivity) ltac:(reflexivity) E w0) as Hdel.
    rewrite Hp in Hdel. simpl in Hdel.
    assert (Hd0 : w_deleted w0 = w_deleted w).
    { rewrite temporary_directory_run in Ht. inversion Ht. reflexivity. }
    unfold handle_message, try_except.
    rewrite (bind_Ret_step ask _ E w E w eq_refl). rewrite Hparse.
    erewrite (bind_Ret_step (say _)); [| reflexivity].
    rewrite (bind_Raise_step _ _ _ _ _ _ Hrun).
    rewrite (bind_Ret_step ask _ E _ E _ eq_refl).
    eexists. split; [reflexivity |]. simpl.
    split; [congruence |]. split; [reflexivity | apply last_snoc].
Qed.

End WorkerFacts.

(** ** Object keys and uploads *)

Section UploadFacts.
Import S3Config S3Service Tasks Orchestrator.

Lemma append_cons c (a b : string) : String c a +:+ b = String c (a +:+ b).
Proof. reflexivity. Qed.

Lemma append_nil (b : string) : "" +:+ b = b.
Proof. reflexivity. Qed.

Lemma append_assoc (a b c : string) : (a +:+ b) +:+ c = a +:+ (b +:+ c).
Proof.
  induction a as [|x a IH]; [reflexivity |]. rewrite !append_cons. by rewrite IH.
Qed.

Lemma basename_from_slash d f acc :
  basename_from (d +:+ String "/" f) acc = basename_from f "".
Proof.
  revert acc. induction d as [|c d IH]; intros acc.
  - rewrite append_nil. reflexivity.
  - rewrite append_cons. simpl. destruct (bool_decide (c = "/"%char)); apply IH.
Qed.

Lemma endswith_slash a : endswith a "/" = true -> exists a', a = a' +:+ "/".
Proof.
  induction a as [|c a IH]; simpl.
  - discriminate.
  - case_bool_decide as Heq.
    + intros _. exists "". exact Heq.
    + intros H. destruct (IH H) as [a' ->]. exists (String c a'). reflexivity.
Qed.

(** The file name that [process_job] reports does not depend on the
    directory it worked in. *)
Lemma basename_path_join d f :
  f = "transcoded.mp4" \/ f = "thumbnail.jpg" -> basename (path_join d f) = f.
Proof.
  intros Hf. unfold path_join, basename.
  assert (Hs : startswith f "/" = false) by (destruct Hf; subst; reflexivity).
  assert (Hb : basename_from f "" = f) by (destruct Hf; subst; reflexivity).
  assert (Hjoin : forall d0, basename_from (d0 +:+ "/" +:+ f) "" = f).
  { intros d0. change ("/" +:+ f) with (String "/" f).
    rewrite basename_from_slash. exact Hb. }
  rewrite Hs. case_bool_decide; [exact Hb |].
  destruct (endswith d "/") eqn:He.
  - apply endswith_slash in He as [d' ->]. rewrite append_assoc. apply Hjoin.
  - apply Hjoin.
Qed.

Section Steady.
Context (E : env) (Hio : forall n, io_fault E n = None).












End Steady.

End UploadFacts.

(** ** The claims on the example machine *)

Import DynamoDBService S3Config S3Service Tasks Orchestrator Worker.

Example demo_run_done : demo_run.1 = Ret (Done demo_result).
Proof. vm_compute. reflexivity. Qed.

Example demo_run_row :
  q_rows (w_sql demo_run.2) !! "job-1"
    = Some (mk_row "done" (Some (result_value demo_result))).
Proof. vm_compute. reflexivity. Qed.

Example demo_failed_run_outcome :
  demo_failed_run.1 = Raise (unbound_traceback demo_env).
Proof. vm_compute. reflexivity. Qed.

(** The run of job-2, whose input is not in the bucket.  The download
    raises after the write of progress 20.  The call does not return a
    failure outcome, it raises [UnboundLocalError]; the only progress
    written is 20, and the record of the job still reads [queued], at
    progress 20, with no error message. *)
Lemma failed_run_leaves_record_queued :
  demo_failed_run.1
    = Raise (OtherException "UnboundLocalError"
               "cannot access local variable 'traceback' where it is not associated with a value") /\
  progress_written (d_requests (w_ddb demo_failed_run.2)) = [("job-2", 20)] /\
  attribute (w_ddb demo_failed_run.2) ("n11086840@qut.edu.au", "job-2") "status"
    = Some (VStr "queued") /\
  attribute (w_ddb demo_failed_run.2) ("n11086840@qut.edu.au", "job-2") "progress"
    = Some (VInt 20) /\
  attribute (w_ddb demo_failed_run.2) ("n11086840@qut.edu.au", "job-2") "error_message"
    = None.
Proof. repeat split; vm_compute; reflexivity. Qed.

(** The same run, seen from the two stores and the standard output: one
    request was sent to the Progress Tracker (the write of progress 20),
    the row of the job in the relational store still reads [queued], and
    the message of the failed stage was only printed. *)
Lemma failed_run_writes_no_failure :
  (exists e, demo_failed_run.1 = Raise e) /\
  length (d_requests (w_ddb demo_failed_run.2)) = 1%nat /\
  q_rows (w_sql demo_failed_run.2) !! "job-2" = Some (mk_row "queued" None) /\
  w_sql demo_failed_run.2 = w_sql demo_world /\
  w_out demo_failed_run.2
    = ["✅ Updated job progress for job-2: 20% - download";
       "Error processing job job-2: 404: File not found"].
Proof.
  split; [eexists; apply demo_failed_run_outcome |].
  repeat split; vm_compute; reflexivity.
Qed.

(** The message of job-2 on a machine whose tracker answers every
    request: the failure could have been persisted, yet the error reaches
    the consumer; the message is not deleted, and the record of the job is
    left [queued].  The message of job-1, whose run succeeds, is deleted. *)
Lemma failed_job_is_left_on_the_queue :
  let handled := handle_message (mk_message "{job-2}" "receipt-2") demo_env demo_world in
  (forall n, ddb_fault demo_env n = None) /\
  handled.1 = Ret tt /\
  w_deleted handled.2 = [] /\
  last (w_out handled.2)
    = Some "❌ Error processing message: cannot access local variable 'traceback' where it is not associated with a value" /\
  attribute (w_ddb handled.2) ("n11086840@qut.edu.au", "job-2") "status"
    = Some (VStr "queued") /\
  w_deleted (handle_message (mk_message "{job-1}" "receipt-1") demo_env demo_world).2
    = ["receipt-1"].
Proof.
  intros handled. split; [intros n; reflexivity |].
  repeat split; vm_compute; reflexivity.
Qed.

(** The run of job-1 on the machine without ffmpeg: the call raises
    [UnboundLocalError], and the record of the job is left [queued] at
    progress 40, with no error message. *)
Lemma missing_ffmpeg_leaves_record_queued :
  let run := process_job_s3 "uploads/v.mp4" "job-1" 1 demo_env_no_ffmpeg demo_world in
  run.1
    = Raise (OtherException "UnboundLocalError"
               "cannot access local variable 'traceback' where it is not associated with a value") /\
  last (w_out run.2) = Some "Error processing job job-1: ffmpeg not found in PATH" /\
  attribute (w_ddb run.2) ("n11086840@qut.edu.au", "job-1") "status"
    = Some (VStr "queued") /\
  attribute (w_ddb run.2) ("n11086840@qut.edu.au", "job-1") "progress"
    = Some (VInt 40) /\
  attribute (w_ddb run.2) ("n11086840@qut.edu.au", "job-1") "error_message" = None.
Proof. intros run. repeat split; vm_compute; reflexivity. Qed.

(** C8 on the record of job-1. *)
Lemma update_job_progress_keeps_other_fields_witness :
  get_job_progress demo_env demo_ddb "job-1" = Some (demo_item "job-1") /\
  exists answer d' out' item',
    update_job_progress "job-1" 20 "download" "Downloading video from S3..." VNone
      demo_env (demo_ddb, []) = (answer, (d', out')) /\
    get_job_progress demo_env d' "job-1" = Some item' /\
    Forall (fun a => item' !! a = demo_item "job-1" !! a)
      ["status"; "steps"; "total_steps"; "created_at"; "video_filename"; "owner";
       "error_message"].
Proof.
  assert (H : get_job_progress demo_env demo_ddb "job-1" = Some (demo_item "job-1"))
    by (vm_compute; reflexivity).
  split; [exact H |].
  destruct (update_job_progress_keeps_other_fields demo_env demo_ddb [] "job-1" 20
              "download" "Downloading video from S3..." VNone (demo_item "job-1") H)
    as (answer & d' & out' & item' & Hrun & Hget & _ & Hframe & _).
  exists answer, d', out', item'. repeat split; assumption.
Defined.

(** C10 on a record created for job-3 and three operations on it. *)
Lemma steps_never_modified_witness :
  create_job_progress "job-3" "v.mp4" "alice" demo_env (demo_ddb, [])
    = (Ret true, (create_job_progress "job-3" "v.mp4" "alice" demo_env (demo_ddb, [])).2) /\
  exists item,
    get_job_progress demo_env
      (run_ops [OpUpdate "job-3" 20 "download" "Downloading video from S3..." VNone;
                OpComplete "job-3" (VDict [("transcoded", VStr "transcoded.mp4")]);
                OpFail "job-3" "ffmpeg not found in PATH"]
         demo_env
         (create_job_progress "job-3" "v.mp4" "alice" demo_env (demo_ddb, [])).2).1
      "job-3" = Some item /\
    item !! "steps" = Some initial_steps /\
    step_statuses <$> item !! "steps" = Some (replicate 5 (VStr "pending")).
Proof.
  assert (H : create_job_progress "job-3" "v.mp4" "alice" demo_env (demo_ddb, [])
              = (Ret true,
                 (create_job_progress "job-3" "v.mp4" "alice" demo_env (demo_ddb, [])).2))
    by (vm_compute; reflexivity).
  split; [exact H |].
  exact (steps_never_modified demo_env (demo_ddb, []) _ "job-3" "v.mp4" "alice" _ H).
Defined.

(** C4 on the run of job-1. *)
Lemma successful_run_follows_schedule_witness :
  process_job_s3 "uploads/v.mp4" "job-1" 1 demo_env demo_world
    = (Ret (Done demo_result), demo_run.2) /\
  exists new,
    d_requests (w_ddb demo_run.2) = d_requests (w_ddb demo_world) ++ new /\
    progress_written new =
      [("job-1", 20); ("job-1", 40); ("job-1", 60); ("job-1", 80);
       ("job-1", 100); ("job-1", 100)] /\
    last (progress_written new).*2 = Some 100.
Proof.
  assert (H : process_job_s3 "uploads/v.mp4" "job-1" 1 demo_env demo_world
              = (Ret (Done demo_result), demo_run.2)) by (vm_compute; reflexivity).
  split; [exact H |].
  destruct (successful_run_follows_schedule demo_env demo_world demo_run.2
              "uploads/v.mp4" "job-1" 1 demo_result H)
    as (new & Hreq & Hprog & _ & _ & Hlast & _).
  exists new. repeat split; assumption.
Defined.

(** C6 on the frames directory of the example: two frames, the first of
    which cannot be read. *)
Lemma inference_records_frame_errors_witness :
  (g_model demo_stage = true \/ io_fault demo_env (g_calls demo_stage) = None) /\
  exists results s',
    run_inference_on_frames "/tmp/tmpjob/frames" 3 demo_env (demo_stage, [])
      = (Ret results, s') /\
    length results = 2%nat /\
    results !! 0%nat
      = Some (VDict [("frame", VStr "frame_00001.JPG");
                     ("labels",
                      VList [VDict [("error", VStr "cannot identify image file")]])]) /\
    results !! 1%nat
      = Some (VDict [("frame", VStr "frame_00002.jpg");
                     ("labels",
                      VList [VDict [("index", VInt 1); ("label", VStr "dog");
                                    ("probability", VFloat "0.9")];
                             VDict [("index", VInt 0); ("label", VStr "cat");
                                    ("probability", VFloat "0.1")]])]).
Proof.
  assert (H : g_model demo_stage = true \/ io_fault demo_env (g_calls demo_stage) = None)
    by (right; reflexivity).
  split; [exact H |].
  destruct (inference_records_frame_errors demo_env "/tmp/tmpjob/frames" 3
              (demo_stage, []) H) as (results & s' & Hrun & Hlen & Hk).
  exists results, s'. split; [exact Hrun |]. split; [exact Hlen |].
  split; [apply (Hk 0%nat "frame_00001.JPG") | apply (Hk 1%nat "frame_00002.jpg")];
    vm_compute; reflexivity.
Defined.

(** C7 on the machine without ffmpeg. *)
Lemma ffmpeg_errors_witness :
  nonempty (which_ffmpeg demo_env_no_ffmpeg) = None /\
  (forall n, io_fault demo_env_no_ffmpeg n = None) /\
  (forall n, ddb_fault demo_env_no_ffmpeg n = None) /\
  g_bucket (w_stage demo_world) !! "uploads/v.mp4"
    = Some (mk_obj "video bytes" "video/mp4" "AES256") /\
  (transcode_video "in.mp4" "out.mp4" demo_env_no_ffmpeg (demo_stage, [])).1
    = Raise (RuntimeError "ffmpeg not found in PATH") /\
  exists w',
    process_job_s3 "uploads/v.mp4" "job-1" 1 demo_env_no_ffmpeg demo_world
      = (Raise (unbound_traceback demo_env_no_ffmpeg), w') /\
    last (w_out w') = Some "Error processing job job-1: ffmpeg not found in PATH" /\
    attribute (w_ddb w') ("n11086840@qut.edu.au", "job-1") "progress" = Some (VInt 40) /\
    attribute (w_ddb w') ("n11086840@qut.edu.au", "job-1") "current_step"
      = Some (VStr "thumbnail") /\
    attribute (w_ddb w') ("n11086840@qut.edu.au", "job-1") "status"
      = attribute (w_ddb demo_world) ("n11086840@qut.edu.au", "job-1") "status" /\
    attribute (w_ddb w') ("n11086840@qut.edu.au", "job-1") "error_message"
      = attribute (w_ddb demo_world) ("n11086840@qut.edu.au", "job-1") "error_message".
Proof.
  assert (Hw : nonempty (which_ffmpeg demo_env_no_ffmpeg) = None) by reflexivity.
  assert (Hio : forall n, io_fault demo_env_no_ffmpeg n = None) by (intros n; reflexivity).
  assert (Hddb : forall n, ddb_fault demo_env_no_ffmpeg n = None)
    by (intros n; reflexivity).
  assert (Hobj : g_bucket (w_stage demo_world) !! "uploads/v.mp4"
                 = Some (mk_obj "video bytes" "video/mp4" "AES256"))
    by (vm_compute; reflexivity).
  destruct ffmpeg_errors as (Ht & _ & _ & _ & Hjob & _).
  split; [exact Hw |]. split; [exact Hio |]. split; [exact Hddb |]. split; [exact Hobj |].
  split; [apply Ht; exact Hw |].
  exact (Hjob demo_env_no_ffmpeg demo_world "uploads/v.mp4" "job-1" 1 _ Hw Hio Hddb Hobj).
Defined.

(** C1 on the failed run of job-2. *)
Lemma failed_run_is_not_marked_failed_witness :
  let w0 := (on_stage TemporaryDirectory demo_env demo_world).2 in
  let w1 := (pipeline "uploads/missing.mp4" "job-2" 1 "/tmp/tmpjob" demo_env w0).2 in
  on_stage TemporaryDirectory demo_env demo_world = (Ret "/tmp/tmpjob", w0) /\
  pipeline "uploads/missing.mp4" "job-2" 1 "/tmp/tmpjob" demo_env w0
    = (Raise (HTTPException 404 "File not found"), w1) /\
  exists w' new,
    process_job_s3 "uploads/missing.mp4" "job-2" 1 demo_env demo_world
      = (Raise (unbound_traceback demo_env), w') /\
    d_requests (w_ddb w') = d_requests (w_ddb demo_world) ++ new /\
    progress_written new `prefix_of`
      [("job-2", 20); ("job-2", 40); ("job-2", 60); ("job-2", 80);
       ("job-2", 100); ("job-2", 100)] /\
    (forall key,
       attribute (w_ddb w') key "status" = attribute (w_ddb demo_world) key "status") /\
    (forall key,
       attribute (w_ddb w') key "error_message"
         = attribute (w_ddb demo_world) key "error_message").
Proof.
  intros w0 w1.
  assert (Ht : on_stage TemporaryDirectory demo_env demo_world = (Ret "/tmp/tmpjob", w0))
    by (vm_compute; reflexivity).
  assert (Hp : pipeline "uploads/missing.mp4" "job-2" 1 "/tmp/tmpjob" demo_env w0
               = (Raise (HTTPException 404 "File not found"), w1))
    by (vm_compute; reflexivity).
  split; [exact Ht |]. split; [exact Hp |].
  exact (failed_run_is_not_marked_failed demo_env demo_world w0 w1 "uploads/missing.mp4"
           "job-2" "/tmp/tmpjob" 1 (HTTPException 404 "File not found") Ht Hp).
Defined.

(** C2 on the failed run of job-2. *)
Lemma stage_failure_propagates_witness :
  let w0 := (on_stage TemporaryDirectory demo_env demo_world).2 in
  let w1 := (pipeline "uploads/missing.mp4" "job-2" 1 "/tmp/tmpjob" demo_env w0).2 in
  on_stage TemporaryDirectory demo_env demo_world = (Ret "/tmp/tmpjob", w0) /\
  pipeline "uploads/missing.mp4" "job-2" 1 "/tmp/tmpjob" demo_env w0
    = (Raise (HTTPException 404 "File not found"), w1) /\
  exists w',
    process_job_s3 "uploads/missing.mp4" "job-2" 1 demo_env demo_world
      = (Raise (unbound_traceback demo_env), w') /\
    w_ddb w' = w_ddb w1 /\
    w_stage w' = w_stage w1 /\
    w_sql w' = w_sql demo_world /\
    w_out w' = w_out w1 ++ ["Error processing job job-2: 404: File not found"].
Proof.
  intros w0 w1.
  assert (Ht : on_stage TemporaryDirectory demo_env demo_world = (Ret "/tmp/tmpjob", w0))
    by (vm_compute; reflexivity).
  assert (Hp : pipeline "uploads/missing.mp4" "job-2" 1 "/tmp/tmpjob" demo_env w0
               = (Raise (HTTPException 404 "File not found"), w1))
    by (vm_compute; reflexivity).
  split; [exact Ht |]. split; [exact Hp |].
  exact (stage_failure_propagates demo_env demo_world w0 w1 "uploads/missing.mp4"
           "job-2" "/tmp/tmpjob" 1 (HTTPException 404 "File not found") Ht Hp).
Defined.

(** C3 on the message of job-2. *)
Lemma every_stage_failure_reaches_the_consumer_witness :
  let msg := mk_message "{job-2}" "receipt-2" in
  let w := (say "📥 Processing job: job-2" demo_env demo_world).2 in
  let w0 := (on_stage TemporaryDirectory demo_env w).2 in
  let w1 := (pipeline "uploads/missing.mp4" "job-2" 1 "/tmp/tmpjob" demo_env w0).2 in
  parse_descriptor demo_env (Body msg) = inr ("job-2", "uploads/missing.mp4") /\
  on_stage TemporaryDirectory demo_env w = (Ret "/tmp/tmpjob", w0) /\
  pipeline "uploads/missing.mp4" "job-2" 1 "/tmp/tmpjob" demo_env w0
    = (Raise (HTTPException 404 "File not found"), w1) /\
  exists w',
    handle_message msg demo_env demo_world = (Ret tt, w') /\
    w_deleted w' = w_deleted demo_world /\
    w_ddb w' = w_ddb w1 /\
    last (w_out w')
      = Some ("❌ Error processing message: " +:+ str_unbound demo_env "traceback").
Proof.
  intros msg w w0 w1.
  assert (H1 : parse_descriptor demo_env (Body msg) = inr ("job-2", "uploads/missing.mp4"))
    by reflexivity.
  assert (Ht : on_stage TemporaryDirectory demo_env w = (Ret "/tmp/tmpjob", w0))
    by (vm_compute; reflexivity).
  assert (Hp : pipeline "uploads/missing.mp4" "job-2" 1 "/tmp/tmpjob" demo_env w0
               = (Raise (HTTPException 404 "File not found"), w1))
    by (vm_compute; reflexivity).
  split; [exact H1 |]. split; [exact Ht |]. split; [exact Hp |].
  destruct every_stage_failure_reaches_the_consumer as (_ & _ & Hleft).
  exact (Hleft demo_env msg demo_world w0 w1 "uploads/missing.mp4" "job-2" "/tmp/tmpjob"
           (HTTPException 404 "File not found") H1 Ht Hp).
Defined.

(** * More of the code *)
(** ** More of the Progress Tracker *)

(** Induction on values, going through lists and dicts. *)
Lemma value_nested_ind (P : value -> Prop)
    (Hnone : P VNone) (Hbool : forall b, P (VBool b)) (Hint : forall n, P (VInt n))
    (Hfloat : forall r, P (VFloat r)) (Hdec : forall r, P (VDecimal r))
    (Hstr : forall s, P (VStr s))
    (Hlist : forall l, Forall P l -> P (VList l))
    (Hdict : forall d, Forall (fun kv => P kv.2) d -> P (VDict d)) :
  forall v, P v.
Proof.
  fix IH 1. intros [ | b | n | r | r | s | l | d].
  - exact Hnone.
  - apply Hbool.
  - apply Hint.
  - apply Hfloat.
  - apply Hdec.
  - apply Hstr.
  - apply Hlist. induction l as [|x l IHl]; constructor; [apply IH | exact IHl].
  - apply Hdict. induction d as [|[k x] d IHd]; constructor; [apply IH | exact IHd].
Qed.

Lemma convert_floats_fixes_float_free v :
  has_float v = false -> _convert_floats_to_decimal v = v.
Proof.
  induction v as [ | | | | | | l IH | d IH] using value_nested_ind;
    simpl; intros Hf; try reflexivity; try discriminate.
  - f_equal. induction IH as [|x l Hx _ IHl]; simpl in *; [reflexivity |].
    apply orb_false_iff in Hf as [Hf1 Hf2]. rewrite Hx, IHl; auto.
  - f_equal. induction IH as [|[k x] l Hx _ IHl]; simpl in *; [reflexivity |].
    apply orb_false_iff in Hf as [Hf1 Hf2]. rewrite Hx, IHl; auto.
Qed.

Lemma convert_floats_no_float v : has_float (_convert_floats_to_decimal v) = false.
Proof.
  induction v as [ | | | | | | l IH | d IH] using value_nested_ind;
    simpl; try reflexivity.
  - induction IH as [|x l Hx _ IHl]; simpl; [reflexivity |]. by rewrite Hx, IHl.
  - induction IH as [|[k x] l Hx _ IHl]; simpl in *; [reflexivity |]. by rewrite Hx, IHl.
Qed.

(** X1. [_convert_floats_to_decimal] leaves no float anywhere in a value,
    at any depth of lists and dicts; converting twice is converting once;
    and the converted value is true in an [if] exactly when the original
    is. *)
Theorem convert_floats_leaves_no_float (v : value) :
  has_float (_convert_floats_to_decimal v) = false /\
  _convert_floats_to_decimal (_convert_floats_to_decimal v)
    = _convert_floats_to_decimal v /\
  truthy (_convert_floats_to_decimal v) = truthy v.
Proof.
  split; [apply convert_floats_no_float |].
  split; [apply convert_floats_fixes_float_free, convert_floats_no_float |].
  destruct v as [ | b | n | r | r | s | l | d]; try reflexivity.
  - destruct l; reflexivity.
  - destruct d as [|[k x] d]; reflexivity.
Qed.

(** The item that [create_job_progress] puts, from the two readings of the
    clock. *)
Lemma create_job_progress_run job video owner E d out :
  exists item out',
    create_job_progress job video owner E (d, out) =
      (match ddb_fault E (length (d_requests d)) with
       | None => Ret true
       | Some f => if is_ClientError (exn_of_fault f) then Ret false
                   else Raise (exn_of_fault f)
       end,
       (mk_ddb (match ddb_fault E (length (d_requests d)) with
                | None => <[(qut_username E, job) := item]> (d_table d)
                | Some _ => d_table d
                end)
               (d_requests d ++ [PutItem item]) (S (S (d_ticks d))), out')) /\
    item !! "status" = Some (VStr "queued") /\
    item !! "progress" = Some (VInt 0) /\
    item !! "current_step" = Some (VStr "initialized") /\
    item !! "created_at" = Some (VStr (utcnow E (d_ticks d) +:+ "Z")) /\
    item !! "updated_at" = Some (VStr (utcnow E (S (d_ticks d)) +:+ "Z")) /\
    item !! "error_message" = None /\
    item !! "ml_result" = None.
Proof.
  unfold create_job_progress, try_except_ClientError, bind, ask, timestamp, put_item,
    print, ret. simpl.
  destruct (ddb_fault E (length (d_requests d))) as [[c m|c m]|]; simpl;
    (eexists; eexists; split; [reflexivity |]; by simplify_map_eq).
Qed.

(** X2. [create_job_progress] puts a whole item: when the store accepts the
    request the record of the job is the fresh one (queued, progress 0, the
    two timestamps from two readings of the clock), whatever the table held
    for this job before, so an [error_message] or [ml_result] of an earlier
    run is gone; the records of the other jobs stay. *)
Theorem create_job_progress_replaces_record
    (E : env) (d : ddb_state) (out : list string) (job video owner : string) :
  ddb_fault E (length (d_requests d)) = None ->
  let r := create_job_progress job video owner E (d, out) in
  r.1 = Ret true /\
  (exists item,
     get_job_progress E r.2.1 job = Some item /\
     item !! "status" = Some (VStr "queued") /\
     item !! "progress" = Some (VInt 0) /\
     item !! "current_step" = Some (VStr "initialized") /\
     item !! "created_at" = Some (VStr (utcnow E (d_ticks d) +:+ "Z")) /\
     item !! "updated_at" = Some (VStr (utcnow E (S (d_ticks d)) +:+ "Z")) /\
     item !! "error_message" = None /\
     item !! "ml_result" = None) /\
  (forall job', job' <> job ->
     get_job_progress E r.2.1 job' = get_job_progress E d job').
Proof.
  intros Hok r. subst r.
  destruct (create_job_progress_run job video owner E d out)
    as (item & out' & -> & Hitem).
  rewrite Hok. simpl. split; [reflexivity |]. unfold get_job_progress. simpl. split.
  - exists item. split; [apply lookup_insert_eq | exact Hitem].
  - intros job' Hne. apply lookup_insert_ne. congruence.
Qed.

(** X3. The four writes of the tracker on a store that refuses the request:
    a [ClientError] is swallowed and answered [False], any other exception
    of the library goes through to the caller; in both cases the request
    has been issued and the table is as it was. *)
Theorem tracker_writes_on_refusal
    (E : env) (d : ddb_state) (out : list string) (f : fault) :
  ddb_fault E (length (d_requests d)) = Some f ->
  let answer : res bool :=
    match f with
    | ServiceError _ _ => Ret false
    | LibraryError cls msg => Raise (OtherException cls msg)
    end in
  (forall job video owner,
     let r := create_job_progress job video owner E (d, out) in
     r.1 = answer /\ d_table r.2.1 = d_table d /\
     length (d_requests r.2.1) = S (length (d_requests d))) /\
  (forall op,
     let r := run_op op E (d, out) in
     r.1 = answer /\ d_table r.2.1 = d_table d /\
     length (d_requests r.2.1) = S (length (d_requests d))).
Proof.
  intros Hf answer. split.
  - intros job video owner r. subst r.
    destruct (create_job_progress_run job video owner E d out)
      as (item & out' & -> & _).
    rewrite Hf. simpl. rewrite length_app. simpl.
    destruct f; simpl; (split; [reflexivity |]; split; [reflexivity | lia]).
  - intros op r. subst r.
    assert (Hans : answer_after_update E d = answer).
    { unfold answer_after_update. rewrite Hf. destruct f; reflexivity. }
    assert (Htab : forall key sets, table_after_update E key sets d = d_table d).
    { intros key sets. unfold table_after_update. by rewrite Hf. }
    destruct op as [j p c ss res | j res | j msg]; simpl.
    + destruct (update_job_progress_run j p c ss res E d out) as [out' ->]. simpl.
      rewrite Hans, Htab, length_app. simpl. split; [reflexivity |]. split; [reflexivity | lia].
    + destruct (complete_job_run j res E d out) as [out' ->]. simpl.
      rewrite Hans, Htab, length_app. simpl. split; [reflexivity |]. split; [reflexivity | lia].
    + destruct (fail_job_run j msg E d out) as [out' ->]. simpl.
      rewrite Hans, Htab, length_app. simpl. split; [reflexivity |]. split; [reflexivity | lia].
Qed.

(** The record of a job after an accepted update. *)
Lemma table_after_update_accepted E key sets d :
  ddb_fault E (length (d_requests d)) = None ->
  table_after_update E key sets d !! key =
    Some (apply_sets sets (default (key_attrs key) (d_table d !! key))).
Proof.
  intros Hok. unfold table_after_update. rewrite Hok. apply lookup_insert_eq.
Qed.

Lemma state_after_update_requests E key sets d :
  length (d_requests (state_after_update E key sets d)) = S (length (d_requests d)).
Proof. unfold state_after_update. simpl. rewrite length_app. simpl. lia. Qed.

(** X4. The two terminal writes do not undo each other.  [fail_job] after
    [complete_job] leaves a record that reads [failed] with progress 100 and
    the result of the completion; [complete_job] after [fail_job] leaves a
    record that reads [completed] and still carries the error message. *)
Theorem terminal_writes_keep_stale_fields
    (E : env) (d : ddb_state) (out : list string) (job msg : string) (result : value) :
  ddb_fault E (length (d_requests d)) = None ->
  ddb_fault E (S (length (d_requests d))) = None ->
  (let s1 := (complete_job job result E (d, out)).2 in
   let s2 := (fail_job job msg E s1).2 in
   exists item,
     get_job_progress E s2.1 job = Some item /\
     item !! "status" = Some (VStr "failed") /\
     item !! "progress" = Some (VInt 100) /\
     item !! "ml_result" = Some (_convert_floats_to_decimal result) /\
     item !! "error_message" = Some (VStr msg)) /\
  (let s1 := (fail_job job msg E (d, out)).2 in
   let s2 := (complete_job job result E s1).2 in
   exists item,
     get_job_progress E s2.1 job = Some item /\
     item !! "status" = Some (VStr "completed") /\
     item !! "progress" = Some (VInt 100) /\
     item !! "ml_result" = Some (_convert_floats_to_decimal result) /\
     item !! "error_message" = Some (VStr msg)).
Proof.
  intros H0 H1. split.
  - intros s1 s2. subst s2 s1.
    destruct (complete_job_run job result E d out) as [out1 ->]. simpl.
    destruct (fail_job_run job msg E
                (state_after_update E (qut_username E, job) (complete_sets E d result) d)
                out1) as [out2 ->]. simpl.
    unfold get_job_progress. simpl.
    rewrite table_after_update_accepted
      by (rewrite state_after_update_requests; exact H1).
    eexists. split; [reflexivity |]. simpl.
    rewrite table_after_update_accepted by exact H0. simpl.
    unfold apply_sets. simpl. by simplify_map_eq.
  - intros s1 s2. subst s2 s1.
    destruct (fail_job_run job msg E d out) as [out1 ->]. simpl.
    destruct (complete_job_run job result E
                (state_after_update E (qut_username E, job) (fail_sets E d msg) d)
                out1) as [out2 ->]. simpl.
    unfold get_job_progress. simpl.
    rewrite table_after_update_accepted
      by (rewrite state_after_update_requests; exact H1).
    eexists. split; [reflexivity |]. simpl.
    rewrite table_after_update_accepted by exact H0. simpl.
    unfold apply_sets. simpl. by simplify_map_eq.
Qed.

(** X5. [update_job_progress] for a job that was never created is not an
    error: the store creates the record from the key, so the job is then
    found by [get_job_progress] with the progress written but without
    [status], [steps], [owner] or [created_at]. *)
Theorem update_job_progress_creates_partial_record
    (E : env) (d : ddb_state) (out : list string) (job step ss : string) (p : Z)
    (result : value) :
  get_job_progress E d job = None ->
  ddb_fault E (length (d_requests d)) = None ->
  let r := update_job_progress job p step ss result E (d, out) in
  r.1 = Ret true /\
  exists item,
    get_job_progress E r.2.1 job = Some item /\
    item !! "job_id" = Some (VStr job) /\
    item !! "progress" = Some (VInt p) /\
    item !! "current_step" = Some (VStr step) /\
    item !! "status" = None /\
    item !! "steps" = None /\
    item !! "owner" = None /\
    item !! "created_at" = None.
Proof.
  intros Hnone Hok r. subst r. unfold get_job_progress in *.
  destruct (update_job_progress_run job p step ss result E d out) as [out' ->]. simpl.
  unfold answer_after_update. rewrite Hok. split; [reflexivity |].
  rewrite table_after_update_accepted by exact Hok.
  eexists. split; [reflexivity |]. rewrite Hnone. simpl.
  unfold progress_sets, apply_sets, key_attrs.
  destruct (truthy result); simpl; by simplify_map_eq.
Qed.

(** A status read after an update was written by it or was there before. *)
Lemma status_after_update E key0 sets d key item' v :
  table_after_update E key0 sets d !! key = Some item' ->
  item' !! "status" = Some v ->
  (exists item, d_table d !! key = Some item /\ item !! "status" = Some v) \/
  apply_sets sets ∅ !! "status" = Some v.
Proof.
  intros Hit Hst. destruct (decide (key0 = key)) as [->|Hne].
  - unfold table_after_update in Hit.
    destruct (ddb_fault E (length (d_requests d))); [left; eauto |].
    rewrite lookup_insert_eq in Hit. inversion Hit; subst; clear Hit.
    destruct (decide ("status" ∈ sets.*1)) as [Hin|Hnin].
    + right. revert Hst Hin. unfold apply_sets.
      generalize (default (key_attrs key) (d_table d !! key)).
      generalize (∅ : gmap string value).
      induction sets as [|[a x] sets IH] using rev_ind; intros m0 m1 Hst Hin.
      * simpl in Hin. set_solver.
      * rewrite foldl_app in *. simpl in *.
        destruct (decide (a = "status")) as [->|Hna].
        -- rewrite lookup_insert_eq in *. exact Hst.
        -- rewrite lookup_insert_ne in * by exact Hna.
           apply (IH m0 m1 Hst). rewrite fmap_app in Hin. set_solver.
    + rewrite apply_sets_other in Hst by exact Hnin.
      destruct (d_table d !! key) as [item|] eqn:Hd; simpl in Hst.
      * left. eauto.
      * unfold key_attrs in Hst. by simplify_map_eq.
  - rewrite table_after_update_other in Hit by exact Hne. left. eauto.
Qed.

Lemma run_op_status op E s key item' v :
  d_table (run_op op E s).2.1 !! key = Some item' ->
  item' !! "status" = Some v ->
  (exists item, d_table s.1 !! key = Some item /\ item !! "status" = Some v) \/
  v = VStr "completed" \/ v = VStr "failed".
Proof.
  destruct s as [d out].
  destruct op as [j p c ss r | j r | j msg]; simpl.
  - destruct (update_job_progress_run j p c ss r E d out) as [out' ->]. simpl.
    intros Hit Hst.
    destruct (status_after_update _ _ _ _ _ _ _ Hit Hst) as [H|H]; [left; exact H |].
    exfalso. revert H. unfold progress_sets, apply_sets.
    destruct (truthy r); simpl; by simplify_map_eq.
  - destruct (complete_job_run j r E d out) as [out' ->]. simpl.
    intros Hit Hst.
    destruct (status_after_update _ _ _ _ _ _ _ Hit Hst) as [H|H]; [left; exact H |].
    right. left. revert H. unfold complete_sets, apply_sets. simpl.
    intros H. simplify_map_eq. reflexivity.
  - destruct (fail_job_run j msg E d out) as [out' ->]. simpl.
    intros Hit Hst.
    destruct (status_after_update _ _ _ _ _ _ _ Hit Hst) as [H|H]; [left; exact H |].
    right. right. revert H. unfold fail_sets, apply_sets. simpl.
    intros H. simplify_map_eq. reflexivity.
Qed.

(** X6. The only statuses the later writes of the tracker ever store are
    [completed] and [failed]: after any sequence of [update_job_progress],
    [complete_job] and [fail_job], on any jobs and whether accepted or not,
    a record whose status is anything else (in particular [processing],
    which [get_job_statistics] counts) already had that status before. *)
Theorem tracker_writes_only_terminal_statuses
    (ops : list tracker_op) (E : env) (s : ddb_state * list string)
    (key : string * string) (item' : gmap string value) (v : value) :
  d_table (run_ops ops E s).1 !! key = Some item' ->
  item' !! "status" = Some v ->
  v = VStr "completed" \/ v = VStr "failed" \/
  exists item, d_table s.1 !! key = Some item /\ item !! "status" = Some v.
Proof.
  revert s. induction ops as [|op ops IH]; intros s Hit Hst; simpl in Hit.
  - right. right. eauto.
  - destruct (IH _ Hit Hst) as [H|[H|(item1 & H1 & Hs1)]]; [by left | by right; left |].
    destruct (run_op_status op E s key item1 v H1 Hs1) as [H|[H|H]];
      [right; right; exact H | by left | by right; left].
Qed.

Import S3Files Routes.

(** ** More of the object store *)

Lemma upload_file_accepted body key content_type E (s : stage_state * list string) :
  io_fault E (g_calls s.1) = None ->
  exists u,
    upload_file body key content_type E s =
      (Ret u,
       (mk_stage (<[key := uploaded_object E body key content_type]> (g_bucket s.1))
                 (g_puts s.1 ++ [key]) (S (g_calls s.1)) (g_model s.1), s.2)) /\
    u_success u = true /\ u_key u = key.
Proof.
  intros Hf.
  unfold upload_file, try_except_ClientError, upload_fileobj, ask, uploaded_object, bind.
  rewrite outside_run, Hf. simpl.
  destruct (nonempty content_type); [eauto |].
  destruct (nonempty (guess_type E key)); simpl; eauto.
Qed.

(** X7. What [upload_file] has stored under a key, [download_file] reads
    back: with a store that answers both calls, the upload reports success
    for this key, the object is encrypted with AES256, the download returns
    the very body uploaded, and no other key of the bucket is touched. *)
Theorem upload_then_download_round_trip
    (E : env) (s : stage_state * list string) (body key : string)
    (content_type : option string) :
  io_fault E (g_calls s.1) = None ->
  io_fault E (S (g_calls s.1)) = None ->
  exists u s1 s2 o,
    upload_file body key content_type E s = (Ret u, s1) /\
    u_success u = true /\ u_key u = key /\
    g_bucket s1.1 !! key = Some o /\ o_body o = body /\ o_sse o = "AES256" /\
    download_file key E s1 = (Ret body, s2) /\
    (forall k, k <> key -> g_bucket s2.1 !! k = g_bucket s.1 !! k).
Proof.
  intros H0 H1.
  destruct (upload_file_accepted body key content_type E s H0) as (u & Hu & Hs & Hk).
  eexists u, _, _, (uploaded_object E body key content_type).
  split; [exact Hu |]. split; [exact Hs |]. split; [exact Hk |]. simpl.
  split; [apply lookup_insert_eq |]. split; [reflexivity |]. split; [reflexivity |].
  unfold download_file, try_except_ClientError, get_object, bind.
  rewrite outside_run. simpl. rewrite H1, lookup_insert_eq. simpl.
  split; [reflexivity |]. intros k Hne. apply lookup_insert_ne. congruence.
Qed.

(** X8. [download_file] answers the body exactly when the store answers and
    holds the key; it answers 404 [File not found] exactly when the key is
    not there (or the store says [NoSuchKey]); it never lets a [ClientError]
    through; and it never changes the bucket. *)
Theorem download_file_answers (E : env) (s : stage_state * list string) (key : string) :
  let r := download_file key E s in
  g_bucket r.2.1 = g_bucket s.1 /\
  (forall code msg, r.1 <> Raise (ClientError code msg)) /\
  (forall body,
     r.1 = Ret body <->
     io_fault E (g_calls s.1) = None /\ o_body <$> g_bucket s.1 !! key = Some body) /\
  (r.1 = Raise (HTTPException 404 "File not found") <->
     (io_fault E (g_calls s.1) = None /\ g_bucket s.1 !! key = None) \/
     (exists msg, io_fault E (g_calls s.1) = Some (ServiceError "NoSuchKey" msg))).
Proof.
  intros r. subst r.
  unfold download_file, try_except_ClientError, get_object, bind, ask, raise.
  rewrite outside_run. simpl.
  destruct (io_fault E (g_calls s.1)) as [[c m|c m]|] eqn:Hf; simpl.
  - destruct (bool_decide (c = "NoSuchKey")) eqn:Hc; simpl.
    + apply bool_decide_eq_true in Hc. subst c.
      repeat split; try discriminate; try (intros [? ?]; discriminate); eauto.
    + apply bool_decide_eq_false in Hc.
      repeat split; try discriminate; try (intros [? ?]; discriminate).
      intros [[? _] | [m' Hm]]; [discriminate | congruence].
  - repeat split; try discriminate; try (intros [? ?]; discriminate).
    intros [[? _] | [m' Hm]]; discriminate.
  - destruct (g_bucket s.1 !! key) as [o|] eqn:Hk; simpl.
    + repeat split; try discriminate; try congruence.
      * intros [_ H]. congruence.
      * intros [[_ ?] | [m' Hm]]; discriminate.
    + repeat split; try discriminate; try (intros [? ?]; discriminate); eauto.
Qed.

(** X9. [file_exists] answers [True] exactly when the store answers and
    holds the key, [False] exactly when the key is not there (or the store
    says 404); any other [ClientError] becomes an HTTP 500; the bucket is
    not changed. *)
Theorem file_exists_answers (E : env) (s : stage_state * list string) (key : string) :
  let r := file_exists key E s in
  g_bucket r.2.1 = g_bucket s.1 /\
  (forall code msg, r.1 <> Raise (ClientError code msg)) /\
  (r.1 = Ret true <->
     io_fault E (g_calls s.1) = None /\ is_Some (g_bucket s.1 !! key)) /\
  (r.1 = Ret false <->
     (io_fault E (g_calls s.1) = None /\ g_bucket s.1 !! key = None) \/
     (exists msg, io_fault E (g_calls s.1) = Some (ServiceError "404" msg))) /\
  (forall code msg,
     io_fault E (g_calls s.1) = Some (ServiceError code msg) -> code <> "404" ->
     r.1 = Raise (HTTPException 500 ("Error checking file existence: " +:+ msg))).
Proof.
  intros r. subst r.
  unfold file_exists, try_except_ClientError, head_object, bind, ask, raise, ret.
  rewrite outside_run. simpl.
  destruct (io_fault E (g_calls s.1)) as [[c m|c m]|] eqn:Hf; simpl.
  - destruct (bool_decide (c = "404")) eqn:Hc; simpl.
    + apply bool_decide_eq_true in Hc. subst c.
      repeat split; try discriminate; try (intros [? ?]; discriminate); eauto.
      intros code msg Heq Hne. congruence.
    + apply bool_decide_eq_false in Hc.
      repeat split; try discriminate; try (intros [? ?]; discriminate).
      * intros [[? _] | [m' Hm]]; [discriminate | congruence].
      * intros code msg Heq _. congruence.
  - repeat split; try discriminate; try (intros [? ?]; discriminate).
    intros [[? _] | [m' Hm]]; discriminate.
  - destruct (g_bucket s.1 !! key) as [o|] eqn:Hk; simpl.
    + repeat split; try discriminate; eauto.
      intros [[_ ?] | [m' Hm]]; discriminate.
    + repeat split; try discriminate; eauto.
      intros [_ [o Ho]]. discriminate.
Qed.

(** X10. [delete_file] on a store that answers returns [True] whether or
    not the key was there; afterwards [file_exists] says [False] for the key
    and every other key holds what it held. *)
Theorem delete_file_removes_key (E : env) (s : stage_state * list string) (key : string) :
  io_fault E (g_calls s.1) = None ->
  io_fault E (S (g_calls s.1)) = None ->
  let r := delete_file key E s in
  r.1 = Ret true /\
  (file_exists key E r.2).1 = Ret false /\
  (forall k, k <> key -> g_bucket r.2.1 !! k = g_bucket s.1 !! k).
Proof.
  intros H0 H1 r. subst r.
  unfold delete_file, file_exists, try_except_ClientError, delete_object, head_object,
    bind, ask, raise, ret.
  rewrite outside_run, H0. simpl. rewrite outside_run. simpl. rewrite H1. simpl.
  rewrite lookup_delete_eq. simpl.
  split; [reflexivity |]. split; [reflexivity |].
  intros k Hne. apply lookup_delete_ne. congruence.
Qed.

(** X11. [copy_file] on a store that answers: when the source is there the
    destination then holds the same object, the source still holds it and
    the other keys are as before; when the source is missing the error of
    the store is swallowed, the answer is [False], a line is printed and the
    bucket is as it was. *)
Theorem copy_file_answers
    (E : env) (s : stage_state * list string) (source_key dest_key : string) :
  io_fault E (g_calls s.1) = None ->
  let r := copy_file source_key dest_key E s in
  match g_bucket s.1 !! source_key with
  | Some o =>
      r.1 = Ret true /\
      g_bucket r.2.1 !! dest_key = Some o /\
      g_bucket r.2.1 !! source_key = Some o /\
      (forall k, k <> dest_key -> g_bucket r.2.1 !! k = g_bucket s.1 !! k) /\
      r.2.2 = s.2
  | None =>
      r.1 = Ret false /\
      g_bucket r.2.1 = g_bucket s.1 /\
      exists line, r.2.2 = s.2 ++ [line] /\ String.prefix "Error copying file: " line = true
  end.
Proof.
  intros H0 r. subst r.
  unfold copy_file, try_except_ClientError, copy_object, bind, ask, raise, ret, print.
  rewrite outside_run, H0. simpl.
  destruct (g_bucket s.1 !! source_key) as [o|] eqn:Hk; simpl.
  - split; [reflexivity |]. split; [apply lookup_insert_eq |].
    split.
    + destruct (decide (dest_key = source_key)) as [->|Hne];
        [apply lookup_insert_eq | rewrite lookup_insert_ne by exact Hne; exact Hk].
    + split; [| reflexivity]. intros k Hne. apply lookup_insert_ne. congruence.
  - split; [reflexivity |]. split; [reflexivity |].
    eexists. split; reflexivity.
Qed.

(** ** Object keys *)

Lemma append_inj_l (a x y : string) : a +:+ x = a +:+ y -> x = y.
Proof.
  induction a as [|c a IH]; [rewrite !append_nil; auto |].
  rewrite !append_cons. intros H. inversion H. auto.
Qed.

(** A text without the separator, followed by the separator, can be read
    back. *)
Lemma append_sep_inj (c : ascii) (a1 a2 b1 b2 : string) :
  has_char c a1 = false -> has_char c a2 = false ->
  a1 +:+ String c b1 = a2 +:+ String c b2 -> a1 = a2 /\ b1 = b2.
Proof.
  revert a2. induction a1 as [|x a1 IH]; intros [|y a2] H1 H2 Heq.
  - rewrite !append_nil in Heq. inversion Heq. auto.
  - rewrite append_nil, append_cons in Heq. inversion Heq; subst.
    simpl in H2. by rewrite bool_decide_eq_true_2 in H2.
  - rewrite append_nil, append_cons in Heq. inversion Heq; subst.
    simpl in H1. by rewrite bool_decide_eq_true_2 in H1.
  - rewrite !append_cons in Heq. inversion Heq; subst.
    simpl in H1, H2. case_bool_decide; [discriminate |].
    destruct (IH a2 H1 H2 ltac:(assumption)) as [-> ->]. auto.
Qed.

(** X12. The keys of the artifacts of a job can be read back: for job ids
    without a slash (a uuid4 has none), two keys made by the same key
    function are equal only for the same job and the same file name, so no
    two jobs ever write to the same key; likewise [get_upload_key] for the
    drawn identifiers, which have no underscore. *)
Theorem job_keys_are_injective (E : env) (j1 j2 f1 f2 : string) :
  (has_char "/" j1 = false -> has_char "/" j2 = false ->
   (get_transcoded_key E j1 f1 = get_transcoded_key E j2 f2 -> j1 = j2 /\ f1 = f2) /\
   (get_thumbnail_key E j1 f1 = get_thumbnail_key E j2 f2 -> j1 = j2 /\ f1 = f2) /\
   (get_temp_key E j1 f1 = get_temp_key E j2 f2 -> j1 = j2 /\ f1 = f2)) /\
  (has_char "_" j1 = false -> has_char "_" j2 = false ->
   get_upload_key E j1 f1 = get_upload_key E j2 f2 -> j1 = j2 /\ f1 = f2).
Proof.
  split.
  - intros H1 H2.
    unfold get_transcoded_key, get_thumbnail_key, get_temp_key.
    split; [| split]; intros Heq; apply append_inj_l in Heq;
      change ("/" +:+ f1) with (String "/" f1) in Heq;
      change ("/" +:+ f2) with (String "/" f2) in Heq;
      exact (append_sep_inj _ _ _ _ _ H1 H2 Heq).
  - intros H1 H2. unfold get_upload_key. intros Heq. apply append_inj_l in Heq.
    change ("_" +:+ f1) with (String "_" f1) in Heq.
    change ("_" +:+ f2) with (String "_" f2) in Heq.
    exact (append_sep_inj _ _ _ _ _ H1 H2 Heq).
Qed.

(** ** More of the media stages *)

Lemma build_labels_plain lm pairs labels :
  lm = None \/ lm = Some [] ->
  build_labels lm pairs labels =
    inr (labels ++ map (fun ip => VDict [("index", VInt (Z.of_nat ip.1));
                                          ("label", VStr (pretty ip.1));
                                          ("probability", VFloat ip.2)]) pairs).
Proof.
  intros Hlm. revert labels.
  induction pairs as [|[idx p] pairs IH]; intros labels; simpl.
  - by rewrite app_nil_r.
  - assert (Ht : label_text lm idx = inr (pretty idx)) by (destruct Hlm; subst; reflexivity).
    rewrite Ht, IH, <- app_assoc. reflexivity.
Qed.

Lemma build_labels_named l0 ls pairs labels :
  let names := l0 :: ls in
  (Forall (fun ip => (ip.1 < length names)%nat) pairs ->
   build_labels (Some names) pairs labels =
     inr (labels ++ map (fun ip => VDict [("index", VInt (Z.of_nat ip.1));
                                           ("label", VStr (default "" (names !! ip.1)));
                                           ("probability", VFloat ip.2)]) pairs)) /\
  (~ Forall (fun ip => (ip.1 < length names)%nat) pairs ->
   build_labels (Some names) pairs labels =
     inl (OtherException "IndexError" "list index out of range")).
Proof.
  intros names. revert labels.
  induction pairs as [|[idx p] pairs IH]; intros labels.
  - split; [intros _; simpl; by rewrite app_nil_r | intros H; destruct H; constructor].
  - assert (Hstep : build_labels (Some names) ((idx, p) :: pairs) labels =
              match names !! idx with
              | Some t =>
                  build_labels (Some names) pairs
                    (labels ++ [VDict [("index", VInt (Z.of_nat idx)); ("label", VStr t);
                                       ("probability", VFloat p)]])
              | None => inl (OtherException "IndexError" "list index out of range")
              end).
    { simpl. fold names. destruct (names !! idx); reflexivity. }
    rewrite Hstep. clear Hstep.
    destruct (names !! idx) as [t|] eqn:Ht.
    + assert (Hlt : (idx < length names)%nat) by (eapply lookup_lt_Some; exact Ht).
      destruct (IH (labels ++ [VDict [("index", VInt (Z.of_nat idx)); ("label", VStr t);
                                      ("probability", VFloat p)]])) as [IH1 IH2].
      split.
      * intros Hall. apply Forall_cons in Hall as [_ Hall].
        rewrite (IH1 Hall), <- app_assoc. simpl. rewrite Ht. reflexivity.
      * intros Hn. apply IH2. intros Hall. apply Hn. constructor; assumption.
    + apply lookup_ge_None in Ht. split; [| reflexivity].
      intros Hall. apply Forall_cons in Hall as [Hlt _]. subst names. simpl in *. lia.
Qed.

(** X13. The labels of a frame.  Where the scores of a frame are read,
    [classify] gives one label per (index, probability) pair, in the order
    of the pairs, the probability still a float; with no label table (or an
    empty one) the label is the index as text and nothing is raised; with a
    table the label is the entry of the index, and [IndexError] is raised
    exactly when some index is outside the table. *)
Theorem classify_labels (E : env) (path : string) (topk : Z) (pairs : list (nat * string)) :
  topk_scores E path topk = inr pairs ->
  match labels_map E with
  | Some (l0 :: ls) =>
      let names := l0 :: ls in
      (Forall (fun ip => (ip.1 < length names)%nat) pairs ->
       classify E path topk =
         inr (map (fun ip => VDict [("index", VInt (Z.of_nat ip.1));
                                    ("label", VStr (default "" (names !! ip.1)));
                                    ("probability", VFloat ip.2)]) pairs)) /\
      (~ Forall (fun ip => (ip.1 < length names)%nat) pairs ->
       classify E path topk = inl (OtherException "IndexError" "list index out of range"))
  | _ =>
      classify E path topk =
        inr (map (fun ip => VDict [("index", VInt (Z.of_nat ip.1));
                                   ("label", VStr (pretty ip.1));
                                   ("probability", VFloat ip.2)]) pairs)
  end.
Proof.
  intros Hs. unfold classify. rewrite Hs.
  destruct (labels_map E) as [[|l0 ls]|] eqn:Hlm.
  - rewrite build_labels_plain by auto. reflexivity.
  - exact (build_labels_named l0 ls pairs []).
  - rewrite build_labels_plain by auto. reflexivity.
Qed.

(** The stages of [process_job] upload nothing. *)
Lemma pres_outside {X} (f : stage_state * list string -> X) :
  (forall g o n, f (mk_stage (g_bucket g) (g_puts g) n (g_model g), o) = f (g, o)) ->
  pres f outside.
Proof.
  intros Hf E [g o]. rewrite outside_run. simpl. apply Hf.
Qed.

Lemma pres_ensure_model {X} (f : stage_state * list string -> X) :
  (forall g o n b, f (mk_stage (g_bucket g) (g_puts g) n b, o) = f (g, o)) ->
  pres f _ensure_model.
Proof.
  intros Hf E [g o]. unfold _ensure_model. simpl.
  destruct (g_model g); [reflexivity |]. rewrite outside_run. simpl.
  destruct (io_fault E (g_calls g)); simpl; apply Hf.
Qed.

Lemma pres_process_job {X} (f : stage_state * list string -> X) v o fps :
  (forall g out n b, f (mk_stage (g_bucket g) (g_puts g) n b, out) = f (g, out)) ->
  pres f (process_job v o fps).
Proof.
  intros Hf.
  assert (Ho : pres f outside) by (apply pres_outside; intros; apply Hf).
  assert (Hsub : forall cmd, pres f (subprocess_run cmd)).
  { intros cmd. unfold subprocess_run. apply pres_bind; [apply pres_ask |].
    intros E. destruct (Z.eqb _ 0); [apply pres_ret | apply pres_raise]. }
  unfold process_job, makedirs, write_file, save_thumbnail.
  apply pres_bind; [apply pres_ask | intros E].
  apply pres_bind; [exact Ho | intros _].
  apply pres_bind; [exact Ho | intros _].
  apply pres_bind.
  { unfold transcode_video. apply pres_bind; [apply pres_ask | intros E'].
    destruct (nonempty _); [apply Hsub | apply pres_raise]. }
  intros _. apply pres_bind.
  { unfold extract_frames, makedirs. apply pres_bind; [apply pres_ask | intros E'].
    destruct (nonempty _); [| apply pres_raise].
    apply pres_bind; [exact Ho | intros _; apply Hsub]. }
  intros _. apply pres_bind.
  { apply pres_try_except; [| intros e; apply pres_ret].
    unfold run_inference_on_frames.
    apply pres_bind; [apply pres_ensure_model; exact Hf | intros loaded].
    apply pres_bind; [apply pres_ask | intros E'].
    destruct loaded; apply pres_ret. }
  intros inference. apply pres_bind.
  { destruct (sorted _); [apply pres_ret |].
    apply pres_bind; [exact Ho | intros _; apply pres_ret]. }
  intros thumbnail_path. apply pres_bind; [| intros _; apply pres_ret].
  apply pres_try_except; [exact Ho | intros e; apply pres_ret].
Qed.

Lemma append_is_empty (a b : string) : a +:+ b = "" -> b = "".
Proof.
  destruct a; [rewrite append_nil; auto | rewrite append_cons; discriminate].
Qed.

Lemma path_join_nonempty a b : b <> "" -> path_join a b <> "".
Proof.
  intros Hb. unfold path_join.
  destruct (startswith b "/"); [exact Hb |].
  case_bool_decide; [exact Hb |].
  destruct (endswith a "/"); intros Hj; apply append_is_empty in Hj;
    [contradiction |]. apply append_is_empty in Hj. contradiction.
Qed.

Lemma sorted_nil l : sorted l = [] <-> l = [].
Proof.
  unfold sorted. split; intros H.
  - apply Permutation_nil_r. rewrite <- H. symmetry. apply merge_sort_Permutation.
  - subst. reflexivity.
Qed.

Lemma filter_jpg_nil l :
  filter (fun f => is_jpg f = true) l = [] <-> existsb is_jpg l = false.
Proof.
  induction l as [|x l IH]; simpl; [tauto |].
  rewrite filter_cons. destruct (decide (is_jpg x = true)) as [Hx|Hx].
  - rewrite Hx. simpl. split; discriminate.
  - apply not_true_is_false in Hx. rewrite Hx. simpl. exact IH.
Qed.

(** What [process_job] reports when it returns. *)
Lemma process_job_shape
    (v o : string) (fps : Z) (E : env) (s s' : stage_state * list string)
    (r : job_result) :
  process_job v o fps E s = (Ret r, s') ->
  res_frames_dir r = path_join o "frames" /\
  res_s3_outputs r = None /\
  res_transcoded r =
    (if path_exists E (path_join o "transcoded.mp4") then Some "transcoded.mp4" else None) /\
  res_thumbnail r =
    (if existsb is_jpg (listdir E (path_join o "frames")) then Some "thumbnail.jpg"
     else None) /\
  g_bucket s'.1 = g_bucket s.1 /\
  g_puts s'.1 = g_puts s.1.
Proof.
  intros H.
  assert (Hb : g_bucket s'.1 = g_bucket s.1).
  { pose proof (pres_process_job (fun x => g_bucket x.1) v o fps
                  ltac:(reflexivity) E s) as Hp. rewrite H in Hp. exact Hp. }
  assert (Hp : g_puts s'.1 = g_puts s.1).
  { pose proof (pres_process_job (fun x => g_puts x.1) v o fps
                  ltac:(reflexivity) E s) as Hp. rewrite H in Hp. exact Hp. }
  unfold process_job in H.
  apply bind_Ret_inv in H as (E' & s0 & HE & H). inversion HE; subst E' s0; clear HE.
  do 5 (apply bind_Ret_inv in H as (? & ? & _ & H)).
  apply bind_Ret_inv in H as (thumbnail_path & s7 & Ht & H).
  apply bind_Ret_inv in H as (? & s8 & _ & H).
  inversion H; subst; clear H. simpl.
  split; [reflexivity |]. split; [reflexivity |]. split; [| split; [| split; assumption]].
  - destruct (path_exists E _); [| reflexivity].
    rewrite basename_path_join; [reflexivity | by left].
  - destruct (sorted _) as [|first_name rest] eqn:Hs.
    + inversion Ht; subst. apply sorted_nil, filter_jpg_nil in Hs. rewrite Hs. reflexivity.
    + assert (Hex : existsb is_jpg (listdir E (path_join o "frames")) = true).
      { apply not_false_is_true. intros Hf. apply filter_jpg_nil, sorted_nil in Hf.
        congruence. }
      rewrite Hex.
      apply bind_Ret_inv in Ht as (? & ? & _ & Ht). inversion Ht; subst.
      unfold nonempty. case_bool_decide as Hne.
      * exfalso. revert Hne. apply path_join_nonempty. discriminate.
      * simpl. rewrite basename_path_join; [reflexivity | by right].
Qed.

(** X14. What [process_job] reports when it returns: the frames directory
    is [out_dir/frames]; the transcoded name is reported exactly when the
    file exists; a thumbnail is reported exactly when the frames directory
    lists some .jpg name; no [s3_outputs] yet; and the stage has uploaded
    nothing: the bucket and the list of uploads are as before. *)
Theorem process_job_result_shape
    (v o : string) (fps : Z) (E : env) (s s' : stage_state * list string)
    (r : job_result) :
  process_job v o fps E s = (Ret r, s') ->
  res_frames_dir r = path_join o "frames" /\
  res_s3_outputs r = None /\
  res_transcoded r =
    (if path_exists E (path_join o "transcoded.mp4") then Some "transcoded.mp4" else None) /\
  res_thumbnail r =
    (if existsb is_jpg (listdir E (path_join o "frames")) then Some "thumbnail.jpg"
     else None) /\
  g_bucket s'.1 = g_bucket s.1 /\
  g_puts s'.1 = g_puts s.1.
Proof. exact (process_job_shape v o fps E s s' r). Qed.

Lemma outside_Ret_inv E (s s' : stage_state * list string) u :
  outside E s = (Ret u, s') ->
  s' = (mk_stage (g_bucket s.1) (g_puts s.1) (S (g_calls s.1)) (g_model s.1), s.2).
Proof.
  rewrite outside_run. destruct (io_fault E _); intros H; inversion H. reflexivity.
Qed.

Lemma extract_frames_Ret_inv v d fps E (s s' : stage_state * list string) u :
  extract_frames v d fps E s = (Ret u, s') ->
  s' = (mk_stage (g_bucket s.1) (g_puts s.1) (S (g_calls s.1)) (g_model s.1), s.2).
Proof.
  unfold extract_frames, makedirs. intros H.
  apply bind_Ret_inv in H as (E' & s0 & HE & H). inversion HE; subst E' s0; clear HE.
  destruct (nonempty (which_ffmpeg E)); [| inversion H].
  apply bind_Ret_inv in H as (? & s1 & Ho & H).
  apply outside_Ret_inv in Ho. subst s1.
  rewrite subprocess_run_run in H. inversion H. reflexivity.
Qed.

Lemma transcode_video_Ret_inv i o E (s s' : stage_state * list string) u :
  transcode_video i o E s = (Ret u, s') -> s' = s.
Proof. rewrite transcode_video_run. intros H. inversion H. reflexivity. Qed.

(** X15. The inference of a job that [process_job] brings to its end.  If
    the model is loaded already, or loads, the inference reported is the
    scoring of the frames; if the model cannot be loaded the exception is
    kept in the result as the one entry [{error, trace}] and the job is not
    failed by it. *)
Theorem process_job_inference_outcome
    (v o : string) (fps : Z) (E : env) (s s' : stage_state * list string)
    (r : job_result) :
  process_job v o fps E s = (Ret r, s') ->
  let frames_dir := path_join o "frames" in
  (g_model s.1 = true \/ io_fault E (3 + g_calls s.1)%nat = None ->
   res_inference r = inference_loop E frames_dir 3 (sorted (listdir E frames_dir)) []) /\
  (forall f,
     g_model s.1 = false -> io_fault E (3 + g_calls s.1)%nat = Some f ->
     res_inference r =
       [VDict [("error", VStr (str_exn E (exn_of_fault f)));
               ("trace", VStr (format_exc E (exn_of_fault f)))]]).
Proof.
  intros H frames_dir. unfold process_job, makedirs in H.
  apply bind_Ret_inv in H as (E' & s0 & HE & H). inversion HE; subst E' s0; clear HE.
  apply bind_Ret_inv in H as (? & s1 & H1 & H). apply outside_Ret_inv in H1. subst s1.
  apply bind_Ret_inv in H as (? & s2 & H2 & H). apply outside_Ret_inv in H2. subst s2.
  apply bind_Ret_inv in H as (? & s3 & H3 & H). apply transcode_video_Ret_inv in H3. subst s3.
  apply bind_Ret_inv in H as (? & s4 & H4 & H). apply extract_frames_Ret_inv in H4. subst s4.
  apply bind_Ret_inv in H as (inference & s5 & Hi & H).
  apply bind_Ret_inv in H as (thumbnail_path & s7 & _ & H).
  apply bind_Ret_inv in H as (? & s8 & _ & H).
  inversion H; subst; clear H. simpl.
  unfold try_except, run_inference_on_frames, bind, _ensure_model, ask, ret in Hi.
  simpl in Hi. fold frames_dir in Hi.
  destruct (g_model s.1) eqn:Hm.
  - inversion Hi; subst. split; [reflexivity | discriminate].
  - rewrite outside_run in Hi. simpl in Hi.
    destruct (io_fault E (S (S (S (g_calls s.1))))) as [f|] eqn:Hf; simpl in *.
    + inversion Hi; subst. split.
      * intros [? | ?]; discriminate.
      * intros f' _ Hf'. inversion Hf'; subst. reflexivity.
    + inversion Hi; subst. split; [reflexivity | discriminate].
Qed.

(** ** The uploads of a run *)

Lemma upload_file_Ret_inv body key content_type E (s s' : stage_state * list string) u :
  upload_file body key content_type E s = (Ret u, s') ->
  u_key u = key /\ g_puts s'.1 = g_puts s.1 ++ [key].
Proof.
  unfold upload_file, try_except_ClientError, upload_fileobj, ask, bind, raise, print.
  rewrite outside_run. simpl.
  destruct (io_fault E (g_calls s.1)) as [[c m|c m]|]; simpl; intros H; inversion H.
  split; reflexivity.
Qed.

Lemma open_rb_Ret_inv path E (s s' : stage_state * list string) b :
  open_rb path E s = (Ret b, s') -> g_puts s'.1 = g_puts s.1.
Proof.
  unfold open_rb, bind, ask, ret. rewrite outside_run.
  destruct (io_fault E _); simpl; intros H; inversion H. reflexivity.
Qed.

Lemma upload_artifact_puts temp name key_of content_type E
    (s s' : stage_state * list string) a :
  upload_artifact temp name key_of content_type E s = (Ret a, s') ->
  g_puts s'.1 = g_puts s.1 ++ match a with Some ku => [ku.1] | None => [] end.
Proof.
  unfold upload_artifact. intros H.
  apply bind_Ret_inv in H as (E' & s0 & HE & H). inversion HE; subst E' s0; clear HE.
  destruct (nonempty name) as [f|];
    [| inversion H; subst; by rewrite app_nil_r].
  destruct (path_exists E _); [| inversion H; subst; by rewrite app_nil_r].
  apply bind_Ret_inv in H as (body & s1 & Ho & H).
  apply bind_Ret_inv in H as (u & s2 & Hu & H).
  apply open_rb_Ret_inv in Ho. apply upload_file_Ret_inv in Hu as [_ Hu].
  inversion H; subst. simpl. congruence.
Qed.

Lemma upload_frames_puts job frames_dir files frames E
    (s s' : stage_state * list string) fs :
  upload_frames job frames_dir files frames E s = (Ret fs, s') ->
  exists news,
    fs = frames ++ news /\
    news.*1.*1 = files /\
    Forall (fun x => x.1.2 = get_temp_key E job ("frames/" +:+ x.1.1)) news /\
    g_puts s'.1 = g_puts s.1 ++ news.*1.*2.
Proof.
  revert frames s. induction files as [|f files IH]; intros frames s H; simpl in H.
  - inversion H; subst. exists []. rewrite !app_nil_r. repeat split. constructor.
  - apply bind_Ret_inv in H as (E' & s0 & HE & H). inversion HE; subst E' s0; clear HE.
    apply bind_Ret_inv in H as (body & s1 & Ho & H).
    apply bind_Ret_inv in H as (u & s2 & Hu & H).
    apply open_rb_Ret_inv in Ho. apply upload_file_Ret_inv in Hu as [_ Hu].
    destruct (IH _ _ H) as (news & -> & Hn & Hk & Hp).
    exists ((f, get_temp_key E job ("frames/" +:+ f), u_url u) :: news).
    rewrite <- app_assoc. simpl. split; [reflexivity |]. split; [f_equal; exact Hn |].
    split; [constructor; [reflexivity | exact Hk] |].
    rewrite Hp, Hu, Ho, <- app_assoc. reflexivity.
Qed.

(** X16. What a run uploads.  When [upload_outputs] returns, the result
    carries an [s3_outputs] entry; the frames listed in it are the first
    five .jpg names of the frames directory in the order of the listing
    (not sorted), never more; and the keys put in the bucket are, in this
    order, those recorded for the transcoded file, the thumbnail and the
    frames, and then [result.json], which is always the last upload. *)
Theorem upload_outputs_uploads
    (job temp : string) (result : job_result) (E : env)
    (s s' : stage_state * list string) (r : job_result) :
  upload_outputs job temp result E s = (Ret r, s') ->
  exists o,
    res_s3_outputs r = Some o /\
    res_inference r = res_inference result /\
    (forall fs, so_frames o = Some fs ->
       fs.*1.*1 = take 5 (filter (fun f => is_jpg f = true)
                            (listdir E (res_frames_dir result))) /\
       (length fs <= 5)%nat) /\
    g_puts s'.1 =
      g_puts s.1
      ++ match so_transcoded o with Some ku => [ku.1] | None => [] end
      ++ match so_thumbnail o with Some ku => [ku.1] | None => [] end
      ++ match so_frames o with Some fs => fs.*1.*2 | None => [] end
      ++ [get_temp_key E job "result.json"].
Proof.
  unfold upload_outputs. intros H.
  apply bind_Ret_inv in H as (E' & s0 & HE & H). inversion HE; subst E' s0; clear HE.
  apply bind_Ret_inv in H as (transcoded & s1 & Ht & H).
  apply bind_Ret_inv in H as (thumbnail & s2 & Hth & H).
  apply bind_Ret_inv in H as (frames & s3 & Hf & H).
  apply bind_Ret_inv in H as (u & s4 & Hu & H).
  inversion H; subst; clear H. simpl.
  apply upload_artifact_puts in Ht. apply upload_artifact_puts in Hth.
  apply upload_file_Ret_inv in Hu as [_ Hu].
  eexists. split; [reflexivity |]. split; [reflexivity |]. simpl.
  destruct (_ && _)%bool.
  - apply bind_Ret_inv in Hf as (fs0 & s5 & Hfs & Hf). inversion Hf; subst; clear Hf.
    apply upload_frames_puts in Hfs as (news & -> & Hn & _ & Hp). simpl in *.
    split.
    + intros fs Heq. injection Heq as <-. split; [exact Hn |].
      assert (Hl : length (news.*1.*1) = length news) by (by rewrite !length_fmap).
      rewrite <- Hl, Hn, length_take. lia.
    + rewrite Hu, Hp, Hth, Ht, <- !app_assoc. reflexivity.
  - inversion Hf; subst; clear Hf. split; [discriminate |].
    rewrite Hu, Hth, Ht, <- !app_assoc. reflexivity.
Qed.

(** ** The write to the relational store *)

Lemma database_url_run E (s : sql_state * list string) :
  exists url lines, database_url E s = (Ret url, (s.1, s.2 ++ lines)).
Proof.
  unfold database_url, bind, ask, print, ret. simpl.
  destruct (nonempty (environ E !! "DATABASE_URL")) as [u|]; simpl.
  - case_bool_decide; simpl.
    + destruct (_ && _)%bool; simpl; rewrite <- app_assoc; eauto.
    + eauto.
  - destruct (secrets_url E) as [e|u]; simpl.
    + destruct (_ && _)%bool; simpl; rewrite <- app_assoc; eauto.
    + case_bool_decide; simpl.
      * destruct (_ && _)%bool; simpl; rewrite <- !app_assoc; eauto.
      * eauto.
Qed.

Lemma sql_call_run E (s : sql_state * list string) :
  sql_call E s =
    (match sql_fault E (q_calls s.1) with
     | Some f => Raise (exn_of_fault f)
     | None => Ret tt
     end, (mk_sql (q_rows s.1) (S (q_calls s.1)), s.2)).
Proof. unfold sql_call. destruct (sql_fault E _); reflexivity. Qed.

(** X17. [update_sql_database] never raises, whatever the database does;
    it adds no row and changes no row of another job; the row of the job,
    when it is changed, was there before and becomes [done] with the result
    of the run. *)
Theorem update_sql_database_touches_one_row
    (job : string) (result : job_result) (E : env) (s : sql_state * list string) :
  let r := update_sql_database job result E s in
  r.1 = Ret tt /\
  (forall j, j <> job -> q_rows r.2.1 !! j = q_rows s.1 !! j) /\
  (q_rows r.2.1 !! job = q_rows s.1 !! job \/
   (is_Some (q_rows s.1 !! job) /\
    q_rows r.2.1 !! job = Some (mk_row "done" (Some (result_value result))))).
Proof.
  intros r. subst r. unfold update_sql_database, try_except.
  rewrite (bind_Ret_step ask _ E s E s eq_refl).
  destruct (database_url_run E s) as (url & lines & Hurl).
  rewrite (bind_Ret_step _ _ _ _ _ _ Hurl).
  destruct url as [url|]; [| simpl; auto].
  unfold bind, print, ask, ret. rewrite ?sql_call_run; simpl.
  destruct (sql_fault E (q_calls s.1)); simpl; [auto |].
  destruct (sql_fault E (S (q_calls s.1))); simpl; [auto |].
  destruct (q_rows s.1 !! job) as [row|] eqn:Hrow; simpl.
  - rewrite ?sql_call_run; simpl.
    destruct (sql_fault E (S (S (q_calls s.1)))); simpl; [auto |].
    rewrite ?sql_call_run; simpl.
    destruct (sql_fault E (S (S (S (q_calls s.1))))); simpl;
      (split; [reflexivity |]; split;
       [intros j Hne; apply lookup_insert_ne; congruence
       | right; split; [eauto | apply lookup_insert_eq]]).
  - rewrite ?sql_call_run; simpl.
    destruct (sql_fault E (S (S (q_calls s.1)))); simpl; [auto |].
    rewrite ?sql_call_run; simpl.
    destruct (sql_fault E (S (S (S (q_calls s.1))))); simpl; auto.
Qed.

Lemma nonempty_None_default o : nonempty o = None -> default "" o = "".
Proof.
  destruct o as [u|]; simpl; [| reflexivity]. case_bool_decide; [auto | discriminate].
Qed.

(** X18. Where the database is looked for.  [DATABASE_URL] of the
    environment, when set and not empty, is used and the secret is not
    consulted; with no [DATABASE_URL], no secret and no [RDS_USERNAME] and
    [RDS_PASSWORD], there is no URL, and then [update_sql_database] makes
    no call to the database at all and leaves the rows as they are. *)
Theorem database_url_priority (E : env) (s : sql_state * list string) :
  (forall url,
     nonempty (environ E !! "DATABASE_URL") = Some url ->
     database_url E s =
       (Ret (Some url), (s.1, s.2 ++ ["🔗 Using DATABASE_URL from environment"]))) /\
  (nonempty (environ E !! "DATABASE_URL") = None ->
   (forall url, secrets_url E <> inr url) ->
   nonempty (environ E !! "RDS_USERNAME") = None \/
   nonempty (environ E !! "RDS_PASSWORD") = None ->
   (database_url E s).1 = Ret None /\
   forall job result, (update_sql_database job result E s).2.1 = s.1).
Proof.
  split.
  - intros url Hurl. unfold database_url, bind, ask, print, ret. simpl.
    rewrite Hurl. simpl.
    assert (Hne : url <> "").
    { destruct (environ E !! "DATABASE_URL") as [u|]; simpl in Hurl; [| discriminate].
      case_bool_decide; [discriminate | congruence]. }
    rewrite bool_decide_eq_false_2 by exact Hne. reflexivity.
  - intros Henv Hsec Hrds.
    assert (Hcred : (negb (bool_decide (getenv E "RDS_USERNAME" "" = ""))
                     && negb (bool_decide (getenv E "RDS_PASSWORD" "" = "")))%bool = false).
    { unfold getenv. apply andb_false_iff.
      destruct Hrds as [H|H]; [left | right];
        apply negb_false_iff, bool_decide_eq_true, nonempty_None_default, H. }
    assert (Hrun : exists lines, database_url E s = (Ret None, (s.1, s.2 ++ lines))).
    { unfold database_url, bind, ask, print, ret. simpl. rewrite Henv. simpl.
      destruct (secrets_url E) as [e|u] eqn:Hs; [| exfalso; eapply Hsec; reflexivity].
      simpl. rewrite Hcred. simpl. rewrite <- app_assoc. eauto. }
    destruct Hrun as [lines Hrun]. split; [by rewrite Hrun |].
    intros job result. unfold update_sql_database, try_except.
    rewrite (bind_Ret_step ask _ E s E s eq_refl).
    rewrite (bind_Ret_step _ _ _ _ _ _ Hrun). reflexivity.
Qed.

(** ** More of the worker *)

Lemma handle_message_deletes msg E w :
  exists w',
    handle_message msg E w = (Ret tt, w') /\
    (w_deleted w' = w_deleted w \/ w_deleted w' = w_deleted w ++ [ReceiptHandle msg]).
Proof.
  destruct (handle_message_cases msg E w) as (w' & Hrun & Hcases).
  exists w'. split; [exact Hrun |].
  destruct (parse_descriptor E (Body msg)) as [e|[job key]]; [left; tauto |].
  destruct (process_job_s3 key job 1 E _) as [[o|e] w2]; [| left; tauto].
  destruct Hcases as [_ Hc].
  destruct (sqs_fault E (w_sqs_calls w)); [left; tauto | right; exact Hc].
Qed.

Lemma for_each_handle_message_deletes msgs E w :
  exists w' ds,
    for_each msgs handle_message E w = (Ret tt, w') /\
    w_deleted w' = w_deleted w ++ ds /\
    sublist ds (ReceiptHandle <$> msgs).
Proof.
  revert w. induction msgs as [|msg msgs IH]; intros w; simpl.
  - exists w, []. rewrite app_nil_r. repeat split. constructor.
  - destruct (handle_message_deletes msg E w) as (w1 & Hrun & Hd).
    rewrite (bind_Ret_step _ _ _ _ _ _ Hrun).
    destruct (IH w1) as (w' & ds & Hrest & Hd' & Hsub).
    destruct Hd as [Hd|Hd].
    + exists w', ds. split; [exact Hrest |]. split; [congruence |].
      by apply sublist_cons.
    + exists w', (ReceiptHandle msg :: ds). split; [exact Hrest |].
      split; [rewrite Hd', Hd, <- app_assoc; reflexivity |].
      by apply sublist_skip.
Qed.

Lemma poll_run E w :
  match sqs_fault E (w_sqs_calls w) with
  | Some f =>
      exists w',
        poll E w = (Raise (exn_of_fault f), w') /\
        receive_messages E w = (Raise (exn_of_fault f), w') /\
        w_deleted w' = w_deleted w
  | None =>
      exists w' ds,
        poll E w = (Ret tt, w') /\
        w_deleted w' = w_deleted w ++ ds /\
        sublist ds ((sqs_receive E (w_sqs_calls w)).*2)
  end.
Proof.
  unfold poll, bind, receive_messages, sqs_call.
  destruct (sqs_fault E (w_sqs_calls w)) as [f|] eqn:Hf.
  - eexists. split; [reflexivity |]. split; reflexivity.
  - match goal with
    | |- context [for_each ?msgs handle_message E ?w0] =>
        destruct (for_each_handle_message_deletes msgs E w0)
          as (w1 & ds & Hrun & Hd & Hsub); rewrite Hrun
    end.
    exists w1, ds. split; [reflexivity |]. split; [exact Hd |].
    rewrite <- list_fmap_compose in Hsub. exact Hsub.
Qed.

(** X19. The loop of the worker deletes only what it has received: after
    any number of turns the receipt handles deleted are handles of messages
    that some [receive_messages] answered, each batch in the order received;
    and the loop stops only on an exception of [receive_messages] itself,
    in the state in which that call raised, never on one of a job or of a
    deletion. *)
Theorem worker_deletes_only_received_messages (turns : nat) (E : env) (w : world) :
  (exists ds,
     w_deleted (main_loop turns E w).2 = w_deleted w ++ ds /\
     Forall (fun h => exists n, h ∈ (sqs_receive E n).*2) ds) /\
  (forall e, (main_loop turns E w).1 = Raise e ->
     exists w0, receive_messages E w0 = (Raise e, (main_loop turns E w).2)).
Proof.
  revert w. induction turns as [|turns IH]; intros w.
  - simpl. split; [| discriminate].
    exists []. rewrite app_nil_r. split; [reflexivity | constructor].
  - change (main_loop (S turns)) with (bind poll (fun _ => main_loop turns)).
    pose proof (poll_run E w) as Hp.
    destruct (sqs_fault E (w_sqs_calls w)) as [f|] eqn:Hf.
    + destruct Hp as (w' & Hrun & Hrecv & Hd).
      rewrite (bind_Raise_step _ _ _ _ _ _ Hrun). simpl. split.
      * exists []. rewrite app_nil_r. split; [exact Hd | constructor].
      * intros e He. inversion He; subst. exists w. exact Hrecv.
    + destruct Hp as (w1 & ds & Hrun & Hd & Hsub).
      rewrite (bind_Ret_step _ _ _ _ _ _ Hrun).
      destruct (IH w1) as [(ds' & Hd' & Hall) Hraise].
      split; [| exact Hraise].
      exists (ds ++ ds'). split; [rewrite Hd', Hd, <- app_assoc; reflexivity |].
      apply Forall_app. split; [| exact Hall].
      apply Forall_forall. intros h Hin. exists (w_sqs_calls w).
      eapply elem_of_sublist; [exact Hin | exact Hsub].
Qed.

(** ** What the API shows of a job *)

(** The part of a result kept for one name. *)
Lemma result_for_user_keep d k :
  match assoc_get d k with
  | Some v => if truthy v then [(k, v)] else []
  | None => []
  end = [] \/
  exists v, assoc_get d k = Some v /\ truthy v = true /\
            match assoc_get d k with
            | Some v => if truthy v then [(k, v)] else []
            | None => []
            end = [(k, v)].
Proof.
  destruct (assoc_get d k) as [v|]; [| by left].
  destruct (truthy v) eqn:Hv; [right; eauto | by left].
Qed.

Lemma result_for_user_filtered (d : list (string * value)) (role : string) :
  role <> "admin" ->
  exists out,
    _result_for_user (Some (VDict d)) role = inr out /\
    match out with
    | Some (VDict f) =>
        f <> [] /\
        (forall k x, (k, x) ∈ f ->
           k ∈ ["transcoded"; "thumbnail"; "s3_outputs"] /\
           assoc_get d k = Some x /\ truthy x = true) /\
        (forall x, ("inference", x) ∉ f) /\
        (forall x, ("frames_dir", x) ∉ f)
    | Some _ => False
    | None =>
        forall k x, k ∈ ["transcoded"; "thumbnail"; "s3_outputs"] ->
                    assoc_get d k = Some x -> truthy x = false
    end.
Proof.
  intros Hrole.
  unfold _result_for_user. rewrite bool_decide_eq_false_2 by exact Hrole.
  eexists. split; [reflexivity |].
  destruct (result_for_user_keep d "transcoded") as [H1|(v1 & Ha1 & Ht1 & H1)];
  destruct (result_for_user_keep d "thumbnail") as [H2|(v2 & Ha2 & Ht2 & H2)];
  destruct (result_for_user_keep d "s3_outputs") as [H3|(v3 & Ha3 & Ht3 & H3)];
  rewrite H1, H2, H3; simpl;
  try (split; [discriminate |]; split; [| split]);
  try (intros x Hin; repeat (apply elem_of_cons in Hin as [Hin|Hin]; [discriminate |]);
       by apply elem_of_nil in Hin);
  try (intros k x Hin;
       repeat (apply elem_of_cons in Hin as [Hin|Hin];
               [inversion Hin; subst; split; [set_solver | split; assumption] |]);
       by apply elem_of_nil in Hin).
  intros k x Hk Hx.
  assert (Hcase : k = "transcoded" \/ k = "thumbnail" \/ k = "s3_outputs") by set_solver.
  clear Hk. destruct Hcase as [-> | [-> | ->]].
  - rewrite Hx in H1. destruct (truthy x); [discriminate | reflexivity].
  - rewrite Hx in H2. destruct (truthy x); [discriminate | reflexivity].
  - rewrite Hx in H3. destruct (truthy x); [discriminate | reflexivity].
Qed.

(** X20. [_result_for_user] for a user who is not [admin]: of a result
    dict only [transcoded], [thumbnail] and [s3_outputs] are shown, each
    with the value it has in the result and only when that value is true in
    an [if]; so [inference] and [frames_dir] are never shown; and when
    nothing is left the answer is [None], not an empty dict.  For [admin]
    the result is returned as it is. *)
Theorem result_for_user_hides_inference (d : list (string * value)) (role : string) :
  role <> "admin" ->
  _result_for_user (Some (VDict d)) "admin" = inr (Some (VDict d)) /\
  exists out,
    _result_for_user (Some (VDict d)) role = inr out /\
    match out with
    | Some (VDict f) =>
        f <> [] /\
        (forall k x, (k, x) ∈ f ->
           k ∈ ["transcoded"; "thumbnail"; "s3_outputs"] /\
           assoc_get d k = Some x /\ truthy x = true) /\
        (forall x, ("inference", x) ∉ f) /\
        (forall x, ("frames_dir", x) ∉ f)
    | Some _ => False
    | None =>
        forall k x, k ∈ ["transcoded"; "thumbnail"; "s3_outputs"] ->
                    assoc_get d k = Some x -> truthy x = false
    end.
Proof.
  intros Hrole. split; [reflexivity |]. apply result_for_user_filtered, Hrole.
Qed.

Lemma admin_required_accepts W u :
  admin_required W u = inr u <->
  lower (role u) = "admin" \/ "admin" ∈ map lower (groups u).
Proof.
  unfold admin_required.
  destruct (bool_decide (lower (role u) = "admin")) eqn:Hr;
  destruct (bool_decide ("admin" ∈ map lower (groups u))) eqn:Hg; simpl;
    try apply bool_decide_eq_true in Hr; try apply bool_decide_eq_true in Hg;
    try apply bool_decide_eq_false in Hr; try apply bool_decide_eq_false in Hg;
    split; auto; try discriminate.
  intros [?|?]; contradiction.
Qed.

(** X21. Two admin checks that do not agree.  [admin_required] accepts a
    user whose role is [admin] in any case of the letters, or who is in a
    group named [admin] in any case, and refuses every other user with
    403; [get_ml_results] looks at the role only and as it is written: a
    user whose role is not exactly [admin] is refused with 403 before the
    database is read, even when [admin_required] accepts them, and
    whoever [get_ml_results] lets through [admin_required] accepts. *)
Theorem ml_results_needs_exact_admin_role
    (W : web) (u : user) (job_id : string) (E : env) (s : sql_state * list string) :
  (admin_required W u = inr u <->
   lower (role u) = "admin" \/ "admin" ∈ map lower (groups u)) /\
  (admin_required W u <> inr u ->
   exists detail, admin_required W u = inl (HTTPException 403 detail)) /\
  (role u <> "admin" ->
   get_ml_results u job_id E s =
     (Raise (HTTPException 403 "Admin access required for ML results"), s)) /\
  (role u = "admin" -> admin_required W u = inr u).
Proof.
  split; [apply admin_required_accepts |]. split; [| split].
  - unfold admin_required. destruct (negb _); [eauto | congruence].
  - intros Hr. unfold get_ml_results.
    rewrite bool_decide_eq_false_2 by exact Hr. reflexivity.
  - intros Hr. apply admin_required_accepts. left. rewrite Hr. reflexivity.
Qed.

Lemma find_job_run job E (s : sql_state * list string) :
  sql_fault E (q_calls s.1) = None ->
  find_job job E s = (Ret (q_rows s.1 !! job), (mk_sql (q_rows s.1) (S (q_calls s.1)), s.2)).
Proof.
  intros Hf. unfold find_job, bind. rewrite sql_call_run, Hf. reflexivity.
Qed.

Lemma result_value_entries r :
  truthy (result_value r) = true /\
  py_contains "inference" (result_value r) = inr true /\
  py_getitem (result_value r) "inference" = inr (VList (res_inference r)) /\
  forall o, res_s3_outputs r = Some o ->
    py_contains "s3_outputs" (result_value r) = inr true /\
    py_getitem (result_value r) "s3_outputs" = inr (s3_outputs_value o).
Proof.
  unfold result_value. split; [reflexivity |]. split; [by vm_compute |].
  split; [by vm_compute |]. intros o ->. split; by vm_compute.
Qed.

Lemma s3_outputs_value_transcoded o :
  match so_transcoded o with
  | Some ku =>
      py_contains "transcoded" (s3_outputs_value o) = inr true /\
      py_getitem (s3_outputs_value o) "transcoded" = inr (key_url ku) /\
      py_getitem (key_url ku) "key" = inr (VStr ku.1)
  | None => py_contains "transcoded" (s3_outputs_value o) = inr false
  end.
Proof.
  unfold s3_outputs_value.
  destruct (so_transcoded o) as [[k url]|].
  - split; [by vm_compute |]. split; by vm_compute.
  - destruct (so_thumbnail o) as [[k url]|]; destruct (so_frames o); by vm_compute.
Qed.

(** X22. The download of a processed job.  For a row as the worker writes
    it ([done], with the result of the run), [download_transcoded] answers
    the signed URL of the very key under which the run stored the
    transcoded file; it answers 404 when the run stored none; and whatever
    the signer raises reaches the client as an HTTP 500, a [ClientError]
    wrapped twice. *)
Theorem download_serves_uploaded_key
    (W : web) (job : string) (r : job_result) (o : s3_outputs) (E : env)
    (s : sql_state * list string) :
  q_rows s.1 !! job = Some (mk_row "done" (Some (result_value r))) ->
  res_s3_outputs r = Some o ->
  sql_fault E (q_calls s.1) = None ->
  (download_transcoded W job E s).1 =
    match so_transcoded o with
    | None => Raise (HTTPException 404 "Transcoded file not available")
    | Some ku =>
        match presign W "get_object" (VStr ku.1) (presigned_url_expiry W) with
        | inr url => Ret url
        | inl e =>
            Raise (HTTPException 500
                     ("Failed to generate download URL: "
                      +:+ str_exn E (presign_error E e)))
        end
    end.
Proof.
  intros Hrow Ho Hf. unfold download_transcoded, download_artifact.
  rewrite (bind_Ret_step _ _ _ _ _ _ (find_job_run job E s Hf)). rewrite Hrow.
  cbn [r_status r_result negb default from_option id]. rewrite bool_decide_eq_true_2 by reflexivity.
  cbn [negb].
  destruct (result_value_entries r) as (Ht & _ & _ & Hs3).
  destruct (Hs3 o Ho) as [Hc Hg]. unfold lacks. rewrite Ht, Hc, Hg. cbn [negb of_sum].
  unfold bind at 1. unfold ret at 1. cbn iota. unfold bind at 1. unfold ret at 1. cbn iota.
  pose proof (s3_outputs_value_transcoded o) as Hso.
  destruct (so_transcoded o) as [ku|].
  - destruct Hso as (H1 & H2 & H3). rewrite H1, H2. cbn [negb of_sum].
    unfold bind at 1. unfold ret at 1. cbn iota. unfold bind at 1. unfold ret at 1. cbn iota.
    rewrite H3. cbn [of_sum]. unfold bind at 1. unfold ret at 1. cbn iota.
    unfold try_except, generate_presigned_url, bind, ask, presign_error, ret, raise.
    destruct (presign W "get_object" (VStr ku.1) (presigned_url_expiry W)) as [e|u];
      [| reflexivity].
    destruct (is_ClientError e); reflexivity.
  - rewrite Hso. cbn [negb of_sum].
    unfold bind at 1. unfold ret at 1. cbn iota. reflexivity.
Qed.

(** X23. A job whose run failed is never served.  When [process_job_s3]
    raises (the workspace could not be made, or a stage failed and the
    handler raised), the relational store is exactly as it was before the
    run, so for a job whose row was not [done], [download_transcoded]
    still answers 400 [Job not completed yet]. *)
Theorem failed_job_is_not_served
    (W : web) (key job : string) (fps : Z) (E : env) (w w' : world)
    (x : exn) (row : job_row) (out : list string) :
  process_job_s3 key job fps E w = (Raise x, w') ->
  q_rows (w_sql w) !! job = Some row ->
  r_status row <> "done" ->
  sql_fault E (q_calls (w_sql w)) = None ->
  w_sql w' = w_sql w /\
  (download_transcoded W job E (w_sql w', out)).1 =
    Raise (HTTPException 400 "Job not completed yet").
Proof.
  intros Hrun Hrow Hst Hf.
  assert (Hsql : w_sql w' = w_sql w).
  { apply process_job_s3_Raise_inv in Hrun
      as [Ht | (temp & w0 & e & w1 & Ht & Hp & _ & ->)].
    - apply workspace_keeps_tracker in Ht as [_ Hq]. exact Hq.
    - apply workspace_keeps_tracker in Ht as [_ Hq0]. simpl.
      rewrite <- Hq0. exact (pipeline_raise_keeps_sql key job fps temp E w0 e w1 Hp). }
  split; [exact Hsql |]. rewrite Hsql.
  unfold download_transcoded, download_artifact.
  rewrite (bind_Ret_step _ _ _ _ _ _ (find_job_run job E (w_sql w, out) Hf)).
  cbn [fst]. rewrite Hrow. rewrite bool_decide_eq_false_2 by exact Hst. reflexivity.
Qed.

(** X24. What a user who is not [admin] is shown of a processed job by
    [get_job]: the status, and of the result never the inference nor the
    frames directory, only entries of the result under [transcoded],
    [thumbnail] and [s3_outputs]; an [admin] is shown the whole result,
    inference included. *)
Theorem get_job_shows_outputs_not_inference
    (W : web) (u : user) (job : string) (r : job_result) (E : env)
    (s : sql_state * list string) :
  q_rows s.1 !! job = Some (mk_row "done" (Some (result_value r))) ->
  sql_fault E (q_calls s.1) = None ->
  exists js entries,
    result_value r = VDict entries /\
    (Jobs.get_job W u job E s).1 = Ret js /\
    Jobs.js_status js = "done" /\
    (role u = "admin" ->
     Jobs.js_result js = Some entries /\
     assoc_get entries "inference" = Some (VList (res_inference r))) /\
    (role u <> "admin" ->
     match Jobs.js_result js with
     | None => True
     | Some f =>
         (forall x, ("inference", x) ∉ f) /\ (forall x, ("frames_dir", x) ∉ f) /\
         (forall k x, (k, x) ∈ f -> assoc_get entries k = Some x)
     end).
Proof.
  intros Hrow Hf. unfold Jobs.get_job.
  rewrite (bind_Ret_step _ _ _ _ _ _ (find_job_run job E s Hf)). rewrite Hrow.
  cbn [r_status r_result]. unfold result_value.
  set (entries := _ ++ _).
  destruct (decide (role u = "admin")) as [Hadm|Hadm].
  - exists (Jobs.mk_job_status job "done" (Some entries)), entries.
    split; [reflexivity |]. unfold _result_for_user.
    rewrite bool_decide_eq_true_2 by exact Hadm.
    split; [reflexivity |]. split; [reflexivity |].
    split; [intros _; split; reflexivity | contradiction].
  - destruct (result_for_user_filtered entries (role u) Hadm) as (out & Hout & Hshape).
    rewrite Hout. destruct out as [[ | | | | | | |f]|]; try contradiction.
    + exists (Jobs.mk_job_status job "done" (Some f)), entries.
      split; [reflexivity |]. split; [reflexivity |]. split; [reflexivity |].
      split; [contradiction |]. intros _. simpl.
      destruct Hshape as (_ & Hk & Hi & Hd).
      split; [exact Hi |]. split; [exact Hd |].
      intros k x Hin. apply (Hk k x Hin).
    + exists (Jobs.mk_job_status job "done" None), entries.
      split; [reflexivity |]. split; [reflexivity |]. split; [reflexivity |].
      split; [contradiction | intros _; exact I].
Qed.

(** X25. [get_ml_results] on a processed job, for an [admin]: the
    inference of the run is returned as it is, and [total_frames] is the
    number of its entries (0 for an empty inference). *)
Theorem ml_results_counts_frames
    (u : user) (job : string) (r : job_result) (E : env) (s : sql_state * list string) :
  role u = "admin" ->
  q_rows s.1 !! job = Some (mk_row "done" (Some (result_value r))) ->
  sql_fault E (q_calls s.1) = None ->
  (get_ml_results u job E s).1 =
    Ret (mk_ml_results job (VList (res_inference r))
           (Z.of_nat (length (res_inference r)))).
Proof.
  intros Hadm Hrow Hf. unfold get_ml_results.
  rewrite bool_decide_eq_true_2 by exact Hadm. cbn [negb].
  rewrite (bind_Ret_step _ _ _ _ _ _ (find_job_run job E s Hf)). rewrite Hrow.
  cbn [r_status r_result negb default from_option id]. rewrite bool_decide_eq_true_2 by reflexivity.
  cbn [negb].
  destruct (result_value_entries r) as (Ht & Hc & Hg & _).
  unfold lacks. rewrite Ht, Hc, Hg. cbn [negb of_sum].
  unfold bind, ret. cbn.
  destruct (res_inference r); reflexivity.
Qed.

(** ** The progress route *)

Lemma get_job_progress_read W job E (s : ddb_state * list string) :
  exists out',
    DynamoDBReads.get_job_progress W job E s =
      (match get_item_fault W with
       | None => Ret (d_table s.1 !! (qut_username E, job))
       | Some (ServiceError _ _) => Ret None
       | Some (LibraryError cls msg) => Raise (OtherException cls msg)
       end, (s.1, out')).
Proof.
  unfold DynamoDBReads.get_job_progress, DynamoDBReads.get_item,
    try_except_ClientError, bind, ask, print, ret.
  destruct s as [d out]. simpl.
  destruct (get_item_fault W) as [[c m|c m]|]; simpl; eauto.
Qed.

(** X26. The progress route never answers 404.  Its 404 [Job progress not
    found] is raised inside the [try] whose handler turns every exception
    into a 500, so for a job without a record, and also when the read of
    the table is refused, the client gets 500 [Failed to get job progress:
    ...]; no exception other than an HTTP 500 leaves the route, and the
    table is not changed. *)
Theorem progress_route_never_answers_404
    (W : web) (job : string) (E : env) (s : ddb_state * list string) :
  let r := Jobs.get_job_progress W job E s in
  r.2.1 = s.1 /\
  (forall e, r.1 = Raise e -> exists detail, e = HTTPException 500 detail) /\
  (get_job_progress E s.1 job = None ->
   (forall cls msg, get_item_fault W <> Some (LibraryError cls msg)) ->
   r.1 = Raise (HTTPException 500
                  ("Failed to get job progress: "
                   +:+ str_http E 404 "Job progress not found"))).
Proof.
  intros r. subst r. unfold Jobs.get_job_progress, try_except.
  destruct (get_job_progress_read W job E s) as [out' Hread].
  unfold get_job_progress.
  destruct (get_item_fault W) as [[c m|c m]|] eqn:Hf.
  - rewrite (bind_Ret_step _ _ _ _ _ _ Hread). unfold raise, bind, ask. simpl.
    split; [reflexivity |]. split; [| reflexivity].
    intros e He. inversion He. eauto.
  - rewrite (bind_Raise_step _ _ _ _ _ _ Hread). unfold raise, bind, ask. simpl.
    split; [reflexivity |]. split.
    + intros e He. inversion He. eauto.
    + intros _ Hn. exfalso. eapply Hn. reflexivity.
  - rewrite (bind_Ret_step _ _ _ _ _ _ Hread).
    destruct (d_table s.1 !! (qut_username E, job)) as [item|].
    + case_bool_decide; unfold raise, bind, ask, ret; simpl.
      * split; [reflexivity |]. split; [| discriminate].
        intros e He. inversion He. eauto.
      * split; [reflexivity |]. split; discriminate.
    + unfold raise, bind, ask. simpl. split; [reflexivity |]. split; [| reflexivity].
      intros e He. inversion He. eauto.
Qed.

(** An attribute that no write of the tracker names stays as it is. *)
Lemma run_op_keeps_attr a op E s key item :
  a ∉ ["progress"; "current_step"; "updated_at"; "ml_result"; "status"; "error_message"] ->
  d_table s.1 !! key = Some item ->
  exists item', d_table (run_op op E s).2.1 !! key = Some item' /\ item' !! a = item !! a.
Proof.
  destruct s as [d out]. simpl. intros Ha Hitem.
  assert (Hgen : forall key0 sets, a ∉ sets.*1 ->
            exists item', table_after_update E key0 sets d !! key = Some item' /\
                          item' !! a = item !! a).
  { intros key0 sets Hn. destruct (decide (key0 = key)) as [->|Hne].
    - destruct (table_after_update_same E key sets d item Hitem) as (item' & H1 & H2 & _).
      exists item'. split; [exact H1 | apply H2, Hn].
    - exists item. split; [| reflexivity].
      rewrite table_after_update_other; [exact Hitem | exact Hne]. }
  destruct op as [j p c ss r | j r | j msg]; simpl.
  - destruct (update_job_progress_run j p c ss r E d out) as [out' ->]. simpl.
    apply Hgen. unfold progress_sets. destruct (truthy r); simpl; set_solver.
  - destruct (complete_job_run j r E d out) as [out' ->]. simpl.
    apply Hgen. simpl. set_solver.
  - destruct (fail_job_run j msg E d out) as [out' ->]. simpl.
    apply Hgen. simpl. set_solver.
Qed.

Lemma run_ops_keep_attr a ops E s key item :
  a ∉ ["progress"; "current_step"; "updated_at"; "ml_result"; "status"; "error_message"] ->
  d_table s.1 !! key = Some item ->
  exists item', d_table (run_ops ops E s).1 !! key = Some item' /\ item' !! a = item !! a.
Proof.
  intros Ha. revert s item. induction ops as [|op ops IH]; intros s item Hitem; simpl.
  - eauto.
  - destruct (run_op_keeps_attr a op E s key item Ha Hitem) as (item1 & H1 & Hs1).
    destruct (IH _ _ H1) as (item2 & H2 & Hs2).
    exists item2. split; [exact H2 | congruence].
Qed.

(** X27. The progress route never shows the result of a job.  The tracker
    stores the result under [ml_result], the route reads [result]: for a
    record created by [create_job_progress] and then written by any
    sequence of [update_job_progress], [complete_job] and [fail_job], the
    route answers with [result] = [None], whereas the owner, the file name
    and the table of steps are those of the creation. *)
Theorem progress_route_never_shows_result
    (W : web) (job video owner : string) (ops : list tracker_op) (E : env)
    (s s1 : ddb_state * list string) :
  create_job_progress job video owner E s = (Ret true, s1) ->
  get_item_fault W = None ->
  exists resp,
    (Jobs.get_job_progress W job E (run_ops ops E s1)).1 = Ret resp /\
    Jobs.jp_result resp = VNone /\
    Jobs.jp_steps resp = initial_steps /\
    Jobs.jp_video_filename resp = VStr video /\
    Jobs.jp_total_steps resp = VInt 5.
Proof.
  intros Hcreate Hread.
  assert (Hitem0 : exists item0,
            d_table s1.1 !! (qut_username E, job) = Some item0 /\
            item0 !! "result" = None /\ item0 !! "steps" = Some initial_steps /\
            item0 !! "video_filename" = Some (VStr video) /\
            item0 !! "total_steps" = Some (VInt 5)).
  { destruct s as [d out]. revert Hcreate.
    unfold create_job_progress, try_except_ClientError, bind, ask, timestamp, put_item,
      print, ret. simpl.
    destruct (ddb_fault E (length (d_requests d))) as [[c m|c m]|]; simpl;
      intros Heq; inversion Heq; subst; clear Heq; simpl.
    eexists. split; [apply lookup_insert_eq |]. by simplify_map_eq. }
  destruct Hitem0 as (item0 & H0 & Hr0 & Hs0 & Hv0 & Ht0).
  set (s2 := run_ops ops E s1).
  assert (Hkeep : forall a,
            a ∉ ["progress"; "current_step"; "updated_at"; "ml_result"; "status";
                 "error_message"] ->
            exists item, d_table s2.1 !! (qut_username E, job) = Some item /\
                         item !! a = item0 !! a).
  { intros a Ha. apply run_ops_keep_attr; assumption. }
  destruct (Hkeep "result" ltac:(set_solver)) as (item & Hit & Hres).
  destruct (Hkeep "steps" ltac:(set_solver)) as (item' & Hit' & Hsteps).
  destruct (Hkeep "video_filename" ltac:(set_solver)) as (item'' & Hit'' & Hvid).
  destruct (Hkeep "total_steps" ltac:(set_solver)) as (item''' & Hit''' & Htot).
  assert (item' = item) by congruence. assert (item'' = item) by congruence.
  assert (item''' = item) by congruence. subst item' item'' item'''.
  unfold Jobs.get_job_progress, try_except.
  destruct (get_job_progress_read W job E s2) as [out' Hrd].
  rewrite Hread, Hit in Hrd.
  rewrite (bind_Ret_step _ _ _ _ _ _ Hrd).
  rewrite bool_decide_eq_false_2.
  - eexists. split; [reflexivity |]. simpl. unfold Jobs.item_get.
    rewrite Hres, Hr0, Hsteps, Hs0, Hvid, Hv0, Htot, Ht0. repeat split.
  - intros ->. rewrite lookup_empty in Hsteps. congruence.
Qed.


(** ** Running a job twice *)

Section RerunFacts.
Import S3Config S3Service Tasks Orchestrator.













(** *** A machine on which every stage works *)

Section Working.
Context (E : env) (Hio : forall n, io_fault E n = None).
Context (ffmpeg : string) (Hw : nonempty (which_ffmpeg E) = Some ffmpeg).
Context (Hexit : forall cmd, ffmpeg_exit E cmd = 0).



Lemma steady_subprocess_run cmd : steady E (subprocess_run cmd).
Proof.
  exists tt, []. intros s. exists s. rewrite subprocess_run_run, Hexit.
  split; [reflexivity | by rewrite app_nil_r].
Qed.






Context (Hddb : forall n, ddb_fault E n = None).





End Working.


End RerunFacts.



(** ** The properties above on the examples *)

(** X2 on job-1, whose record exists already. *)
Lemma create_job_progress_replaces_record_witness :
  ddb_fault demo_env (length (d_requests demo_ddb)) = None /\
  exists item,
    get_job_progress demo_env
      (create_job_progress "job-1" "again.mp4" "bob" demo_env (demo_ddb, [])).2.1 "job-1"
      = Some item /\
    item !! "status" = Some (VStr "queued") /\
    item !! "error_message" = None.
Proof.
  assert (H : ddb_fault demo_env (length (d_requests demo_ddb)) = None) by reflexivity.
  split; [exact H |].
  destruct (create_job_progress_replaces_record demo_env demo_ddb [] "job-1" "again.mp4"
              "bob" H) as (_ & (item & Hget & Hst & _ & _ & _ & _ & Herr & _) & _).
  exists item. repeat split; assumption.
Defined.

(** X3 on a table that is throttled. *)
Lemma tracker_writes_on_refusal_witness :
  ddb_fault demo_env_throttled (length (d_requests demo_ddb))
    = Some (ServiceError "ProvisionedThroughputExceededException"
              "An error occurred (ProvisionedThroughputExceededException)") /\
  (run_op (OpFail "job-1" "ffmpeg not found in PATH") demo_env_throttled (demo_ddb, [])).1
    = Ret false.
Proof.
  assert (H : ddb_fault demo_env_throttled (length (d_requests demo_ddb))
              = Some (ServiceError "ProvisionedThroughputExceededException"
                        "An error occurred (ProvisionedThroughputExceededException)"))
    by reflexivity.
  split; [exact H |].
  destruct (tracker_writes_on_refusal demo_env_throttled demo_ddb [] _ H) as [_ Hops].
  destruct (Hops (OpFail "job-1" "ffmpeg not found in PATH")) as [Hans _].
  exact Hans.
Defined.

(** X4 on job-1. *)
Lemma terminal_writes_keep_stale_fields_witness :
  ddb_fault demo_env (length (d_requests demo_ddb)) = None /\
  ddb_fault demo_env (S (length (d_requests demo_ddb))) = None /\
  exists item,
    get_job_progress demo_env
      (fail_job "job-1" "late error" demo_env
         (complete_job "job-1" (VDict [("transcoded", VStr "transcoded.mp4")]) demo_env
            (demo_ddb, [])).2).2.1 "job-1" = Some item /\
    item !! "status" = Some (VStr "failed") /\
    item !! "progress" = Some (VInt 100).
Proof.
  assert (H0 : ddb_fault demo_env (length (d_requests demo_ddb)) = None) by reflexivity.
  assert (H1 : ddb_fault demo_env (S (length (d_requests demo_ddb))) = None) by reflexivity.
  split; [exact H0 |]. split; [exact H1 |].
  destruct (terminal_writes_keep_stale_fields demo_env demo_ddb [] "job-1" "late error"
              (VDict [("transcoded", VStr "transcoded.mp4")]) H0 H1)
    as [(item & Hget & Hst & Hp & _) _].
  exists item. repeat split; assumption.
Defined.

(** X5 on job-9, which was never created. *)
Lemma update_job_progress_creates_partial_record_witness :
  get_job_progress demo_env demo_ddb "job-9" = None /\
  ddb_fault demo_env (length (d_requests demo_ddb)) = None /\
  exists item,
    get_job_progress demo_env
      (update_job_progress "job-9" 20 "download" "Downloading video from S3..." VNone
         demo_env (demo_ddb, [])).2.1 "job-9" = Some item /\
    item !! "progress" = Some (VInt 20) /\
    item !! "status" = None.
Proof.
  assert (H0 : get_job_progress demo_env demo_ddb "job-9" = None)
    by (vm_compute; reflexivity).
  assert (H1 : ddb_fault demo_env (length (d_requests demo_ddb)) = None) by reflexivity.
  split; [exact H0 |]. split; [exact H1 |].
  destruct (update_job_progress_creates_partial_record demo_env demo_ddb [] "job-9"
              "download" "Downloading video from S3..." 20 VNone H0 H1)
    as (_ & item & Hget & _ & Hp & _ & Hst & _).
  exists item. repeat split; assumption.
Defined.

(** X6 on job-1 after an update and a completion. *)
Lemma tracker_writes_only_terminal_statuses_witness :
  let ops := [OpUpdate "job-1" 20 "download" "Downloading video from S3..." VNone;
              OpComplete "job-1" (VDict [("transcoded", VStr "transcoded.mp4")])] in
  let item' := default ∅ (get_job_progress demo_env
                            (run_ops ops demo_env (demo_ddb, [])).1 "job-1") in
  get_job_progress demo_env (run_ops ops demo_env (demo_ddb, [])).1 "job-1" = Some item' /\
  item' !! "status" = Some (VStr "completed") /\
  (VStr "completed" = VStr "completed" \/ VStr "completed" = VStr "failed" \/
   exists item,
     d_table demo_ddb !! ("n11086840@qut.edu.au", "job-1") = Some item /\
     item !! "status" = Some (VStr "completed")).
Proof.
  intros ops item'.
  assert (H0 : d_table (run_ops ops demo_env (demo_ddb, [])).1
                 !! ("n11086840@qut.edu.au", "job-1") = Some item')
    by (vm_compute; reflexivity).
  assert (H1 : item' !! "status" = Some (VStr "completed")) by (vm_compute; reflexivity).
  split; [exact H0 |]. split; [exact H1 |].
  exact (tracker_writes_only_terminal_statuses ops demo_env (demo_ddb, []) _ item' _ H0 H1).
Defined.

(** X7 on the bucket of the example. *)
Lemma upload_then_download_round_trip_witness :
  io_fault demo_env (g_calls demo_stage) = None /\
  io_fault demo_env (S (g_calls demo_stage)) = None /\
  exists u s1 s2,
    upload_file "frame bytes" "temp/job-1/frames/frame_00001.JPG" (Some "image/jpeg")
      demo_env (demo_stage, []) = (Ret u, s1) /\
    download_file "temp/job-1/frames/frame_00001.JPG" demo_env s1
      = (Ret "frame bytes", s2).
Proof.
  assert (H0 : io_fault demo_env (g_calls demo_stage) = None) by reflexivity.
  assert (H1 : io_fault demo_env (S (g_calls demo_stage)) = None) by reflexivity.
  split; [exact H0 |]. split; [exact H1 |].
  destruct (upload_then_download_round_trip demo_env (demo_stage, []) "frame bytes"
              "temp/job-1/frames/frame_00001.JPG" (Some "image/jpeg") H0 H1)
    as (u & s1 & s2 & o & Hu & _ & _ & _ & _ & _ & Hd & _).
  exists u, s1, s2. split; assumption.
Defined.

(** X10 on the input of job-1. *)
Lemma delete_file_removes_key_witness :
  io_fault demo_env (g_calls demo_stage) = None /\
  io_fault demo_env (S (g_calls demo_stage)) = None /\
  (delete_file "uploads/v.mp4" demo_env (demo_stage, [])).1 = Ret true /\
  (file_exists "uploads/v.mp4" demo_env
     (delete_file "uploads/v.mp4" demo_env (demo_stage, [])).2).1 = Ret false.
Proof.
  assert (H0 : io_fault demo_env (g_calls demo_stage) = None) by reflexivity.
  assert (H1 : io_fault demo_env (S (g_calls demo_stage)) = None) by reflexivity.
  split; [exact H0 |]. split; [exact H1 |].
  destruct (delete_file_removes_key demo_env (demo_stage, []) "uploads/v.mp4" H0 H1)
    as (Hr & Hx & _).
  split; assumption.
Defined.

(** X11 on a key that is not in the bucket. *)
Lemma copy_file_answers_witness :
  io_fault demo_env (g_calls demo_stage) = None /\
  g_bucket demo_stage !! "uploads/missing.mp4" = None /\
  (copy_file "uploads/missing.mp4" "uploads/copy.mp4" demo_env (demo_stage, [])).1
    = Ret false.
Proof.
  assert (H0 : io_fault demo_env (g_calls demo_stage) = None) by reflexivity.
  assert (H1 : g_bucket demo_stage !! "uploads/missing.mp4" = None)
    by (vm_compute; reflexivity).
  split; [exact H0 |]. split; [exact H1 |].
  pose proof (copy_file_answers demo_env (demo_stage, []) "uploads/missing.mp4"
                "uploads/copy.mp4" H0) as H.
  cbv zeta in H. change (g_bucket (demo_stage, ([] : list string)).1) with
    (g_bucket demo_stage) in H. rewrite H1 in H. exact (proj1 H).
Defined.

(** X12 on two jobs. *)
Lemma job_keys_are_injective_witness :
  has_char "/" "job-1" = false /\ has_char "/" "job-2" = false /\
  (get_temp_key demo_env "job-1" "result.json" = get_temp_key demo_env "job-2" "result.json"
   -> "job-1" = "job-2" /\ "result.json" = "result.json").
Proof.
  assert (H1 : has_char "/" "job-1" = false) by reflexivity.
  assert (H2 : has_char "/" "job-2" = false) by reflexivity.
  split; [exact H1 |]. split; [exact H2 |].
  destruct (job_keys_are_injective demo_env "job-1" "job-2" "result.json" "result.json")
    as [Hkeys _].
  destruct (Hkeys H1 H2) as (_ & _ & Htemp). exact Htemp.
Defined.

(** X13 on the second frame of the example. *)
Lemma classify_labels_witness :
  topk_scores demo_env "/tmp/tmpjob/frames/frame_00002.jpg" 3
    = inr [(1%nat, "0.9"); (0%nat, "0.1")] /\
  classify demo_env "/tmp/tmpjob/frames/frame_00002.jpg" 3
    = inr [VDict [("index", VInt 1); ("label", VStr "dog"); ("probability", VFloat "0.9")];
           VDict [("index", VInt 0); ("label", VStr "cat"); ("probability", VFloat "0.1")]].
Proof.
  assert (H : topk_scores demo_env "/tmp/tmpjob/frames/frame_00002.jpg" 3
              = inr [(1%nat, "0.9"); (0%nat, "0.1")]) by reflexivity.
  split; [exact H |].
  pose proof (classify_labels demo_env "/tmp/tmpjob/frames/frame_00002.jpg" 3 _ H) as Hc.
  change (labels_map demo_env) with (Some ["cat"; "dog"]) in Hc.
  destruct Hc as [Hok _]. rewrite Hok; [reflexivity |].
  repeat constructor.
Defined.

(** X14 on the stages of job-1, run on their own. *)
Lemma process_job_result_shape_witness :
  let run := process_job "/tmp/tmpjob/input_video.mp4" "/tmp/tmpjob" 1 demo_env
               (demo_stage, []) in
  let r := mk_result (Some "transcoded.mp4") (Some "thumbnail.jpg") "/tmp/tmpjob/frames"
             (res_inference demo_result) None in
  run = (Ret r, run.2) /\
  res_thumbnail r =
    (if existsb is_jpg (listdir demo_env (path_join "/tmp/tmpjob" "frames"))
     then Some "thumbnail.jpg" else None) /\
  g_puts run.2.1 = g_puts demo_stage.
Proof.
  intros run r.
  assert (H : run = (Ret r, run.2)) by (vm_compute; reflexivity).
  split; [exact H |].
  destruct (process_job_result_shape "/tmp/tmpjob/input_video.mp4" "/tmp/tmpjob" 1
              demo_env (demo_stage, []) run.2 r H) as (_ & _ & _ & Hth & _ & Hp).
  split; assumption.
Defined.

(** X15 on a machine where the model cannot be loaded. *)
Lemma process_job_inference_outcome_witness :
  let run := process_job "/tmp/tmpjob/input_video.mp4" "/tmp/tmpjob" 1 demo_env_no_model
               (demo_stage, []) in
  let r := mk_result (Some "transcoded.mp4") (Some "thumbnail.jpg") "/tmp/tmpjob/frames"
             [VDict [("error", VStr "model weights cannot be downloaded");
                     ("trace", VStr "Traceback (most recent call last): ...")]] None in
  run = (Ret r, run.2) /\
  g_model demo_stage = false /\
  io_fault demo_env_no_model (3 + g_calls demo_stage)
    = Some (LibraryError "URLError" "model weights cannot be downloaded") /\
  res_inference r =
    [VDict [("error",
             VStr (str_exn demo_env_no_model
                     (exn_of_fault
                        (LibraryError "URLError" "model weights cannot be downloaded"))));
            ("trace",
             VStr (format_exc demo_env_no_model
                     (exn_of_fault
                        (LibraryError "URLError" "model weights cannot be downloaded"))))]].
Proof.
  intros run r.
  assert (H : run = (Ret r, run.2)) by (vm_compute; reflexivity).
  assert (Hm : g_model demo_stage = false) by reflexivity.
  assert (Hf : io_fault demo_env_no_model (3 + g_calls demo_stage)
               = Some (LibraryError "URLError" "model weights cannot be downloaded"))
    by reflexivity.
  split; [exact H |]. split; [exact Hm |]. split; [exact Hf |].
  destruct (process_job_inference_outcome "/tmp/tmpjob/input_video.mp4" "/tmp/tmpjob" 1
              demo_env_no_model (demo_stage, []) run.2 r H) as [_ Hfail].
  exact (Hfail _ Hm Hf).
Defined.

(** X16 on the uploads of job-1. *)
Lemma upload_outputs_uploads_witness :
  let run := upload_outputs "job-1" "/tmp/tmpjob" demo_result demo_env (demo_stage, []) in
  run = (Ret demo_result, run.2) /\
  exists o,
    res_s3_outputs demo_result = Some o /\
    g_puts run.2.1 =
      g_puts demo_stage
      ++ match so_transcoded o with Some ku => [ku.1] | None => [] end
      ++ match so_thumbnail o with Some ku => [ku.1] | None => [] end
      ++ match so_frames o with Some fs => fs.*1.*2 | None => [] end
      ++ [get_temp_key demo_env "job-1" "result.json"].
Proof.
  intros run.
  assert (H : run = (Ret demo_result, run.2)) by (vm_compute; reflexivity).
  split; [exact H |].
  destruct (upload_outputs_uploads "job-1" "/tmp/tmpjob" demo_result demo_env
              (demo_stage, []) run.2 demo_result H) as (o & Ho & _ & _ & Hp).
  exists o. split; assumption.
Defined.

(** X20 on a result with an inference, for a plain user. *)
Lemma result_for_user_hides_inference_witness :
  "user" <> "admin" /\
  exists out,
    _result_for_user
      (Some (VDict [("transcoded", VStr "transcoded.mp4");
                    ("inference", VList [VDict [("frame", VStr "frame_00001.jpg")]])]))
      "user" = inr out.
Proof.
  assert (H : "user" <> "admin") by discriminate.
  split; [exact H |].
  destruct (result_for_user_hides_inference
              [("transcoded", VStr "transcoded.mp4");
               ("inference", VList [VDict [("frame", VStr "frame_00001.jpg")]])]
              "user" H) as (_ & out & Hout & _).
  exists out. exact Hout.
Defined.

(** X22 on the row that the run of job-1 leaves. *)
Lemma download_serves_uploaded_key_witness :
  let s : sql_state * list string := (w_sql demo_run.2, []) in
  let o := default (mk_outputs None None None) (res_s3_outputs demo_result) in
  q_rows s.1 !! "job-1" = Some (mk_row "done" (Some (result_value demo_result))) /\
  res_s3_outputs demo_result = Some o /\
  sql_fault demo_env (q_calls s.1) = None /\
  (download_transcoded demo_web "job-1" demo_env s).1
    = Ret "https://signed.example/transcoded/job-1/transcoded.mp4".
Proof.
  intros s o.
  assert (H1 : q_rows s.1 !! "job-1"
               = Some (mk_row "done" (Some (result_value demo_result))))
    by (vm_compute; reflexivity).
  assert (H2 : res_s3_outputs demo_result = Some o) by reflexivity.
  assert (H3 : sql_fault demo_env (q_calls s.1) = None) by reflexivity.
  split; [exact H1 |]. split; [exact H2 |]. split; [exact H3 |].
  rewrite (download_serves_uploaded_key demo_web "job-1" demo_result o demo_env s H1 H2 H3).
  reflexivity.
Defined.

(** X23 on the failed run of job-2. *)
Lemma failed_job_is_not_served_witness :
  process_job_s3 "uploads/missing.mp4" "job-2" 1 demo_env demo_world
    = (Raise (unbound_traceback demo_env), demo_failed_run.2) /\
  q_rows (w_sql demo_world) !! "job-2" = Some (mk_row "queued" None) /\
  r_status (mk_row "queued" None) <> "done" /\
  sql_fault demo_env (q_calls (w_sql demo_world)) = None /\
  w_sql demo_failed_run.2 = w_sql demo_world /\
  (download_transcoded demo_web "job-2" demo_env (w_sql demo_failed_run.2, [])).1
    = Raise (HTTPException 400 "Job not completed yet").
Proof.
  assert (H : process_job_s3 "uploads/missing.mp4" "job-2" 1 demo_env demo_world
              = (Raise (unbound_traceback demo_env), demo_failed_run.2))
    by (vm_compute; reflexivity).
  assert (H1 : q_rows (w_sql demo_world) !! "job-2" = Some (mk_row "queued" None))
    by (vm_compute; reflexivity).
  assert (H2 : r_status (mk_row "queued" None) <> "done") by discriminate.
  assert (H3 : sql_fault demo_env (q_calls (w_sql demo_world)) = None) by reflexivity.
  split; [exact H |]. split; [exact H1 |]. split; [exact H2 |]. split; [exact H3 |].
  exact (failed_job_is_not_served demo_web _ _ _ _ _ _ _ _ [] H H1 H2 H3).
Defined.

(** X24 on the row of job-1, read by a plain user. *)
Lemma get_job_shows_outputs_not_inference_witness :
  let s : sql_state * list string := (w_sql demo_run.2, []) in
  q_rows s.1 !! "job-1" = Some (mk_row "done" (Some (result_value demo_result))) /\
  sql_fault demo_env (q_calls s.1) = None /\
  exists js,
    (Jobs.get_job demo_web (demo_user "user" ["User"]) "job-1" demo_env s).1 = Ret js /\
    Jobs.js_status js = "done".
Proof.
  intros s.
  assert (H1 : q_rows s.1 !! "job-1"
               = Some (mk_row "done" (Some (result_value demo_result))))
    by (vm_compute; reflexivity).
  assert (H3 : sql_fault demo_env (q_calls s.1) = None) by reflexivity.
  split; [exact H1 |]. split; [exact H3 |].
  destruct (get_job_shows_outputs_not_inference demo_web (demo_user "user" ["User"]) "job-1"
              demo_result demo_env s H1 H3) as (js & entries & _ & Hrun & Hst & _).
  exists js. split; assumption.
Defined.

(** X25 on the row of job-1, read by an admin. *)
Lemma ml_results_counts_frames_witness :
  let s : sql_state * list string := (w_sql demo_run.2, []) in
  role (demo_user "admin" []) = "admin" /\
  q_rows s.1 !! "job-1" = Some (mk_row "done" (Some (result_value demo_result))) /\
  sql_fault demo_env (q_calls s.1) = None /\
  mr_total_frames
    <$> match (get_ml_results (demo_user "admin" []) "job-1" demo_env s).1 with
        | Ret resp => Some resp
        | Raise _ => None
        end = Some 2.
Proof.
  intros s.
  assert (H0 : role (demo_user "admin" []) = "admin") by reflexivity.
  assert (H1 : q_rows s.1 !! "job-1"
               = Some (mk_row "done" (Some (result_value demo_result))))
    by (vm_compute; reflexivity).
  assert (H3 : sql_fault demo_env (q_calls s.1) = None) by reflexivity.
  split; [exact H0 |]. split; [exact H1 |]. split; [exact H3 |].
  rewrite (ml_results_counts_frames (demo_user "admin" []) "job-1" demo_result demo_env s
             H0 H1 H3).
  reflexivity.
Defined.

(** X27 on a record created for job-3 and completed. *)
Lemma progress_route_never_shows_result_witness :
  let s1 := (create_job_progress "job-3" "v.mp4" "alice" demo_env (demo_ddb, [])).2 in
  let ops := [OpUpdate "job-3" 20 "download" "Downloading video from S3..." VNone;
              OpComplete "job-3" (VDict [("transcoded", VStr "transcoded.mp4")])] in
  create_job_progress "job-3" "v.mp4" "alice" demo_env (demo_ddb, []) = (Ret true, s1) /\
  get_item_fault demo_web = None /\
  exists resp,
    (Jobs.get_job_progress demo_web "job-3" demo_env (run_ops ops demo_env s1)).1
      = Ret resp /\
    Jobs.jp_result resp = VNone.
Proof.
  intros s1 ops.
  assert (H : create_job_progress "job-3" "v.mp4" "alice" demo_env (demo_ddb, [])
              = (Ret true, s1)) by (vm_compute; reflexivity).
  assert (Hr : get_item_fault demo_web = None) by reflexivity.
  split; [exact H |]. split; [exact Hr |].
  destruct (progress_route_never_shows_result demo_web "job-3" "v.mp4" "alice" ops
              demo_env (demo_ddb, []) s1 H Hr) as (resp & Hrun & Hres & _).
  exists resp. split; assumption.
Defined.

(** X18 on the machine of the example, which has [DATABASE_URL], and on
    one that has nothing. *)
Lemma database_url_priority_witness :
  nonempty (environ demo_env !! "DATABASE_URL")
    = Some "postgresql+psycopg2://app:secret@db:5432/cohort_2025" /\
  (database_url demo_env (demo_sql, [])).1
    = Ret (Some "postgresql+psycopg2://app:secret@db:5432/cohort_2025") /\
  nonempty (environ demo_env_no_database !! "DATABASE_URL") = None /\
  (forall url, secrets_url demo_env_no_database <> inr url) /\
  nonempty (environ demo_env_no_database !! "RDS_USERNAME") = None /\
  (update_sql_database "job-1" demo_result demo_env_no_database (demo_sql, [])).2.1
    = demo_sql.
Proof.
  assert (H1 : nonempty (environ demo_env !! "DATABASE_URL")
               = Some "postgresql+psycopg2://app:secret@db:5432/cohort_2025")
    by (vm_compute; reflexivity).
  assert (H2 : nonempty (environ demo_env_no_database !! "DATABASE_URL") = None)
    by (vm_compute; reflexivity).
  assert (H3 : forall url, secrets_url demo_env_no_database <> inr url)
    by (intros url; discriminate).
  assert (H4 : nonempty (environ demo_env_no_database !! "RDS_USERNAME") = None)
    by (vm_compute; reflexivity).
  split; [exact H1 |]. split.
  { destruct (database_url_priority demo_env (demo_sql, [])) as [Hurl _].
    rewrite (Hurl _ H1). reflexivity. }
  split; [exact H2 |]. split; [exact H3 |]. split; [exact H4 |].
  destruct (database_url_priority demo_env_no_database (demo_sql, [])) as [_ Hnone].
  destruct (Hnone H2 H3 (or_introl H4)) as [_ Hkeep].
  exact (Hkeep "job-1" demo_result).
Defined.

(** X21 on a user whose role is written [Admin]. *)
Lemma ml_results_needs_exact_admin_role_witness :
  role (demo_user "Admin" ["User"]) <> "admin" /\
  admin_required demo_web (demo_user "Admin" ["User"]) = inr (demo_user "Admin" ["User"]) /\
  get_ml_results (demo_user "Admin" ["User"]) "job-1" demo_env (demo_sql, [])
    = (Raise (HTTPException 403 "Admin access required for ML results"), (demo_sql, [])).
Proof.
  assert (H : role (demo_user "Admin" ["User"]) <> "admin") by discriminate.
  split; [exact H |].
  destruct (ml_results_needs_exact_admin_role demo_web (demo_user "Admin" ["User"])
              "job-1" demo_env (demo_sql, [])) as (Hacc & _ & Href & _).
  split; [apply Hacc; left; reflexivity | exact (Href H)].
Defined.

(** X26 on job-9, which has no record. *)
Lemma progress_route_never_answers_404_witness :
  get_job_progress demo_env demo_ddb "job-9" = None /\
  (forall cls msg, get_item_fault demo_web <> Some (LibraryError cls msg)) /\
  (Jobs.get_job_progress demo_web "job-9" demo_env (demo_ddb, [])).1
    = Raise (HTTPException 500
               "Failed to get job progress: 404: Job progress not found").
Proof.
  assert (H0 : get_job_progress demo_env demo_ddb "job-9" = None)
    by (vm_compute; reflexivity).
  assert (H1 : forall cls msg, get_item_fault demo_web <> Some (LibraryError cls msg))
    by (intros cls msg; discriminate).
  split; [exact H0 |]. split; [exact H1 |].
  destruct (progress_route_never_answers_404 demo_web "job-9" demo_env (demo_ddb, []))
    as (_ & _ & Hmiss).
  rewrite (Hmiss H0 H1). reflexivity.
Defined.
